(** * Claude dashboard: aggregation scripts and HTTP server

    A shallow embedding of the three scripts of the repository

    - the comprehensive statistics generator ([Gen], the script that writes
      [public/data.json] with tool, branch and project rankings),
    - the privacy-safe generator [generate-data.js] ([GenData]),
    - the express server [server.js] ([Server]),

    together with the part of the JavaScript runtime they rely on ([JS],
    [Lib]).  After the three scripts come the functions around them: the
    project names ([Names]), the walk of the comprehensive generator over
    the directories ([GenWalk]) and the insights it reads off the buckets
    ([Insights]), and the other handlers of the server: history, projects,
    timeline and summary ([History], [Listing], [Timeline], [Summary]).
    The first part of the file holds the definitions, the second part the
    lemmas and theorems about them. *)

From Stdlib Require Import ZArith List String Ascii Bool Lia Floats.
From Stdlib Require Import Sorting Permutation.
Import ListNotations.

Set Warnings "-inexact-float,-register-all".

Local Open Scope string_scope.
Local Open Scope Z_scope.

(* ================================================================== *)
(** * Part I: definitions *)
(* ================================================================== *)

(** ** The JavaScript runtime *)

Module JS.

(** A completion: a value, or an exception with its [message]. *)
Inductive exc (A : Type) : Type :=
| Ok (a : A)
| Throw (message : string).
Arguments Ok {A} a.
Arguments Throw {A} message.

(** Values produced by [JSON.parse].  Numbers are IEEE 754 binary64.  An
    object is given by its properties, each key once, in the order in
    which the engine enumerates them. *)
Inductive json : Type :=
| JNull
| JBool (b : bool)
| JNum (x : float)
| JStr (s : string)
| JArr (items : list json)
| JObj (props : list (string * json)).

(** A JavaScript value read from parsed data: [None] is [undefined]. *)
Definition value := option json.

Definition truthy_num (x : float) : bool :=
  negb (PrimFloat.is_zero x || PrimFloat.is_nan x).

Definition truthy (v : json) : bool :=
  match v with
  | JNull => false
  | JBool b => b
  | JNum x => truthy_num x
  | JStr s => negb (s =? "")%string
  | JArr _ => true
  | JObj _ => true
  end.

(** [Boolean(v)], the test made by [if (v)], [v && ...], [v || ...]. *)
Definition Boolean (v : value) : bool :=
  match v with
  | Some j => truthy j
  | None => false
  end.

(** First binding of a key in a property list. *)
Fixpoint assoc {V : Type} (k : string) (l : list (string * V)) : option V :=
  match l with
  | [] => None
  | (k', v) :: l' => if (k =? k')%string then Some v else assoc k l'
  end.

(** [v.k] for the property names read by the scripts ([timestamp], [type],
    [gitBranch], [message], [content], [model], [name], [display], ...):
    none of them is defined on [Object.prototype] or on the prototypes of
    strings, numbers, booleans or arrays, so only objects answer, with
    their own property; reading a property of [null] or [undefined] is a
    TypeError, with the message of the engine. *)
Definition prop (v : value) (k : string) : exc value :=
  match v with
  | None => Throw ("Cannot read properties of undefined (reading '" ++ k ++ "')")
  | Some JNull => Throw ("Cannot read properties of null (reading '" ++ k ++ "')")
  | Some (JObj ps) => Ok (assoc k ps)
  | Some _ => Ok None
  end.

(** [v?.k]: optional chaining answers [undefined] on [null] and [undefined]. *)
Definition prop_opt (v : value) (k : string) : value :=
  match v with
  | Some (JObj ps) => assoc k ps
  | _ => None
  end.

(** [v === 'lit'] for a string literal. *)
Definition strict_eq_str (v : value) (lit : string) : bool :=
  match v with
  | Some (JStr s) => (s =? lit)%string
  | _ => false
  end.

(** *** Strings: sequences of code units (here below 256) *)

(** [s.includes(sub)] *)
Fixpoint String_includes (s sub : string) : bool :=
  if prefix sub s then true
  else match s with
       | EmptyString => false
       | String _ s' => String_includes s' sub
       end.

(** [s.split(sep)] for a one-character separator. *)
Fixpoint split (sep : ascii) (s : string) : list string :=
  match s with
  | EmptyString => [EmptyString]
  | String c s' =>
      if Ascii.eqb c sep then EmptyString :: split sep s'
      else match split sep s' with
           | [] => [String c EmptyString]
           | w :: ws => String c w :: ws
           end
  end.

(** White space and line terminators below code unit 256: TAB, LF, VT, FF,
    CR, SP and NBSP. *)
Definition is_whitespace (c : ascii) : bool :=
  let n := nat_of_ascii c in
  ((9 <=? n) && (n <=? 13) || (n =? 32) || (n =? 160))%nat.

Fixpoint trimStart (s : string) : string :=
  match s with
  | EmptyString => EmptyString
  | String c s' => if is_whitespace c then trimStart s' else s
  end.

Fixpoint trimEnd (s : string) : string :=
  match s with
  | EmptyString => EmptyString
  | String c s' =>
      match trimEnd s' with
      | EmptyString => if is_whitespace c then EmptyString else String c EmptyString
      | t => String c t
      end
  end.

(** [s.trim()] *)
Definition trim (s : string) : string := trimEnd (trimStart s).

(** A string is truthy when it is not empty. *)
Definition truthy_str (s : string) : bool := negb (s =? "")%string.

(** [s.slice(0, n)] *)
Definition String_slice0 (n : nat) (s : string) : string := substring 0 n s.

(** *** Objects used as dictionaries

    Own enumerable string-keyed properties in the order [Object.entries],
    [Object.keys], [for-in] and [JSON.stringify] enumerate them: first the
    keys that are array indices (canonical decimal strings up to 2^32 - 2)
    in ascending numeric order, then the other keys in the order they were
    created.  The objects are plain ones, made by [{}]: besides its own
    properties, [o[k]] finds the members of [Object.prototype]. *)
Definition object (V : Type) := list (string * V).

(** The names of the members of [Object.prototype]; each of them has a
    truthy value (a function, or the prototype itself for [__proto__]). *)
Definition Object_prototype : list string :=
  ["constructor"; "__defineGetter__"; "__defineSetter__"; "hasOwnProperty";
   "__lookupGetter__"; "__lookupSetter__"; "isPrototypeOf"; "propertyIsEnumerable";
   "toString"; "valueOf"; "__proto__"; "toLocaleString"].

(** [k] names a member that a plain object inherits. *)
Definition inherited (k : string) : bool :=
  existsb (fun name => (k =? name)%string) Object_prototype.

Definition digit (c : ascii) : option N :=
  let n := N_of_ascii c in
  if ((48 <=? n) && (n <=? 57))%N then Some (n - 48)%N else None.

Fixpoint digits_value (acc : N) (s : string) : option N :=
  match s with
  | EmptyString => Some acc
  | String c s' =>
      match digit c with
      | Some d => digits_value (10 * acc + d)%N s'
      | None => None
      end
  end.

(** The array index a key denotes, if it is one. *)
Definition array_index (k : string) : option N :=
  match k with
  | EmptyString => None
  | String c rest =>
      if Ascii.eqb c "0"%char && negb (rest =? "")%string then None
      else match digits_value 0%N k with
           | Some n => if (n <=? 4294967294)%N then Some n else None
           | None => None
           end
  end.

Definition has_key {V : Type} (k : string) (o : object V) : bool :=
  match assoc k o with
  | Some _ => true
  | None => false
  end.

Fixpoint replace_key {V : Type} (k : string) (v : V) (o : object V) : object V :=
  match o with
  | [] => []
  | (k', v') :: o' =>
      if (k =? k')%string then (k', v) :: o' else (k', v') :: replace_key k v o'
  end.

(** A new array-index key goes before the first index key that is larger,
    and before every key that is not an index. *)
Fixpoint insert_index {V : Type} (i : N) (k : string) (v : V) (o : object V)
  : object V :=
  match o with
  | [] => [(k, v)]
  | (k', v') :: o' =>
      match array_index k' with
      | Some j =>
          if (i <? j)%N then (k, v) :: o
          else (k', v') :: insert_index i k v o'
      | None => (k, v) :: o
      end
  end.

(** The own property [k] of [o]. *)
Definition obj_get {V : Type} (k : string) (o : object V) : option V := assoc k o.

(** [o[k] = v], for a key other than [__proto__] (under which an
    assignment makes no property). *)
Definition obj_set {V : Type} (k : string) (v : V) (o : object V) : object V :=
  if has_key k o then replace_key k v o
  else match array_index k with
       | Some i => insert_index i k v o
       | None => (o ++ [(k, v)])%list
       end.

(** [Object.entries(o)] *)
Definition Object_entries {V : Type} (o : object V) : list (string * V) := o.

(** *** Arrays of counters

    A cell holds a number, or no number at all ([None]: a hole of the
    array, or [NaN]). *)
Definition cell := option Z.

(** [c++] *)
Definition incr (c : cell) : cell :=
  match c with
  | Some z => Some (z + 1)
  | None => None
  end.

(** [a[i] = f(a[i])]: writing past the end grows the array and leaves holes
    in between. *)
Fixpoint array_update (i : nat) (f : cell -> cell) (a : list cell) : list cell :=
  match a, i with
  | [], _ => (repeat None i ++ [f None])%list
  | c :: a', O => f c :: a'
  | c :: a', S i' => c :: array_update i' f a'
  end.

(** Indexing by a number that may be [NaN] ([None]), negative, or past the
    largest array index, 2^32 - 2: such a write creates a named property
    and leaves the elements alone. *)
Definition array_update_at (idx : option Z) (f : cell -> cell) (a : list cell)
  : list cell :=
  match idx with
  | Some i =>
      if (0 <=? i) && (i <=? 4294967294) then array_update (Z.to_nat i) f a else a
  | None => a
  end.

(** [Array(n).fill(0)] *)
Definition Array_fill0 (n : nat) : list cell := repeat (Some 0) n.

(** [a.slice(0, n)] *)
Definition slice0 {A : Type} (n : nat) (a : list A) : list A := firstn n a.

(** *** [Array.prototype.sort]

    The sort is stable.  [cmp a b > 0] asks for [b] before [a]. *)
Fixpoint sort_insert {A : Type} (cmp : A -> A -> Z) (x : A) (l : list A) : list A :=
  match l with
  | [] => [x]
  | y :: l' => if 0 <? cmp x y then y :: sort_insert cmp x l' else x :: l
  end.

Fixpoint Array_sort {A : Type} (cmp : A -> A -> Z) (l : list A) : list A :=
  match l with
  | [] => []
  | x :: l' => sort_insert cmp x (Array_sort cmp l')
  end.

(** *** The host: parser, dates, paths

    What the scripts take from the engine and from Node.  Time values are
    milliseconds since the epoch. *)
Class Runtime : Type := {
  (** [JSON.parse] *)
  JSON_parse : string -> exc json;
  (** [String(x)] of a number *)
  Number_toString : float -> string;
  (** time value of [new Date(v)] for a primitive [v] (a string is read as
      a date); [None] is an invalid date *)
  newDate : json -> option Z;
  (** offset of local time from UTC at a time value *)
  LocalTZA : Z -> Z;
  (** [d.toISOString()] of a valid date *)
  toISOString : Z -> string;
  (** [parseInt(s)]; [None] is [NaN] *)
  parseInt : string -> option Z;
  (** [path.join(...)] *)
  path_join : list string -> string;
  (** [os.homedir()] *)
  homedir : string
}.

(** The file system as one run or one request sees it. *)
Class FileSystem : Type := {
  existsSync : string -> bool;
  (** [fs.readFileSync(p, 'utf8')] *)
  readFileSync : string -> exc string
}.

Definition msPerHour : Z := 3600000.
Definition msPerDay : Z := 86400000.

(** [d.getHours()] and [d.getDay()] (0 = Sunday) in local time. *)
Definition getHours {rt : Runtime} (t : Z) : Z := ((t + LocalTZA t) / msPerHour) mod 24.
Definition getDay {rt : Runtime} (t : Z) : Z := ((t + LocalTZA t) / msPerDay + 4) mod 7.

(** The results of a sequence of conversions, up to the first that throws. *)
Fixpoint all_ok {A : Type} (l : list (exc A)) : exc (list A) :=
  match l with
  | [] => Ok []
  | Throw message :: _ => Throw message
  | Ok a :: l' =>
      match all_ok l' with
      | Ok rest => Ok (a :: rest)
      | Throw message => Throw message
      end
  end.

(** [String(v)] of a parsed value, the conversion made when the value is
    used as a property key.  An object is converted by its [toString]:
    that of [Object.prototype] answers [[object Object]], but an own
    property named [toString] hides it, and as parsed data is no function
    the conversion is a TypeError ([valueOf] gives no primitive either).
    An array joins the conversions of its elements. *)
Fixpoint ToString {rt : Runtime} (v : json) : exc string :=
  match v with
  | JNull => Ok "null"
  | JBool true => Ok "true"
  | JBool false => Ok "false"
  | JNum x => Ok (Number_toString x)
  | JStr s => Ok s
  | JArr items =>
      let element (e : json) : exc string :=
        match e with
        | JNull => Ok ""
        | _ => ToString e
        end in
      match all_ok (map element items) with
      | Ok parts => Ok (concat "," parts)
      | Throw message => Throw message
      end
  | JObj props =>
      if has_key "toString" props
      then Throw "Cannot convert object to primitive value"
      else Ok "[object Object]"
  end.

(** [new Date(v)] of a value: its time value, [None] for an invalid date.
    [new Date(undefined)] is invalid.  An object or an array is first
    converted to a primitive, which is its string (or a TypeError, as
    above), and the string is then read as a date. *)
Definition Date_new {rt : Runtime} (v : value) : exc (option Z) :=
  match v with
  | None => Ok None
  | Some (JObj props) =>
      match ToString (JObj props) with
      | Ok s => Ok (newDate (JStr s))
      | Throw message => Throw message
      end
  | Some (JArr items) =>
      match ToString (JArr items) with
      | Ok s => Ok (newDate (JStr s))
      | Throw message => Throw message
      end
  | Some j => Ok (newDate j)
  end.

(** [JSON.stringify(v)] of a parsed value. *)
Definition hex_digit (n : nat) : ascii :=
  ascii_of_nat (if (n <? 10)%nat then 48 + n else 87 + n).

Definition escape_char (c : ascii) : string :=
  let n := nat_of_ascii c in
  if (n =? 34)%nat then String "\" (String c EmptyString)
  else if (n =? 92)%nat then "\\"
  else if (n =? 8)%nat then "\b"
  else if (n =? 12)%nat then "\f"
  else if (n =? 10)%nat then "\n"
  else if (n =? 13)%nat then "\r"
  else if (n =? 9)%nat then "\t"
  else if (n <? 32)%nat then
    "\u00" ++ String (hex_digit (n / 16)) (String (hex_digit (n mod 16)) EmptyString)
  else String c EmptyString.

Fixpoint escape (s : string) : string :=
  match s with
  | EmptyString => EmptyString
  | String c s' => escape_char c ++ escape s'
  end.

Definition double_quote : string := String (ascii_of_nat 34) EmptyString.

Definition quote (s : string) : string := double_quote ++ escape s ++ double_quote.

Fixpoint JSON_stringify {rt : Runtime} (v : json) : string :=
  match v with
  | JNull => "null"
  | JBool true => "true"
  | JBool false => "false"
  | JNum x => if PrimFloat.is_finite x then Number_toString x else "null"
  | JStr s => quote s
  | JArr items => "[" ++ concat "," (map JSON_stringify items) ++ "]"
  | JObj props =>
      "{" ++ concat "," (map (fun kv => quote (fst kv) ++ ":" ++ JSON_stringify (snd kv)) props)
          ++ "}"
  end.

(** *** Statements with state and exceptions *)

Section Monad.

Variable S : Type.

Inductive outcome (A : Type) : Type :=
| Done (a : A) (s : S)
| Thrown (message : string) (s : S).
Arguments Done {A} a s.
Arguments Thrown {A} message s.

Definition M (A : Type) : Type := S -> outcome A.

Definition ret {A : Type} (a : A) : M A := fun s => Done a s.

Definition bind {A B : Type} (m : M A) (k : A -> M B) : M B :=
  fun s =>
    match m s with
    | Done a s' => k a s'
    | Thrown msg s' => Thrown msg s'
    end.

Definition get : M S := fun s => Done s s.

Definition modify (f : S -> S) : M unit := fun s => Done tt (f s).

Definition lift {A : Type} (e : exc A) : M A :=
  fun s =>
    match e with
    | Ok a => Done a s
    | Throw msg => Thrown msg s
    end.

(** [try { m } catch (e) { h(e.message) }] *)
Definition try_catch {A : Type} (m : M A) (h : string -> M A) : M A :=
  fun s =>
    match m s with
    | Done a s' => Done a s'
    | Thrown msg s' => h msg s'
    end.

(** [for (const x of xs) body(x)] *)
Fixpoint for_of {A : Type} (xs : list A) (body : A -> M unit) : M unit :=
  match xs with
  | [] => ret tt
  | x :: xs' => bind (body x) (fun _ => for_of xs' body)
  end.

Definition when (b : bool) (m : M unit) : M unit := if b then m else ret tt.

End Monad.

Arguments Done {S A} a s.
Arguments Thrown {S A} message s.
Arguments ret {S A} a _.
Arguments bind {S A B} m k _.
Arguments get {S} _.
Arguments modify {S} f _.
Arguments lift {S A} e _.
Arguments try_catch {S A} m h _.
Arguments for_of {S A} xs body _.
Arguments when {S} b m _.

End JS.

Import JS.

Notation "x <- m ;; k" := (bind m (fun x => k))
  (at level 61, m at next level, right associativity).
Notation "m ;; k" := (bind m (fun _ => k))
  (at level 61, right associativity).

(** ** The usage cache

    The fields of [stats-cache.json] read for the hourly buckets and the
    model table.  The cache is a trusted snapshot: counts are numbers.  A
    field that is absent is [None]. *)
Module Cache.
Record usage : Type := {
  inputTokens : option float;
  outputTokens : option float;
  cacheReadInputTokens : option float;
  cacheCreationInputTokens : option float
}.
Record t : Type := {
  hourCounts : option (object Z);
  modelUsage : option (object usage)
}.
End Cache.

(** ** The comprehensive statistics generator *)

Module Gen.

(** One row of the price table, in dollars per million tokens. *)
Module Rate.
Record t : Type := { input : float; output : float; cacheRead : float; cacheWrite : float }.
End Rate.

(** [PRICING] *)
Definition PRICING : object Rate.t :=
  [ ("claude-sonnet-4-5-20250929",
     {| Rate.input := 3; Rate.output := 15; Rate.cacheRead := 0.30; Rate.cacheWrite := 3.75 |}%float);
    ("claude-opus-4-5-20251101",
     {| Rate.input := 15; Rate.output := 75; Rate.cacheRead := 1.50; Rate.cacheWrite := 18.75 |}%float);
    ("default",
     {| Rate.input := 3; Rate.output := 15; Rate.cacheRead := 0.30; Rate.cacheWrite := 3.75 |}%float) ].

(** An entry of [data.modelUsage]. *)
Module Usage.
Record t : Type := {
  inputTokens : float;
  outputTokens : float;
  cacheRead : float;
  cacheWrite : float;
  sessions : Z
}.
Definition zero : t :=
  {| inputTokens := 0; outputTokens := 0; cacheRead := 0; cacheWrite := 0; sessions := 0 |}.
Definition incr_sessions (u : t) : t :=
  {| inputTokens := inputTokens u; outputTokens := outputTokens u;
     cacheRead := cacheRead u; cacheWrite := cacheWrite u;
     sessions := sessions u + 1 |}.
End Usage.

(** A value of [projectMap]. *)
Module Project.
Record t : Type := {
  name : string;
  path : string;
  sessions : Z;
  messages : Z;
  toolCalls : Z;
  branches : list json;
  lastActivity : option string
}.
End Project.

(** An element of [data.projects]. *)
Module Row.
Record t : Type := {
  name : string;
  sessions : Z;
  messages : Z;
  toolCalls : Z;
  branches : list json;
  lastActivity : option string
}.
End Row.

(** The objects the scan mutates: the fields of [data] that sessions
    update, and the script's counters and maps. *)
Record state : Type := {
  hourlyActivity : list cell;
  weekdayActivity : list cell;
  modelUsage : object Usage.t;
  lastActivity : value;
  allSessionDates : list (option string);
  toolCounts : object Z;
  branchCounts : object Z;
  projectMap : list (string * Project.t)
}.

(** The local variables of [processSession]. *)
Record locals : Type := {
  sessionMessages : Z;
  sessionToolCalls : Z;
  sessionStart : option Z;
  sessionEnd : option Z;
  branch : value
}.

Definition initial_state : state :=
  {| hourlyActivity := Array_fill0 24;
     weekdayActivity := Array_fill0 7;
     modelUsage := [];
     lastActivity := None;
     allSessionDates := [];
     toolCounts := [];
     branchCounts := [];
     projectMap := [] |}.

Definition initial_locals : locals :=
  {| sessionMessages := 0; sessionToolCalls := 0;
     sessionStart := None; sessionEnd := None; branch := None |}.

Definition set_hourlyActivity (a : list cell) (s : state) : state :=
  {| hourlyActivity := a; weekdayActivity := weekdayActivity s;
     modelUsage := modelUsage s; lastActivity := lastActivity s;
     allSessionDates := allSessionDates s; toolCounts := toolCounts s;
     branchCounts := branchCounts s; projectMap := projectMap s |}.

Definition set_weekdayActivity (a : list cell) (s : state) : state :=
  {| hourlyActivity := hourlyActivity s; weekdayActivity := a;
     modelUsage := modelUsage s; lastActivity := lastActivity s;
     allSessionDates := allSessionDates s; toolCounts := toolCounts s;
     branchCounts := branchCounts s; projectMap := projectMap s |}.

Definition set_modelUsage (m : object Usage.t) (s : state) : state :=
  {| hourlyActivity := hourlyActivity s; weekdayActivity := weekdayActivity s;
     modelUsage := m; lastActivity := lastActivity s;
     allSessionDates := allSessionDates s; toolCounts := toolCounts s;
     branchCounts := branchCounts s; projectMap := projectMap s |}.

Definition set_lastActivity (v : value) (s : state) : state :=
  {| hourlyActivity := hourlyActivity s; weekdayActivity := weekdayActivity s;
     modelUsage := modelUsage s; lastActivity := v;
     allSessionDates := allSessionDates s; toolCounts := toolCounts s;
     branchCounts := branchCounts s; projectMap := projectMap s |}.

Definition set_allSessionDates (d : list (option string)) (s : state) : state :=
  {| hourlyActivity := hourlyActivity s; weekdayActivity := weekdayActivity s;
     modelUsage := modelUsage s; lastActivity := lastActivity s;
     allSessionDates := d; toolCounts := toolCounts s;
     branchCounts := branchCounts s; projectMap := projectMap s |}.

Definition set_toolCounts (c : object Z) (s : state) : state :=
  {| hourlyActivity := hourlyActivity s; weekdayActivity := weekdayActivity s;
     modelUsage := modelUsage s; lastActivity := lastActivity s;
     allSessionDates := allSessionDates s; toolCounts := c;
     branchCounts := branchCounts s; projectMap := projectMap s |}.

Definition set_branchCounts (c : object Z) (s : state) : state :=
  {| hourlyActivity := hourlyActivity s; weekdayActivity := weekdayActivity s;
     modelUsage := modelUsage s; lastActivity := lastActivity s;
     allSessionDates := allSessionDates s; toolCounts := toolCounts s;
     branchCounts := c; projectMap := projectMap s |}.

Definition set_projectMap (p : list (string * Project.t)) (s : state) : state :=
  {| hourlyActivity := hourlyActivity s; weekdayActivity := weekdayActivity s;
     modelUsage := modelUsage s; lastActivity := lastActivity s;
     allSessionDates := allSessionDates s; toolCounts := toolCounts s;
     branchCounts := branchCounts s; projectMap := p |}.

Definition set_sessionMessages (n : Z) (l : locals) : locals :=
  {| sessionMessages := n; sessionToolCalls := sessionToolCalls l;
     sessionStart := sessionStart l; sessionEnd := sessionEnd l; branch := branch l |}.

Definition set_sessionToolCalls (n : Z) (l : locals) : locals :=
  {| sessionMessages := sessionMessages l; sessionToolCalls := n;
     sessionStart := sessionStart l; sessionEnd := sessionEnd l; branch := branch l |}.

Definition set_sessionStart (t : option Z) (l : locals) : locals :=
  {| sessionMessages := sessionMessages l; sessionToolCalls := sessionToolCalls l;
     sessionStart := t; sessionEnd := sessionEnd l; branch := branch l |}.

Definition set_sessionEnd (t : option Z) (l : locals) : locals :=
  {| sessionMessages := sessionMessages l; sessionToolCalls := sessionToolCalls l;
     sessionStart := sessionStart l; sessionEnd := t; branch := branch l |}.

Definition set_branch (b : value) (l : locals) : locals :=
  {| sessionMessages := sessionMessages l; sessionToolCalls := sessionToolCalls l;
     sessionStart := sessionStart l; sessionEnd := sessionEnd l; branch := b |}.

(** The loop of [processSession] runs on the shared objects and its locals. *)
Definition frame : Type := (state * locals)%type.

Definition on_state (f : state -> state) : M frame unit :=
  modify (fun c : frame => (f (fst c), snd c)).

Definition on_locals (f : locals -> locals) : M frame unit :=
  modify (fun c : frame => (fst c, f (snd c))).

(** [o[k] = (o[k] || 0) + 1] on a frequency map, whose values are the
    counts made so far: a key that the map holds has its count raised, a
    new key starts at 1.  This is what the statement does for every key
    but a name of [Object_prototype] that the map does not hold yet: for
    such a key [o[k]] is the inherited member, and what the statement
    stores is no count.  The statements about counts are made for the
    other keys ([Spec.plain]). *)
Definition count_up (k : string) (o : object Z) : object Z :=
  let old := match obj_get k o with
             | Some n => n
             | None => 0
             end in
  obj_set k (old + 1) o.

(** [set.add(x)] of a [Set]: strings, numbers and booleans are compared by
    value; two parsed arrays or objects are never the same object. *)
Definition same_value (a b : json) : bool :=
  match a, b with
  | JNull, JNull => true
  | JBool x, JBool y => Bool.eqb x y
  | JNum x, JNum y => (x =? y)%float || (PrimFloat.is_nan x && PrimFloat.is_nan y)
  | JStr x, JStr y => (x =? y)%string
  | _, _ => false
  end.

Definition Set_add {A : Type} (eqb : A -> A -> bool) (x : A) (s : list A) : list A :=
  if existsb (eqb x) s then s else (s ++ [x])%list.

Definition opt_string_eqb (a b : option string) : bool :=
  match a, b with
  | Some x, Some y => (x =? y)%string
  | None, None => true
  | _, _ => false
  end.

(** The start of the retention window, [SIX_MONTHS_AGO], as a time value. *)
Class Config : Type := { SIX_MONTHS_AGO : Z }.

Section Generator.

Context {rt : Runtime} {fs : FileSystem} {cfg : Config}.

(** [parseJsonl(filePath)] *)
Fixpoint parseJsonl_lines (ls : list string) (lines : list json) : list json :=
  match ls with
  | [] => lines
  | line :: ls' =>
      if truthy_str (trim line) then
        match JSON_parse line with
        | Ok v => parseJsonl_lines ls' (lines ++ [v])%list
        | Throw _ => parseJsonl_lines ls' lines
        end
      else parseJsonl_lines ls' lines
  end.

Definition parseJsonl (filePath : string) : list json :=
  match readFileSync filePath with
  | Ok content => parseJsonl_lines (split "010"%char content) []
  | Throw _ => []
  end.

(** [getDateStr]: [null] is [None]; [toISOString] of an invalid date is
    a RangeError. *)
Definition getDateStr (timestamp : value) : exc (option string) :=
  if negb (Boolean timestamp) then Ok None
  else match Date_new timestamp with
       | Ok (Some t) => Ok (Some (hd "" (split "T"%char (toISOString t))))
       | Ok None => Throw "Invalid time value"
       | Throw message => Throw message
       end.

(** [getHour] and [getWeekday]: [null] is [None], and the number is [NaN]
    ([Some None]) for an invalid date. *)
Definition getHour (timestamp : value) : exc (option (option Z)) :=
  if negb (Boolean timestamp) then Ok None
  else match Date_new timestamp with
       | Ok d => Ok (Some (option_map getHours d))
       | Throw message => Throw message
       end.

Definition getWeekday (timestamp : value) : exc (option (option Z)) :=
  if negb (Boolean timestamp) then Ok None
  else match Date_new timestamp with
       | Ok d => Ok (Some (option_map getDay d))
       | Throw message => Throw message
       end.

(** [a < b] and [a > b] on dates; a comparison with an invalid date is false. *)
Definition Date_lt (a b : option Z) : bool :=
  match a, b with
  | Some x, Some y => x <? y
  | _, _ => false
  end.

Definition Date_ge (a b : option Z) : bool :=
  match a, b with
  | Some x, Some y => y <=? x
  | _, _ => false
  end.

(** Seeding from the cache: hourly buckets and the model table. *)
Definition display_name (model : string) : string :=
  if String_includes model "opus" then "Claude Opus 4.5"
  else if String_includes model "sonnet" then "Claude Sonnet 4.5"
  else model.

Definition or0 (x : option float) : float :=
  match x with
  | Some v => if truthy_num v then v else 0%float
  | None => 0%float
  end.

Definition seed_hour (a : list cell) (e : string * Z) : list cell :=
  array_update_at (parseInt (fst e)) (fun _ => Some (snd e)) a.

Definition seed_model (m : object Usage.t) (e : string * Cache.usage) : object Usage.t :=
  let shortName := display_name (fst e) in
  let usage := snd e in
  obj_set shortName
    {| Usage.inputTokens := or0 (Cache.inputTokens usage);
       Usage.outputTokens := or0 (Cache.outputTokens usage);
       Usage.cacheRead := or0 (Cache.cacheReadInputTokens usage);
       Usage.cacheWrite := or0 (Cache.cacheCreationInputTokens usage);
       Usage.sessions := 0 |} m.

(** The first [try] block; [None] when the cache file cannot be read or
    parsed, which leaves [data] as initialised. *)
Definition load_cache (statsCache : option Cache.t) (s : state) : state :=
  match statsCache with
  | None => s
  | Some c =>
      let s1 := match Cache.hourCounts c with
                | Some hc => set_hourlyActivity
                               (fold_left seed_hour (Object_entries hc) (hourlyActivity s)) s
                | None => s
                end in
      match Cache.modelUsage c with
      | Some mu => set_modelUsage
                     (fold_left seed_model (Object_entries mu) (modelUsage s1)) s1
      | None => s1
      end
  end.

(** *** [processSession], one statement group of the loop body at a time *)

(** Track timestamps *)
Definition track_timestamps (line : json) : M frame unit :=
  timestamp <- lift (prop (Some line) "timestamp") ;;
  when (Boolean timestamp)
    (ts <- lift (Date_new timestamp) ;;
     when (Date_ge ts (Some SIX_MONTHS_AGO))
       (dateStr <- lift (getDateStr timestamp) ;;
        on_state (fun s =>
          set_allSessionDates (Set_add opt_string_eqb dateStr (allSessionDates s)) s) ;;
        hour <- lift (getHour timestamp) ;;
        weekday <- lift (getWeekday timestamp) ;;
        match hour with
        | Some h => on_state (fun s =>
                      set_hourlyActivity (array_update_at h incr (hourlyActivity s)) s)
        | None => ret tt
        end ;;
        match weekday with
        | Some w => on_state (fun s =>
                      set_weekdayActivity (array_update_at w incr (weekdayActivity s)) s)
        | None => ret tt
        end ;;
        on_locals (fun l =>
          match sessionStart l with
          | Some start => if Date_lt ts (Some start) then set_sessionStart ts l else l
          | None => set_sessionStart ts l
          end) ;;
        on_locals (fun l =>
          match sessionEnd l with
          | Some e => if Date_lt (Some e) ts then set_sessionEnd ts l else l
          | None => set_sessionEnd ts l
          end) ;;
        c <- get ;;
        later <- (if negb (Boolean (lastActivity (fst c))) then ret true
                  else last <- lift (Date_new (lastActivity (fst c))) ;;
                       ret (Date_lt last ts)) ;;
        when later (on_state (set_lastActivity timestamp)))).

(** Count messages *)
Definition count_messages (line : json) : M frame unit :=
  type <- lift (prop (Some line) "type") ;;
  when (strict_eq_str type "user" || strict_eq_str type "assistant")
    (on_locals (fun l => set_sessionMessages (sessionMessages l + 1) l)).

(** Track git branch *)
Definition track_branch (line : json) : M frame unit :=
  gitBranch <- lift (prop (Some line) "gitBranch") ;;
  c <- get ;;
  when (Boolean gitBranch && negb (Boolean (branch (snd c))))
    (on_locals (set_branch gitBranch) ;;
     match gitBranch with
     | Some b =>
         key <- lift (ToString b) ;;
         on_state (fun s => set_branchCounts (count_up key (branchCounts s)) s)
     | None => ret tt
     end).

(** Count tool calls from assistant messages *)
Definition count_block (block : json) : M frame unit :=
  type <- lift (prop (Some block) "type") ;;
  when (strict_eq_str type "tool_use")
    (on_locals (fun l => set_sessionToolCalls (sessionToolCalls l + 1) l) ;;
     name <- lift (prop (Some block) "name") ;;
     let toolName := match name with
                     | Some n => if truthy n then n else JStr "unknown"
                     | None => JStr "unknown"
                     end in
     key <- lift (ToString toolName) ;;
     on_state (fun s => set_toolCounts (count_up key (toolCounts s)) s)).

Definition count_tool_calls (line : json) : M frame unit :=
  type <- lift (prop (Some line) "type") ;;
  message <- lift (prop (Some line) "message") ;;
  let content := prop_opt message "content" in
  when (strict_eq_str type "assistant" && Boolean content)
    match content with
    | Some (JArr blocks) => for_of blocks count_block
    | _ => ret tt
    end.

(** [model.includes(sub)]: a string method, also an array method; any
    other truthy value has no such method. *)
Definition includes (model : json) (sub : string) : exc bool :=
  match model with
  | JStr s => Ok (String_includes s sub)
  | JArr items => Ok (existsb (fun e => strict_eq_str (Some e) sub) items)
  | _ => Throw "model.includes is not a function"
  end.

Definition shortName_of (model : json) : exc json :=
  match includes model "opus" with
  | Throw m => Throw m
  | Ok true => Ok (JStr "Claude Opus 4.5")
  | Ok false =>
      match includes model "sonnet" with
      | Throw m => Throw m
      | Ok true => Ok (JStr "Claude Sonnet 4.5")
      | Ok false => Ok model
      end
  end.

(** [if (!mu[k]) mu[k] = {zeros}; mu[k].sessions++].  [mu[k]] is an entry
    of the table, which is an object and truthy, or else the member of
    [Object.prototype] that [k] names, which is truthy too: then no entry
    is made, and it is the member that gets a [sessions] property, the
    table being left as it is. *)
Definition bump_model (k : string) (mu : object Usage.t) : object Usage.t :=
  let mu1 := if has_key k mu || inherited k then mu else obj_set k Usage.zero mu in
  match obj_get k mu1 with
  | Some u => obj_set k (Usage.incr_sessions u) mu1
  | None => mu1
  end.

(** Track model usage *)
Definition track_model (line : json) : M frame unit :=
  message <- lift (prop (Some line) "message") ;;
  match prop_opt message "model" with
  | Some model =>
      when (truthy model)
        (shortName <- lift (shortName_of model) ;;
         key <- lift (ToString shortName) ;;
         on_state (fun s => set_modelUsage (bump_model key (modelUsage s)) s))
  | None => ret tt
  end.

(** The body of [for (const line of lines)]. *)
Definition processLine (line : json) : M frame unit :=
  track_timestamps line ;;
  count_messages line ;;
  track_branch line ;;
  count_tool_calls line ;;
  track_model line.

(** Update project stats: the statements under [if (project)]. *)
Definition update_project_entry (l : locals) (p : Project.t) : Project.t :=
  {| Project.name := Project.name p;
     Project.path := Project.path p;
     Project.sessions := Project.sessions p + 1;
     Project.messages := Project.messages p + sessionMessages l;
     Project.toolCalls := Project.toolCalls p + sessionToolCalls l;
     Project.branches :=
       match branch l with
       | Some b => if truthy b then Set_add same_value b (Project.branches p)
                   else Project.branches p
       | None => Project.branches p
       end;
     Project.lastActivity :=
       match sessionEnd l with
       | Some e =>
           match Project.lastActivity p with
           | Some last =>
               if Date_lt (newDate (JStr last)) (Some e) then Some (toISOString e)
               else Some last
           | None => Some (toISOString e)
           end
       | None => Project.lastActivity p
       end |}.

(** [project] is [null] ([None]) or the object [projectMap.get(dir)], named
    here by its key; the update is seen through the map. *)
Definition update_project (project : option string) (l : locals) (s : state) : state :=
  match project with
  | None => s
  | Some dir =>
      match assoc dir (projectMap s) with
      | Some p => set_projectMap (replace_key dir (update_project_entry l p) (projectMap s)) s
      | None => s
      end
  end.

(** [processSession(lines, filename, project)] *)
Definition processSession (lines : list json) (filename : string)
  (project : option string) : M state unit :=
  fun s =>
    match for_of lines processLine (s, initial_locals) with
    | Done _ (s', l) => Done tt (update_project project l s')
    | Thrown msg (s', _) => Thrown msg s'
    end.

(** The locals as the loop leaves them, for statements about one session. *)
Definition session_loop (lines : list json) (s : state) : outcome frame unit :=
  for_of lines processLine (s, initial_locals).

(** [projectDir.replace(/^[A-Z]-+/g, '').replace(/-/g, ' ').trim()] *)
Fixpoint drop_dashes (s : string) : string :=
  match s with
  | String "-" s' => drop_dashes s'
  | _ => s
  end.

Definition is_upper (c : ascii) : bool :=
  let n := nat_of_ascii c in ((65 <=? n) && (n <=? 90))%nat.

Definition strip_drive (s : string) : string :=
  match s with
  | String c (String "-" rest) => if is_upper c then drop_dashes rest else s
  | _ => s
  end.

Fixpoint dashes_to_spaces (s : string) : string :=
  match s with
  | EmptyString => EmptyString
  | String c s' => String (if Ascii.eqb c "-" then " "%char else c) (dashes_to_spaces s')
  end.

Definition projectName_of (projectDir : string) : string :=
  trim (dashes_to_spaces (strip_drive projectDir)).

(** [if (!projectMap.has(projectDir)) projectMap.set(projectDir, {...})] *)
Definition open_project (projectDir : string) (s : state) : state :=
  if has_key projectDir (projectMap s) then s
  else set_projectMap
         (projectMap s ++
          [(projectDir,
            {| Project.name := projectName_of projectDir;
               Project.path := projectDir;
               Project.sessions := 0;
               Project.messages := 0;
               Project.toolCalls := 0;
               Project.branches := [];
               Project.lastActivity := None |})])%list s.

(** What the directory walk does, in order: it enters a project directory,
    or it hands the parsed lines of a session file to [processSession]
    (with the project of the directory, or [null] for a file that lies
    directly under [projects]). *)
Inductive visit : Type :=
| EnterProject (projectDir : string)
| SessionFile (lines : list json) (filename : string) (project : option string).

Definition do_visit (v : visit) : M state unit :=
  match v with
  | EnterProject projectDir => modify (open_project projectDir)
  | SessionFile lines filename project => processSession lines filename project
  end.

(** The scan: the walk is the body of the [try] block.  An exception ends
    it and is caught; what was counted so far stays. *)
Definition walk (visits : list visit) : M state unit := for_of visits do_visit.

Definition scan (visits : list visit) : M state unit :=
  try_catch (walk visits) (fun _ => ret tt).

(** *** Shaping the output *)

(** [(a, b) => b[1] - a[1]] *)
Definition by_count (a b : string * Z) : Z := snd b - snd a.

(** [Object.entries(counts).sort(...).slice(0, n).reduce(..., {})] *)
Definition top_counts (n : nat) (counts : object Z) : object Z :=
  fold_left (fun obj e => obj_set (fst e) (snd e) obj)
    (slice0 n (Array_sort by_count (Object_entries counts))) [].

Definition toolUsage (s : state) : object Z := top_counts 20 (toolCounts s).

Definition gitBranches (s : state) : object Z := top_counts 15 (branchCounts s).

Definition project_row (p : Project.t) : Row.t :=
  {| Row.name := Project.name p;
     Row.sessions := Project.sessions p;
     Row.messages := Project.messages p;
     Row.toolCalls := Project.toolCalls p;
     Row.branches := slice0 5 (Project.branches p);
     Row.lastActivity := Project.lastActivity p |}.

(** [(a, b) => b.sessions - a.sessions] *)
Definition by_sessions (a b : Row.t) : Z := Row.sessions b - Row.sessions a.

Definition projects (s : state) : list Row.t :=
  slice0 10
    (Array_sort by_sessions
       (filter (fun p => 0 <? Row.sessions p)
          (map project_row (map snd (projectMap s))))).

(** [Object.entries(data.toolUsage)[0]], reported as the most used tool. *)
Definition topTool (s : state) : option (string * Z) :=
  hd_error (Object_entries (toolUsage s)).

(** Calculate estimated cost: the cost of one entry of [data.modelUsage],
    and the loop that adds the costs up. *)
Definition pricing_of (model : string) : option Rate.t :=
  if String_includes model "Opus"
  then obj_get "claude-opus-4-5-20251101" PRICING
  else obj_get "default" PRICING.

Definition model_cost (model : string) (usage : Usage.t) : exc float :=
  match pricing_of model with
  | Some pricing =>
      Ok ((Usage.inputTokens usage / 1000000) * Rate.input pricing +
          (Usage.outputTokens usage / 1000000) * Rate.output pricing +
          (Usage.cacheRead usage / 1000000) * Rate.cacheRead pricing +
          (Usage.cacheWrite usage / 1000000) * Rate.cacheWrite pricing)%float
  | None => Throw "Cannot read properties of undefined (reading 'input')"
  end.

Fixpoint add_costs (entries : list (string * Usage.t)) (estimatedCostUSD : float)
  : exc float :=
  match entries with
  | [] => Ok estimatedCostUSD
  | (model, usage) :: rest =>
      match model_cost model usage with
      | Ok cost => add_costs rest (estimatedCostUSD + cost)%float
      | Throw m => Throw m
      end
  end.

Definition estimatedCostUSD (s : state) : exc float :=
  add_costs (Object_entries (modelUsage s)) 0%float.

End Generator.

End Gen.

(** ** The express server *)

Module Server.

(** What a handler sends: [res.status(code).json(body)]; [res.json(body)]
    sends status 200. *)
Record response : Type := { status : Z; body : json }.

Definition res_json (v : json) : response := {| status := 200; body := v |}.

Definition res_status_json (code : Z) (v : json) : response :=
  {| status := code; body := v |}.

(** The calls a handler makes to the file system, in order. *)
Inductive fs_call : Type :=
| Call_existsSync (p : string)
| Call_readFileSync (p : string).

Definition path_of (c : fs_call) : string :=
  match c with
  | Call_existsSync p => p
  | Call_readFileSync p => p
  end.

Definition trace : Type := list fs_call.

(** The per-project totals of [/api/projects]. *)
Record totals : Type := {
  totalMessages : Z;
  totalToolCalls : Z;
  branches : list json
}.

(** [content.match(/tool_use|function_call/g)]: the number of matches,
    found from left to right without overlap; [skip] counts the code units
    of the current match still to pass. *)
Fixpoint match_count (skip : nat) (s : string) : Z :=
  match s with
  | EmptyString => 0
  | String _ s' =>
      match skip with
      | S k => match_count k s'
      | O =>
          if prefix "tool_use" s then 1 + match_count 7 s'
          else if prefix "function_call" s then 1 + match_count 12 s'
          else match_count 0 s'
      end
  end.

Section Server.

Context {rt : Runtime} {fs : FileSystem}.

Definition CLAUDE_DIR : string := path_join [homedir; ".claude"].
Definition STATS_CACHE : string := path_join [CLAUDE_DIR; "stats-cache.json"].
Definition PROJECTS_DIR : string := path_join [CLAUDE_DIR; "projects"].

Definition log (c : fs_call) : M trace unit := modify (fun t => (t ++ [c])%list).

Definition fs_existsSync (p : string) : M trace bool :=
  log (Call_existsSync p) ;; ret (existsSync p).

Definition fs_readFileSync (p : string) : M trace string :=
  log (Call_readFileSync p) ;; lift (readFileSync p).

(** [try { return JSON.parse(line); } catch { return null; }] *)
Definition parse_or_null (line : string) : json :=
  match JSON_parse line with
  | Ok v => v
  | Throw _ => JNull
  end.

(** Parse JSONL file *)
Definition parseJSONL (filePath : string) : M trace (list json) :=
  try_catch
    (content <- fs_readFileSync filePath ;;
     ret (filter truthy
            (map parse_or_null
               (filter (fun line => truthy_str (trim line)) (split "010"%char content)))))
    (fun _ => ret []).

(** API: Get stats summary *)
Definition get_stats : M trace response :=
  try_catch
    (content <- fs_readFileSync STATS_CACHE ;;
     stats <- lift (JSON_parse content) ;;
     ret (res_json stats))
    (fun message =>
       ret (res_status_json 500
              (JObj [("error", JStr "Failed to read stats"); ("details", JStr message)]))).

(** API: Get session details *)
Definition get_session (project sessionId : string) : M trace response :=
  try_catch
    (let sessionPath := path_join [PROJECTS_DIR; project; sessionId ++ ".jsonl"] in
     found <- fs_existsSync sessionPath ;;
     if negb found then
       (* Try finding agent file *)
       let agentPath :=
         path_join [PROJECTS_DIR; project;
                    "agent-" ++ String_slice0 8 sessionId ++ ".jsonl"] in
       foundAgent <- fs_existsSync agentPath ;;
       if foundAgent then
         entries <- parseJSONL agentPath ;;
         ret (res_json (JArr entries))
       else ret (res_status_json 404 (JObj [("error", JStr "Session not found")]))
     else
       entries <- parseJSONL sessionPath ;;
       ret (res_json (JArr entries)))
    (fun message =>
       ret (res_status_json 500
              (JObj [("error", JStr "Failed to read session"); ("details", JStr message)]))).

(** The callback of [entries.forEach] in [/api/projects]. *)
Definition count_entry (entry : json) : M totals unit :=
  type <- lift (prop (Some entry) "type") ;;
  when (strict_eq_str type "user" || strict_eq_str type "assistant")
    (modify (fun t =>
       {| totalMessages := totalMessages t + 1;
          totalToolCalls := totalToolCalls t;
          branches := branches t |})) ;;
  gitBranch <- lift (prop (Some entry) "gitBranch") ;;
  match gitBranch with
  | Some b =>
      when (truthy b)
        (modify (fun t =>
           {| totalMessages := totalMessages t;
              totalToolCalls := totalToolCalls t;
              branches := Gen.Set_add Gen.same_value b (branches t) |}))
  | None => ret tt
  end ;;
  message <- lift (prop (Some entry) "message") ;;
  match prop_opt message "content" with
  | Some c =>
      when (truthy c)
        (let content := match c with
                        | JStr s => s
                        | _ => JSON_stringify c
                        end in
         let toolMatches := match_count 0 content in
         modify (fun t =>
           {| totalMessages := totalMessages t;
              totalToolCalls := totalToolCalls t + toolMatches;
              branches := branches t |}))
  | None => ret tt
  end.

(** The statements of [sessions.forEach] that read a session's entries,
    inside their [try { ... } catch {}]. *)
Definition count_session (entries : list json) : M totals unit :=
  try_catch (for_of entries count_entry) (fun _ => ret tt).

Definition no_totals : totals :=
  {| totalMessages := 0; totalToolCalls := 0; branches := [] |}.

End Server.

End Server.

(** ** The privacy-safe generator, [generate-data.js] *)

Module GenData.

(** A value of the [modelUsage] object of the output.  [estimatedCost] is
    the number that [toFixed(2)] then prints. *)
Record model_entry : Type := {
  inputTokens : float;
  outputTokens : float;
  totalTokens : float;
  estimatedCost : float
}.

(** A field of the cache used as a number: [undefined] converts to [NaN]. *)
Definition toNumber (x : option float) : float :=
  match x with
  | Some v => v
  | None => nan
  end.

Section GenData.

Context {rt : Runtime} {fs : FileSystem}.

Definition parse_or_null (line : string) : json :=
  match JSON_parse line with
  | Ok v => v
  | Throw _ => JNull
  end.

(** [parseJSONL(filePath)] *)
Definition parseJSONL (filePath : string) : list json :=
  match readFileSync filePath with
  | Ok content =>
      filter truthy
        (map parse_or_null
           (filter (fun line => truthy_str (trim line)) (split "010"%char content)))
  | Throw _ => []
  end.

(** The callback of [entries.forEach]: the state is [totalMessages]. *)
Definition count_entry (entry : json) : M Z unit :=
  type <- lift (prop (Some entry) "type") ;;
  when (strict_eq_str type "user" || strict_eq_str type "assistant")
    (modify (fun totalMessages => totalMessages + 1)).

Definition count_session (entries : list json) : M Z unit :=
  try_catch (for_of entries count_entry) (fun _ => ret tt).

(** Calculate model costs (approximate): the callback of
    [Object.entries(stats.modelUsage || {}).forEach]. *)
Definition shortName_of (model : string) : string :=
  if String_includes model "opus" then "Claude Opus" else "Claude Sonnet".

Definition inputCost (model : string) (usage : Cache.usage) : float :=
  (toNumber (Cache.inputTokens usage) / 1000000 *
   (if String_includes model "opus" then 15 else 3))%float.

Definition outputCost (model : string) (usage : Cache.usage) : float :=
  (toNumber (Cache.outputTokens usage) / 1000000 *
   (if String_includes model "opus" then 75 else 15))%float.

Definition cacheCost (model : string) (usage : Cache.usage) : float :=
  (toNumber (Cache.cacheReadInputTokens usage) / 1000000 *
   (if String_includes model "opus" then 1.5 else 0.3))%float.

(** The object stored under the short name. *)
Definition model_entry_of (model : string) (usage : Cache.usage) : model_entry :=
  {| inputTokens := toNumber (Cache.inputTokens usage);
     outputTokens := toNumber (Cache.outputTokens usage);
     totalTokens := (toNumber (Cache.inputTokens usage) +
                     toNumber (Cache.outputTokens usage))%float;
     estimatedCost := (inputCost model usage + outputCost model usage +
                       cacheCost model usage)%float |}.

Definition add_model (modelUsage : object model_entry) (e : string * Cache.usage)
  : object model_entry :=
  let model := fst e in
  let usage := snd e in
  obj_set (shortName_of model) (model_entry_of model usage) modelUsage.

Definition modelUsage (stats : Cache.t) : object model_entry :=
  fold_left add_model
    (Object_entries (match Cache.modelUsage stats with
                     | Some mu => mu
                     | None => []
                     end)) [].

End GenData.

End GenData.

(** ** The notions the specification speaks of *)

Module Spec.

(** A field of a record, absent fields being [undefined]. *)
Definition field (r : json) (k : string) : value := prop_opt (Some r) k.

Definition is_object (v : json) : bool :=
  match v with
  | JObj _ => true
  | _ => false
  end.

(** A value that has a string: every value has one but an object with
    a property named [toString], and an array in which such an object
    occurs. *)
Fixpoint convertible (v : json) : bool :=
  match v with
  | JObj props => negb (has_key "toString" props)
  | JArr items => forallb convertible items
  | _ => true
  end.

Definition convertible_field (r : json) (k : string) : bool :=
  match field r k with
  | Some v => convertible v
  | None => true
  end.

(** The last activity that a state holds has a string: it is a timestamp
    that was read as a date, or there is none yet. *)
Definition dated (lastActivity : value) : bool :=
  match lastActivity with
  | Some v => convertible v
  | None => true
  end.

(** A well-formed record: an object whose [timestamp] and [gitBranch],
    when present, have a string; whose [message.content], when it is a
    sequence, is a sequence of blocks (objects), the [name] of each block
    having a string; and whose [message.model], when present, is a string
    (or [null]). *)
Definition well_formed_record (r : json) : bool :=
  is_object r
  && convertible_field r "timestamp"
  && convertible_field r "gitBranch"
  && match prop_opt (field r "message") "content" with
     | Some (JArr blocks) =>
         forallb (fun b => is_object b && convertible_field b "name") blocks
     | _ => true
     end
  && match prop_opt (field r "message") "model" with
     | None => true
     | Some JNull => true
     | Some (JStr _) => true
     | Some _ => false
     end.

Definition has_type (r : json) (t : string) : bool := strict_eq_str (field r "type") t.

(** A record whose type is [user] or [assistant]. *)
Definition is_message (r : json) : bool := has_type r "user" || has_type r "assistant".

(** The number of elements that satisfy [p]. *)
Definition count {A : Type} (p : A -> bool) (l : list A) : Z :=
  Z.of_nat (List.length (filter p l)).

(** The share of one element in such a number. *)
Definition b2z (b : bool) : Z := if b then 1 else 0.

(** A record that carries a timestamp (one the code takes as present: not
    empty, not null) that falls within the retention window. *)
Definition in_window {rt : Runtime} {cfg : Gen.Config} (r : json) : bool :=
  Boolean (field r "timestamp")
  && match Date_new (field r "timestamp") with
     | Ok (Some t) => Gen.SIX_MONTHS_AGO <=? t
     | _ => false
     end.

(** The time value of a record's timestamp (0 when it has none). *)
Definition time_of {rt : Runtime} (r : json) : Z :=
  match Date_new (field r "timestamp") with
  | Ok (Some t) => t
  | _ => 0
  end.

(** The time value that a value gives as a date, if it gives one. *)
Definition moment {rt : Runtime} (v : value) : option Z :=
  match Date_new v with
  | Ok d => d
  | Throw _ => None
  end.

(** The records of the session files a scan visits, in order. *)
Definition records_of (visits : list Gen.visit) : list json :=
  flat_map (fun v => match v with
                     | Gen.SessionFile lines _ _ => lines
                     | Gen.EnterProject _ => []
                     end) visits.

(** The sum of the cells of an array of counters, when all hold numbers. *)
Fixpoint total (a : list cell) : option Z :=
  match a with
  | [] => Some 0
  | c :: a' =>
      match c, total a' with
      | Some z, Some t => Some (z + t)
      | _, _ => None
      end
  end.

(** The sum of the first [n] buckets. *)
Definition bucket_total (n : nat) (a : list cell) : option Z := total (firstn n a).

(** The first [n] buckets all hold numbers, and their sum is [t]. *)
Definition buckets (n : nat) (a : list cell) (t : Z) : Prop :=
  (n <= List.length a)%nat /\ bucket_total n a = Some t.

(** The [tool_use] blocks of a record: those of the content sequence of an
    assistant record. *)
Definition tool_use_blocks (r : json) : list json :=
  if has_type r "assistant" then
    match prop_opt (field r "message") "content" with
    | Some (JArr blocks) => filter (fun b => strict_eq_str (field b "type") "tool_use") blocks
    | _ => []
    end
  else [].

(** The tool a block is attributed to: the string of its [name], or
    [unknown] when it has none. *)
Definition tool_name {rt : Runtime} (block : json) : exc string :=
  ToString (match field block "name" with
            | Some n => if truthy n then n else JStr "unknown"
            | None => JStr "unknown"
            end).


(** A key that names no member of [Object.prototype]. *)
Definition plain (k : string) : bool := negb (inherited k).

(** A block whose tool is a plain key. *)
Definition plain_tool {rt : Runtime} (block : json) : bool :=
  match tool_name block with
  | Ok name => plain name
  | Throw _ => false
  end.

Definition is_tool_use (block : json) : bool := has_type block "tool_use".

(** Attributing one block to its tool in a frequency map. *)
Definition attribute {rt : Runtime} (o : object Z) (block : json) : object Z :=
  match tool_name block with
  | Ok name => Gen.count_up name o
  | Throw _ => o
  end.

(** Counting a value in a frequency map, under its string. *)
Definition counted {rt : Runtime} (v : json) (o : object Z) : object Z :=
  match ToString v with
  | Ok key => Gen.count_up key o
  | Throw _ => o
  end.

(** A record carries a branch while the session has none yet. *)
Definition attributes_branch (r : json) (l : Gen.locals) : bool :=
  Boolean (field r "gitBranch") && negb (Boolean (Gen.branch l)).









(** The JSON values of the non-blank lines that parse, in file order. *)
Definition values_of_lines {rt : Runtime} (ls : list string) : list json :=
  flat_map (fun line =>
              if truthy_str (trim line) then
                match JSON_parse line with
                | Ok v => [v]
                | Throw _ => []
                end
              else []) ls.

Definition parsed_values {rt : Runtime} (content : string) : list json :=
  values_of_lines (split "010"%char content).

(** The values a file holds: those of its lines, and none for a file
    that cannot be read. *)
Definition file_values {rt : Runtime} {fs : FileSystem} (filePath : string) : list json :=
  match readFileSync filePath with
  | Ok content => parsed_values content
  | Throw _ => []
  end.

(** What the server's project listing takes as the tool calls of a
    record: the matches of [tool_use|function_call] in its content, as
    text. *)
Definition pattern_matches {rt : Runtime} (r : json) : Z :=
  match prop_opt (field r "message") "content" with
  | Some c =>
      if truthy c then
        Server.match_count 0 (match c with
                              | JStr s => s
                              | _ => JSON_stringify c
                              end)
      else 0
  | None => 0
  end.

(** The comparator of a descending sort by [key], [(a, b) => key b - key a],
    and the order it asks for. *)
Definition descending {A : Type} (key : A -> Z) (a b : A) : Z := key b - key a.

Definition at_least {A : Type} (key : A -> Z) (a b : A) : Prop := key b <= key a.

(** The rows that are ranked: those of the projects with a session. *)
Definition ranked_rows (s : Gen.state) : list Gen.Row.t :=
  Array_sort Gen.by_sessions
    (filter (fun p => 0 <? Gen.Row.sessions p)
       (map Gen.project_row (map snd (Gen.projectMap s)))).

(** The counts of a frequency map, in the order the map lists them. *)
Definition counts_of (o : object Z) : list Z := map snd o.

(** No key of a map is an array index. *)
Definition no_index_key {V : Type} (o : object V) : bool :=
  forallb (fun e => match array_index (fst e) with
                    | Some _ => false
                    | None => true
                    end) o.

(** The first [n] characters of a string. *)
Definition first_chars (n : nat) (s : string) : string :=
  string_of_list_ascii (firstn n (list_ascii_of_string s)).

(** The file of a session in its project directory, and the file under
    the agent naming: [agent-], the first 8 characters of the session
    identifier, [.jsonl]. *)
Definition session_path {rt : Runtime} (project sessionId : string) : string :=
  path_join [Server.PROJECTS_DIR; project; sessionId ++ ".jsonl"].

Definition agent_path {rt : Runtime} (project sessionId : string) : string :=
  path_join [Server.PROJECTS_DIR; project; "agent-" ++ first_chars 8 sessionId ++ ".jsonl"].

(** The entries a file gives the server: the truthy values of its lines. *)
Definition entries_of {rt : Runtime} {fs : FileSystem} (filePath : string) : json :=
  JArr (filter truthy (file_values filePath)).

(** A structured error: an object with an [error] and its [details]. *)
Definition error_body (error details : string) : json :=
  JObj [("error", JStr error); ("details", JStr details)].


(** A list of counts is in non-increasing order. *)
Fixpoint non_increasing (l : list Z) : bool :=
  match l with
  | [] => true
  | x :: l' =>
      match l' with
      | [] => true
      | y :: _ => (y <=? x) && non_increasing l'
      end
  end.

(** The cost of a usage under a price row: the sum over the four token
    categories of tokens / 1e6 * rate. *)
Definition cost4 (input output cacheRead cacheWrite : float) (row : Gen.Rate.t) : float :=
  (input / 1000000 * Gen.Rate.input row +
   output / 1000000 * Gen.Rate.output row +
   cacheRead / 1000000 * Gen.Rate.cacheRead row +
   cacheWrite / 1000000 * Gen.Rate.cacheWrite row)%float.

(** The same sum over three categories only: input, output, cache-read. *)
Definition cost3 (input output cacheRead : float) (row : Gen.Rate.t) : float :=
  (input / 1000000 * Gen.Rate.input row +
   output / 1000000 * Gen.Rate.output row +
   cacheRead / 1000000 * Gen.Rate.cacheRead row)%float.

Definition opus_row : Gen.Rate.t :=
  {| Gen.Rate.input := 15; Gen.Rate.output := 75;
     Gen.Rate.cacheRead := 1.50; Gen.Rate.cacheWrite := 18.75 |}%float.

Definition default_row : Gen.Rate.t :=
  {| Gen.Rate.input := 3; Gen.Rate.output := 15;
     Gen.Rate.cacheRead := 0.30; Gen.Rate.cacheWrite := 3.75 |}%float.

(** The row of the price table for a display name: the Opus row for an
    Opus-class name, else the row of the table under that name, else the
    default row. *)
Definition rate_row (name : string) : Gen.Rate.t :=
  if String_includes name "Opus" then opus_row
  else match assoc name Gen.PRICING with
       | Some row => row
       | None => default_row
       end.

End Spec.

(** ** A concrete host for the examples

    Stand-ins for the engine's functions, defined on the inputs the
    examples use and agreeing with the engine there. *)

Module Demo.

(** The state in which a statement leaves off. *)
Definition state_of {S A : Type} (o : outcome S A) : S :=
  match o with
  | Done _ s => s
  | Thrown _ s => s
  end.

Definition q (s : string) : string := double_quote ++ s ++ double_quote.

(** The line [{"type":"user"}] and friends. *)
Definition line_of (k v : string) : string := "{" ++ q k ++ ":" ++ q v ++ "}".

(** [JSON.parse] on the literals [null], [false], [0], on one-field objects
    with a string value written without spaces over [type] and
    [gitBranch], and a syntax error elsewhere (the engine's message names
    the place of the error; this one does not). *)
Definition parse (s : string) : exc json :=
  let t := trim s in
  if (t =? "null")%string then Ok JNull
  else if (t =? "false")%string then Ok (JBool false)
  else if (t =? "0")%string then Ok (JNum 0)
  else if (t =? line_of "type" "user")%string then Ok (JObj [("type", JStr "user")])
  else if (t =? line_of "type" "assistant")%string then Ok (JObj [("type", JStr "assistant")])
  else if (t =? line_of "type" "summary")%string then Ok (JObj [("type", JStr "summary")])
  else if (t =? line_of "gitBranch" "main")%string then Ok (JObj [("gitBranch", JStr "main")])
  else Throw "Unexpected token in JSON".

(** [parseInt] on decimal digit strings. *)
Definition parse_int (s : string) : option Z :=
  match s with
  | EmptyString => None
  | _ => option_map Z.of_N (digits_value 0%N s)
  end.

(** [new Date] on three ISO timestamps. *)
Definition new_date (v : json) : option Z :=
  match v with
  | JStr s =>
      if (s =? "2026-10-01T09:30:00.000Z")%string then Some 1790847000000
      else if (s =? "2026-10-03T14:05:00.000Z")%string then Some 1791036300000
      else if (s =? "2020-01-01T00:00:00.000Z")%string then Some 1577836800000
      else None
  | _ => None
  end.

Definition to_iso (t : Z) : string :=
  if t =? 1790847000000 then "2026-10-01T09:30:00.000Z"
  else if t =? 1791036300000 then "2026-10-03T14:05:00.000Z"
  else if t =? 1577836800000 then "2020-01-01T00:00:00.000Z"
  else "".

(** [String(x)] on 0 and 1. *)
Definition number_to_string (x : float) : string :=
  if (x =? 0)%float then "0" else if (x =? 1)%float then "1" else "NaN".

(** [path.join] on segments that need no normalisation. *)
Definition join (parts : list string) : string := concat "/" parts.

(** A host in the UTC time zone. *)
Definition rt : Runtime :=
  {| JSON_parse := parse;
     Number_toString := number_to_string;
     newDate := new_date;
     LocalTZA := fun _ => 0;
     toISOString := to_iso;
     parseInt := parse_int;
     path_join := join;
     homedir := "/home/u" |}.

(** The retention window starts on 2026-05-02T00:00:00Z. *)
Definition cfg : Gen.Config := {| Gen.SIX_MONTHS_AGO := 1777680000000 |}.

(** The errors of the file system, with the messages of Node. *)
Definition missing {A : Type} (call p : string) : exc A :=
  Throw ("ENOENT: no such file or directory, " ++ call ++ " '" ++ p ++ "'").

Definition denied {A : Type} (p : string) : exc A :=
  Throw ("EACCES: permission denied, open '" ++ p ++ "'").

(** A file system given by its files: the content of each path, or the
    error that reading it raises (a directory, a file without read
    permission); a path that is not listed does not exist. *)
Definition fs_of (files : list (string * exc string)) : FileSystem :=
  {| existsSync := fun p => has_key p files;
     readFileSync := fun p =>
       match assoc p files with
       | Some r => r
       | None => missing "open" p
       end |}.

(** A session of three records: a user prompt with a timestamp and a
    branch, an assistant reply that calls the tool [Read], and a summary. *)
Definition session : list json :=
  [ JObj [("type", JStr "user");
          ("timestamp", JStr "2026-10-01T09:30:00.000Z");
          ("gitBranch", JStr "main")];
    JObj [("type", JStr "assistant");
          ("message",
           JObj [("model", JStr "claude-opus-4-5-20251101");
                 ("content",
                  JArr [JObj [("type", JStr "text"); ("text", JStr "ok")];
                        JObj [("type", JStr "tool_use"); ("name", JStr "Read")]])])];
    JObj [("type", JStr "summary")] ].













(** Three sessions of one project: two on the branch [main], then one on
    a branch named after an issue number, [42]. *)
Definition on_branch (b : string) : list json :=
  [ JObj [("type", JStr "user"); ("gitBranch", JStr b)] ].

Definition branch_visits : list Gen.visit :=
  [ Gen.EnterProject "C--Users-u-app";
    Gen.SessionFile (on_branch "main") "a.jsonl" (Some "C--Users-u-app");
    Gen.SessionFile (on_branch "main") "b.jsonl" (Some "C--Users-u-app");
    Gen.SessionFile (on_branch "42") "c.jsonl" (Some "C--Users-u-app") ].

Definition branch_scanned : Gen.state :=
  state_of (Gen.scan (rt := rt) (cfg := cfg) branch_visits Gen.initial_state).

(** The project of the specification's example: one session file with
    three user or assistant records and one [tool_use] block named [Read],
    another with one user record. *)
Definition example_visits : list Gen.visit :=
  [ Gen.EnterProject "C--Users-u-app";
    Gen.SessionFile
      [ JObj [("type", JStr "user")];
        JObj [("type", JStr "assistant");
              ("message",
               JObj [("content",
                      JArr [JObj [("type", JStr "tool_use"); ("name", JStr "Read")]])])];
        JObj [("type", JStr "user")] ]
      "a.jsonl" (Some "C--Users-u-app");
    Gen.SessionFile [ JObj [("type", JStr "user")] ] "b.jsonl" (Some "C--Users-u-app") ].

Definition example_scanned : Gen.state :=
  state_of (Gen.scan (rt := rt) (cfg := cfg) example_visits Gen.initial_state).

(** A file of two lines: a user record, and the number 0. *)
Definition nl : string := String "010"%char EmptyString.

Definition two_lines : string := line_of "type" "user" ++ nl ++ "0" ++ nl.

(** A project directory that holds an agent file only. *)
Definition agent_only : FileSystem :=
  fs_of [("/home/u/.claude/projects/app/agent-01234567.jsonl", Ok two_lines)].

(** A project directory whose session file cannot be read. *)
Definition unreadable : FileSystem :=
  fs_of [("/home/u/.claude/projects/app/0123456789abcdef.jsonl",
          denied "/home/u/.claude/projects/app/0123456789abcdef.jsonl")].

(** A usage of one million cache-write tokens and nothing else. *)
Definition write_heavy : Cache.usage :=
  {| Cache.inputTokens := Some 0%float;
     Cache.outputTokens := Some 0%float;
     Cache.cacheReadInputTokens := Some 0%float;
     Cache.cacheCreationInputTokens := Some 1000000%float |}.

(** A cache that has counted five records in the hour from 9 to 10. *)
Definition cache : Cache.t :=
  {| Cache.hourCounts := Some [("9", 5)]; Cache.modelUsage := None |}.

(** A walk over one project directory that holds the session above. *)
Definition visits : list Gen.visit :=
  [ Gen.EnterProject "C--Users-u-app";
    Gen.SessionFile session "a.jsonl" (Some "C--Users-u-app") ].

Definition seeded : Gen.state := Gen.load_cache (rt := rt) (Some cache) Gen.initial_state.

Definition scanned : Gen.state :=
  state_of (Gen.scan (rt := rt) (cfg := cfg) visits seeded).

End Demo.

(** ** More of the runtime: string and array methods, directories *)

Module Lib.

(** [s.endsWith(suffix)] *)
Definition String_endsWith (s suffix : string) : bool :=
  let n := String.length s in
  let m := String.length suffix in
  ((m <=? n)%nat && (substring (n - m) m s =? suffix)%string)%bool.

(** [a.slice(start)]: a negative [start] counts from the end. *)
Definition Array_slice {A : Type} (start : Z) (a : list A) : list A :=
  let len := Z.of_nat (List.length a) in
  let k := if start <? 0 then Z.max (len + start) 0 else Z.min start len in
  skipn (Z.to_nat k) a.

(** [a.findIndex(p)], counting from [i]; -1 when no element passes. *)
Fixpoint findIndex_from {A : Type} (i : Z) (p : A -> bool) (a : list A) : Z :=
  match a with
  | [] => -1
  | x :: a' => if p x then i else findIndex_from (i + 1) p a'
  end.

Definition findIndex {A : Type} (p : A -> bool) (a : list A) : Z := findIndex_from 0 p a.

(** [a.join(sep)] of an array of strings. *)
Definition Array_join (sep : string) (a : list string) : string := concat sep a.

(** [a.includes(x)] of an array of strings. *)
Definition Array_includes (a : list string) (x : string) : bool :=
  existsb (fun y => (x =? y)%string) a.

(** [a[i]] of an array without holes; [undefined] out of range. *)
Definition Array_get {A : Type} (a : list A) (i : Z) : option A :=
  if i <? 0 then None else nth_error a (Z.to_nat i).

(** What [fs.statSync(p)] answers: [isDirectory()], and [mtime] as a time
    value. *)
Record Stats : Type := { isDirectory : bool; mtime : Z }.

Class Directories : Type := {
  (** [fs.readdirSync(p)] *)
  readdirSync : string -> exc (list string);
  (** [fs.statSync(p)] *)
  statSync : string -> exc Stats
}.

(** The clock, as one request reads it. *)
Class Clock : Type := {
  (** the time value of [new Date()] *)
  Date_now : Z
}.

(** Numerals. *)
Class Numbers : Type := {
  (** the number that a string stands for, [NaN] when it is no numeral *)
  StringToNumber : string -> float;
  (** [x.toFixed(digits)] *)
  toFixed : float -> Z -> string
}.

(** The state a statement leaves, completed or not. *)
Definition final {S A : Type} (o : outcome S A) : S :=
  match o with
  | Done _ s => s
  | Thrown _ s => s
  end.

(** Numbers as [Math.max] of counters produces them. *)
Inductive number : Type :=
| Num (z : Z)
| NaN
| NegInfinity.

(** [Math.max(...a)]: a hole or a [NaN] among the arguments gives [NaN],
    no argument gives [-Infinity]. *)
Fixpoint Math_max (a : list cell) : number :=
  match a with
  | [] => NegInfinity
  | c :: a' =>
      match c, Math_max a' with
      | None, _ => NaN
      | Some _, NaN => NaN
      | Some z, NegInfinity => Num z
      | Some z, Num m => Num (Z.max z m)
      end
  end.

(** [c === x]; [NaN] equals nothing. *)
Definition strict_eq_num (c : cell) (x : number) : bool :=
  match c, x with
  | Some z, Num m => z =? m
  | _, _ => false
  end.

(** [a.indexOf(x)], counting from [i]. *)
Fixpoint indexOf_from (i : Z) (x : number) (a : list cell) : Z :=
  match a with
  | [] => -1
  | c :: a' => if strict_eq_num c x then i else indexOf_from (i + 1) x a'
  end.

Definition Array_indexOf (x : number) (a : list cell) : Z := indexOf_from 0 x a.

(** A statement keeps [P] when the state it leaves satisfies [P], whether
    it completes or throws. *)
Definition preserves {S A : Type} (P : S -> Prop) (m : M S A) : Prop :=
  forall s, P s -> P (final (m s)).

End Lib.

Import Lib.

(** ** Project names *)

Module Names.

Definition is_letter (c : ascii) : bool :=
  let n := nat_of_ascii c in
  ((65 <=? n) && (n <=? 90) || (97 <=? n) && (n <=? 122))%nat.

(** [dirName.replace(/^[A-Za-z]--/, '')] *)
Definition strip_drive (dirName : string) : string :=
  match dirName with
  | String c (String "-" (String "-" rest)) => if is_letter c then rest else dirName
  | _ => dirName
  end.

(** The test of [findIndex] in [extractProjectName]. *)
Definition known_segment (p : string) : bool :=
  ((p =? "Users") || (p =? "Work") || (p =? "Coding") || (p =? "OneDrive")
   || (p =? "Desktop"))%string.

(** Get project name from path ([server.js]) *)
Definition extractProjectName (dirName : string) : string :=
  let parts := split "-" (strip_drive dirName) in
  let idx := findIndex known_segment parts in
  if idx =? -1 then dirName
  else match Array_get (Array_slice (-1) parts) 0 with
       | Some p => if truthy_str p then p else Array_join "-" (Array_slice (-2) parts)
       | None => Array_join "-" (Array_slice (-2) parts)
       end.

Definition skipWords : list string :=
  ["Users"; "dassa"; "Work"; "Coding"; "OneDrive"; "Desktop"; "Documents"].

(** [p => !skipWords.includes(p) && p.length > 2] *)
Definition meaningful_part (p : string) : bool :=
  negb (Array_includes skipWords p) && (2 <? String.length p)%nat.

(** [sanitizeProjectName] ([generate-data.js]) *)
Definition sanitizeProjectName (dirName : string) : string :=
  let parts := split "-" (strip_drive dirName) in
  let meaningful := filter meaningful_part parts in
  let joined := Array_join "-" (Array_slice (-2) meaningful) in
  if truthy_str joined then joined else "Project".

End Names.

(** ** The comprehensive generator: the walk over the directories *)

Module GenWalk.

Section Walk.

Context {rt : Runtime} {fs : FileSystem} {dirs : Directories} {cfg : Gen.Config}.

Definition CLAUDE_DIR : string := path_join [homedir; ".claude"].

Definition projectsDir : string := path_join [CLAUDE_DIR; "projects"].

(** The body of [for (const file of files)]. *)
Definition visit_file (projectDir projectPath file : string) : M Gen.state unit :=
  when (String_endsWith file ".jsonl")
    (let sessionPath := path_join [projectPath; file] in
     let sessionData := Gen.parseJsonl sessionPath in
     Gen.processSession sessionData file (Some projectDir)).

(** The body of [for (const projectDir of projectDirs)]. *)
Definition visit_dir (projectDir : string) : M Gen.state unit :=
  let projectPath := path_join [projectsDir; projectDir] in
  stat <- lift (statSync projectPath) ;;
  if negb (isDirectory stat) then
    (* It's a session file *)
    when (String_endsWith projectDir ".jsonl")
      (let sessionData := Gen.parseJsonl projectPath in
       Gen.processSession sessionData projectDir None)
  else
    modify (Gen.open_project projectDir) ;;
    files <- lift (readdirSync projectPath) ;;
    for_of files (visit_file projectDir projectPath).

(** Scan all project session files for detailed data: the second [try]
    block of the script. *)
Definition scan_projects : M Gen.state unit :=
  try_catch
    (projectDirs <- lift (readdirSync projectsDir) ;;
     for_of projectDirs visit_dir)
    (fun _ => ret tt).

End Walk.

End GenWalk.

(** ** The comprehensive generator: the insights read off the buckets *)

Module Insights.

Definition weekdays : list string :=
  ["Sunday"; "Monday"; "Tuesday"; "Wednesday"; "Thursday"; "Friday"; "Saturday"].

(** [data.weekdayActivity.indexOf(Math.max(...data.weekdayActivity))] *)
Definition maxWeekday (s : Gen.state) : Z :=
  Array_indexOf (Math_max (Gen.weekdayActivity s)) (Gen.weekdayActivity s).

(** [weekdays[maxWeekday]], the day the first insight names. *)
Definition most_active_day (s : Gen.state) : option string :=
  Array_get weekdays (maxWeekday s).

(** [data.hourlyActivity.indexOf(Math.max(...data.hourlyActivity))] *)
Definition maxHour (s : Gen.state) : Z :=
  Array_indexOf (Math_max (Gen.hourlyActivity s)) (Gen.hourlyActivity s).

End Insights.

(** ** The server: recent history *)

Module History.

(** [entry.display?.slice(0, 200) || '']: strings and arrays have a
    [slice]; of the other values, [null] and [undefined] stop the chain,
    and the rest have no such method. *)
Definition display_of (display : value) : exc json :=
  match display with
  | None => Ok (JStr "")
  | Some JNull => Ok (JStr "")
  | Some (JStr s) => Ok (JStr (String_slice0 200 s))
  | Some (JArr items) => Ok (JArr (slice0 200 items))
  | Some _ => Throw "entry.display?.slice is not a function"
  end.

(** An object literal as [res.json] sends it: a property whose value is
    [undefined] is left out. *)
Definition sent_object (fields : list (string * value)) : json :=
  JObj (flat_map (fun f => match snd f with
                           | Some v => [(fst f, v)]
                           | None => []
                           end) fields).

Section History.

Context {rt : Runtime} {fs : FileSystem}.

Definition HISTORY_FILE : string := path_join [Server.CLAUDE_DIR; "history.jsonl"].

(** [parseInt(req.query.limit) || 100], for a parameter given once
    ([Some]) or not at all. *)
Definition limit_of (query_limit : option string) : Z :=
  let n := match query_limit with
           | Some s => parseInt s
           | None => None
           end in
  match n with
  | Some z => if z =? 0 then 100 else z
  | None => 100
  end.

(** [new Date(v).toISOString().split('T')[0]]: [toISOString] of an
    invalid date is a RangeError, with the message of the engine. *)
Definition date_of (timestamp : value) : exc string :=
  match Date_new timestamp with
  | Ok (Some t) => Ok (hd "" (split "T"%char (toISOString t)))
  | Ok None => Throw "Invalid time value"
  | Throw message => Throw message
  end.

(** The callback of [forEach]; the state is [byDate]. *)
Definition group_entry (entry : json) : M (object (list json)) unit :=
  timestamp <- lift (prop (Some entry) "timestamp") ;;
  when (Boolean timestamp)
    (date <- lift (date_of timestamp) ;;
     modify (fun byDate => if has_key date byDate then byDate else obj_set date [] byDate) ;;
     display <- lift (prop (Some entry) "display") ;;
     shown <- lift (display_of display) ;;
     project <- lift (prop (Some entry) "project") ;;
     sessionId <- lift (prop (Some entry) "sessionId") ;;
     modify (fun byDate =>
       match obj_get date byDate with
       | Some items =>
           obj_set date
             (items ++ [sent_object [("display", Some shown); ("project", project);
                                     ("timestamp", timestamp); ("sessionId", sessionId)]])%list
             byDate
       | None => byDate
       end)).

(** What [res.json(byDate)] sends. *)
Definition sent_groups (byDate : object (list json)) : json :=
  JObj (map (fun g => (fst g, JArr (snd g))) byDate).

(** API: Get recent history *)
Definition get_history (query_limit : option string) : M Server.trace Server.response :=
  try_catch
    (entries <- Server.parseJSONL HISTORY_FILE ;;
     let limit := limit_of query_limit in
     match for_of (Array_slice (- limit) entries) group_entry [] with
     | Done _ byDate => ret (Server.res_json (sent_groups byDate))
     | Thrown message _ => lift (Throw message)
     end)
    (fun message =>
       ret (Server.res_status_json 500
              (JObj [("error", JStr "Failed to read history"); ("details", JStr message)]))).

End History.

End History.

(** ** The server: the projects listing *)

Module Listing.

(** An element of the array that [/api/projects] sends. *)
Record row : Type := {
  name : string;
  fullPath : string;
  sessionCount : Z;
  totalMessages : Z;
  totalToolCalls : Z;
  lastActivity : option string;
  branches : list json
}.

(** The variables that the sessions of one project update: the totals,
    [lastActivity] (a time value), and the calls made so far. *)
Record tally : Type := {
  totals : Server.totals;
  latest : option Z;
  calls : Server.trace
}.

(** What the handler sends: [res.json(projects)], or
    [res.status(code).json(body)]. *)
Inductive answer : Type :=
| Listed (projects : list row)
| Failed (code : Z) (body : json).

(** [if (!lastActivity || stat.mtime > lastActivity) lastActivity = stat.mtime] *)
Definition later (mtime : Z) (lastActivity : option Z) : option Z :=
  match lastActivity with
  | Some l => if l <? mtime then Some mtime else Some l
  | None => Some mtime
  end.

(** [(a, b) => b.sessionCount - a.sessionCount] *)
Definition by_sessionCount (a b : row) : Z := sessionCount b - sessionCount a.

(** [xs.map(f)] for a callback that makes calls and may throw. *)
Fixpoint map_M {S A B : Type} (f : A -> M S B) (xs : list A) : M S (list B) :=
  match xs with
  | [] => ret []
  | x :: xs' => y <- f x ;; ys <- map_M f xs' ;; ret (y :: ys)
  end.

Section Listing.

Context {rt : Runtime} {fs : FileSystem} {dirs : Directories}.

(** The callback of [sessions.forEach]: the statements of its [try]
    block; an exception leaves the block, and is dropped. *)
Definition list_session (projectPath : string) (a : tally) (sessionFile : string) : tally :=
  let sessionPath := path_join [projectPath; sessionFile] in
  match statSync sessionPath with
  | Throw _ => a
  | Ok stat =>
      let lastActivity := later (mtime stat) (latest a) in
      match Server.parseJSONL sessionPath (calls a) with
      | Done entries tr =>
          {| totals := final (for_of entries Server.count_entry (totals a));
             latest := lastActivity;
             calls := tr |}
      | Thrown _ tr =>
          {| totals := totals a; latest := lastActivity; calls := tr |}
      end
  end.

(** The callback of [map]. *)
Definition list_project (dir : string) : M Server.trace row :=
  let projectPath := path_join [Server.PROJECTS_DIR; dir] in
  files <- lift (readdirSync projectPath) ;;
  let sessions := filter (fun f => String_endsWith f ".jsonl") files in
  fun tr =>
    let a := fold_left (list_session projectPath) sessions
               {| totals := Server.no_totals; latest := None; calls := tr |} in
    Done {| name := Names.extractProjectName dir;
            fullPath := dir;
            sessionCount := Z.of_nat (List.length sessions);
            totalMessages := Server.totalMessages (totals a);
            totalToolCalls := Server.totalToolCalls (totals a);
            lastActivity := option_map toISOString (latest a);
            branches := Server.branches (totals a) |}
         (calls a).

(** [.filter(d => fs.statSync(path.join(PROJECTS_DIR, d)).isDirectory())] *)
Fixpoint directories (entries : list string) : exc (list string) :=
  match entries with
  | [] => Ok []
  | d :: rest =>
      match statSync (path_join [Server.PROJECTS_DIR; d]) with
      | Throw message => Throw message
      | Ok stat =>
          match directories rest with
          | Throw message => Throw message
          | Ok kept => Ok (if isDirectory stat then d :: kept else kept)
          end
      end
  end.

(** API: Get projects summary *)
Definition get_projects : M Server.trace answer :=
  try_catch
    (entries <- lift (readdirSync Server.PROJECTS_DIR) ;;
     kept <- lift (directories entries) ;;
     projects <- map_M list_project kept ;;
     ret (Listed (Array_sort by_sessionCount projects)))
    (fun message =>
       ret (Failed 500
              (JObj [("error", JStr "Failed to read projects"); ("details", JStr message)]))).

End Listing.

End Listing.

(** ** The server: the timeline of the last 7 days *)

Module Timeline.

(** An element of [recentActivity]. *)
Record session : Type := {
  project : string;
  sessionId : string;
  messageCount : Z;
  lastModified : string;
  samplePrompts : list json
}.

(** The object [timeline]. *)
Record timeline : Type := {
  cachedStats : json;
  recentSessions : list session;
  tokensByDay : json;
  hourlyDistribution : json
}.

(** What the handler sends: [res.json(timeline)], or
    [res.status(code).json(body)]. *)
Inductive answer : Type :=
| Sent (t : timeline)
| Failed (code : Z) (body : json).

(** The variables that the sessions update: [recentActivity], and the
    calls made so far. *)
Record log : Type := {
  recentActivity : list session;
  calls : Server.trace
}.

(** [s.replace(pattern, '')] for a pattern that is a string: its first
    occurrence is taken out. *)
Fixpoint remove_first (pattern s : string) : string :=
  if prefix pattern s
  then substring (String.length pattern) (String.length s - String.length pattern) s
  else match s with
       | EmptyString => EmptyString
       | String c s' => String c (remove_first pattern s')
       end.

(** [a.filter(p)] for a test that may throw. *)
Fixpoint filter_exc {A : Type} (p : A -> exc bool) (a : list A) : exc (list A) :=
  match a with
  | [] => Ok []
  | x :: a' =>
      match p x with
      | Throw message => Throw message
      | Ok keep =>
          match filter_exc p a' with
          | Throw message => Throw message
          | Ok kept => Ok (if keep then x :: kept else kept)
          end
      end
  end.

(** [e => e.type === 'user' && e.message] *)
Definition is_user_message (e : json) : exc bool :=
  match prop (Some e) "type" with
  | Throw message => Throw message
  | Ok type =>
      if strict_eq_str type "user" then
        match prop (Some e) "message" with
        | Throw message => Throw message
        | Ok message => Ok (Boolean message)
        end
      else Ok false
  end.

(** The statements after [parseJSONL] run under a [catch {}] that reads
    nothing of an exception: their result is [None] when one is thrown. *)
Fixpoint all_some {A : Type} (l : list (option A)) : option (list A) :=
  match l with
  | [] => Some []
  | None :: _ => None
  | Some a :: l' =>
      match all_some l' with
      | Some rest => Some (a :: rest)
      | None => None
      end
  end.

(** [v.slice(0, 100)]: strings and arrays have a [slice]; on any other
    value the call is a TypeError. *)
Definition slice100 (v : json) : option json :=
  match v with
  | JStr s => Some (JStr (String_slice0 100 s))
  | JArr items => Some (JArr (slice0 100 items))
  | _ => None
  end.

(** [e => (e.display || e.message?.content || '').slice(0, 100)] *)
Definition sample_prompt (e : json) : option json :=
  match prop (Some e) "display" with
  | Throw _ => None
  | Ok display =>
      if Boolean display then
        match display with
        | Some v => slice100 v
        | None => slice100 (JStr "")
        end
      else
        match prop (Some e) "message" with
        | Throw _ => None
        | Ok message =>
            match prop_opt message "content" with
            | Some content =>
                if truthy content then slice100 content else slice100 (JStr "")
            | None => slice100 (JStr "")
            end
        end
  end.

(** [userMsgs.slice(-3).map(...).filter(Boolean)] *)
Definition sample_prompts (userMsgs : list json) : option (list json) :=
  match all_some (map sample_prompt (Array_slice (-3) userMsgs)) with
  | Some prompts => Some (filter truthy prompts)
  | None => None
  end.

Section Timeline.

Context {rt : Runtime} {fs : FileSystem} {dirs : Directories} {clock : Clock}.

(** [new Date(now.getTime() - 7 * 24 * 60 * 60 * 1000)], as a time value. *)
Definition sevenDaysAgo : Z := Date_now - 7 * 24 * 60 * 60 * 1000.

(** What the statements after [parseJSONL] push for a session, if they
    complete. *)
Definition recent_session (project sessionFile : string) (stat : Stats) (entries : list json)
  : option session :=
  match filter_exc is_user_message entries with
  | Throw _ => None
  | Ok userMsgs =>
      match sample_prompts userMsgs with
      | None => None
      | Some prompts =>
          Some {| project := Names.extractProjectName project;
                  sessionId := remove_first ".jsonl" sessionFile;
                  messageCount := Z.of_nat (List.length userMsgs);
                  lastModified := toISOString (mtime stat);
                  samplePrompts := prompts |}
      end
  end.

(** The callback of [sessions.forEach]: the statements of its [try]
    block; an exception leaves the block, and is dropped. *)
Definition visit_session (project projectPath : string) (a : log) (sessionFile : string)
  : log :=
  let sessionPath := path_join [projectPath; sessionFile] in
  match statSync sessionPath with
  | Throw _ => a
  | Ok stat =>
      if sevenDaysAgo <? mtime stat then
        match Server.parseJSONL sessionPath (calls a) with
        | Done entries tr =>
            match recent_session project sessionFile stat entries with
            | Some pushed =>
                {| recentActivity := (recentActivity a ++ [pushed])%list; calls := tr |}
            | None => {| recentActivity := recentActivity a; calls := tr |}
            end
        | Thrown _ tr => {| recentActivity := recentActivity a; calls := tr |}
        end
      else a
  end.

(** The callback of [projects.forEach]. *)
Definition visit_project (project : string) : M log unit :=
  let projectPath := path_join [Server.PROJECTS_DIR; project] in
  files <- lift (readdirSync projectPath) ;;
  let sessions := filter (fun f => String_endsWith f ".jsonl") files in
  modify (fun a => fold_left (visit_session project projectPath) sessions a).

(** [(a, b) => new Date(b.lastModified) - new Date(a.lastModified)]: the
    difference of two time values, and [NaN], which the sort takes as 0,
    when one of the two is no date. *)
Definition by_lastModified (a b : session) : Z :=
  match newDate (JStr (lastModified b)), newDate (JStr (lastModified a)) with
  | Some x, Some y => x - y
  | _, _ => 0
  end.

(** [v || default] *)
Definition or_else (v : value) (default : json) : json :=
  match v with
  | Some j => if truthy j then j else default
  | None => default
  end.

(** Combine with cached daily stats: the object [timeline]. *)
Definition combine (stats : json) (recentActivity : list session) : exc timeline :=
  match prop (Some stats) "dailyActivity" with
  | Throw message => Throw message
  | Ok dailyActivity =>
      match prop (Some stats) "dailyModelTokens" with
      | Throw message => Throw message
      | Ok dailyModelTokens =>
          match prop (Some stats) "hourCounts" with
          | Throw message => Throw message
          | Ok hourCounts =>
              Ok {| cachedStats := or_else dailyActivity (JArr []);
                    recentSessions :=
                      slice0 20 (Array_sort by_lastModified recentActivity);
                    tokensByDay := or_else dailyModelTokens (JArr []);
                    hourlyDistribution := or_else hourCounts (JObj []) |}
          end
      end
  end.

(** API: Get activity timeline (last 7 days) *)
Definition get_timeline : M Server.trace answer :=
  try_catch
    (content <- Server.fs_readFileSync Server.STATS_CACHE ;;
     stats <- lift (JSON_parse content) ;;
     entries <- lift (readdirSync Server.PROJECTS_DIR) ;;
     projects <- lift (Listing.directories entries) ;;
     fun tr =>
       match for_of projects visit_project {| recentActivity := []; calls := tr |} with
       | Thrown message a => Thrown message (calls a)
       | Done _ a =>
           match combine stats (recentActivity a) with
           | Ok timeline => Done (Sent timeline) (calls a)
           | Throw message => Thrown message (calls a)
           end
       end)
    (fun message =>
       ret (Failed 500
              (JObj [("error", JStr "Failed to build timeline"); ("details", JStr message)]))).

End Timeline.

End Timeline.

(** ** The server: the summary for the dashboard header *)

Module Summary.

(** The object that [/api/summary] sends; [res.json] leaves out a
    property whose value is [undefined]. *)
Record summary : Type := {
  totalSessions : value;
  totalMessages : value;
  firstSession : value;
  longestSession : value;
  projectCount : Z;
  modelUsage : object (object json);
  lastComputed : value
}.

Inductive answer : Type :=
| Sent (s : summary)
| Failed (code : Z) (body : json).

(** The decimal numeral of a number, the key of an index. *)
Definition digit_char (n : nat) : ascii := ascii_of_nat (48 + n).

Fixpoint decimal_digits (fuel n : nat) (acc : string) : string :=
  match fuel with
  | O => acc
  | S fuel' =>
      let acc' := String (digit_char (n mod 10)) acc in
      if (n <? 10)%nat then acc' else decimal_digits fuel' (n / 10) acc'
  end.

Definition decimal (n : nat) : string := decimal_digits (S n) n EmptyString.

Fixpoint indexed_from {A : Type} (i : nat) (a : list A) : list (string * A) :=
  match a with
  | [] => []
  | x :: a' => (decimal i, x) :: indexed_from (S i) a'
  end.

Fixpoint characters (s : string) : list json :=
  match s with
  | EmptyString => []
  | String c s' => JStr (String c EmptyString) :: characters s'
  end.

(** [Object.entries(v)] of a parsed value that is truthy, which are also
    the properties that [{...v}] copies: those of an object, the elements
    of an array and the characters of a string under their indices, and
    none for a number or a boolean. *)
Definition entries_of (v : json) : list (string * json) :=
  match v with
  | JObj props => props
  | JArr items => indexed_from 0 items
  | JStr s => indexed_from 0 (characters s)
  | _ => []
  end.

(** [o[k] = v] for a value that is an object: under the key [__proto__]
    the assignment sets the prototype of [o] and makes no property. *)
Definition assign {V : Type} (k : string) (v : V) (o : object V) : object V :=
  if (k =? "__proto__")%string then o else obj_set k v o.

Section Summary.

Context {rt : Runtime} {fs : FileSystem} {dirs : Directories} {num : Numbers}.

(** A value used as a number: [undefined] is [NaN], [null] is 0, a string
    is read as a numeral, and an object or an array is converted through
    its string. *)
Definition ToNumber (v : value) : exc float :=
  match v with
  | None => Ok nan
  | Some JNull => Ok 0%float
  | Some (JBool b) => Ok (if b then 1%float else 0%float)
  | Some (JNum x) => Ok x
  | Some (JStr s) => Ok (StringToNumber s)
  | Some j =>
      match ToString j with
      | Ok s => Ok (StringToNumber s)
      | Throw message => Throw message
      end
  end.

(** [(usage.k / 1000000) * (model.includes('opus') ? opus : other)] *)
Definition cost_of (model : string) (usage : json) (k : string) (opus other : float)
  : exc float :=
  match prop (Some usage) k with
  | Throw message => Throw message
  | Ok tokens =>
      match ToNumber tokens with
      | Throw message => Throw message
      | Ok n => Ok (n / 1000000 * (if String_includes model "opus" then opus else other))%float
      end
  end.

(** The callback of [forEach]; the state is [modelCosts]. *)
Definition cost_entry (e : string * json) : M (object (object json)) unit :=
  let model := fst e in
  let usage := snd e in
  inputCost <- lift (cost_of model usage "inputTokens" 15 3) ;;
  outputCost <- lift (cost_of model usage "outputTokens" 75 15) ;;
  cacheCost <- lift (cost_of model usage "cacheReadInputTokens" 1.5 0.3) ;;
  modify (assign model
            (fold_left (fun o kv => obj_set (fst kv) (snd kv) o) (entries_of usage)
               [("inputCost", JStr (toFixed inputCost 2));
                ("outputCost", JStr (toFixed outputCost 2));
                ("cacheCost", JStr (toFixed cacheCost 2));
                ("totalCost", JStr (toFixed (inputCost + outputCost + cacheCost) 2))])).

(** [Object.entries(stats.modelUsage || {})] *)
Definition usages (modelUsage : value) : list (string * json) :=
  match modelUsage with
  | Some j => if truthy j then entries_of j else []
  | None => []
  end.

(** API: Get summary for dashboard header *)
Definition get_summary : M Server.trace answer :=
  try_catch
    (content <- Server.fs_readFileSync Server.STATS_CACHE ;;
     stats <- lift (JSON_parse content) ;;
     modelUsage <- lift (prop (Some stats) "modelUsage") ;;
     match for_of (usages modelUsage) cost_entry [] with
     | Thrown message _ => lift (Throw message)
     | Done _ modelCosts =>
         entries <- lift (readdirSync Server.PROJECTS_DIR) ;;
         kept <- lift (Listing.directories entries) ;;
         totalSessions <- lift (prop (Some stats) "totalSessions") ;;
         totalMessages <- lift (prop (Some stats) "totalMessages") ;;
         firstSessionDate <- lift (prop (Some stats) "firstSessionDate") ;;
         longestSession <- lift (prop (Some stats) "longestSession") ;;
         lastComputedDate <- lift (prop (Some stats) "lastComputedDate") ;;
         ret (Sent {| totalSessions := totalSessions;
                      totalMessages := totalMessages;
                      firstSession := firstSessionDate;
                      longestSession := longestSession;
                      projectCount := Z.of_nat (List.length kept);
                      modelUsage := modelCosts;
                      lastComputed := lastComputedDate |})
     end)
    (fun message =>
       ret (Failed 500
              (JObj [("error", JStr "Failed to get summary"); ("details", JStr message)]))).

End Summary.

End Summary.

(** ** Further notions the properties speak of *)

Module Notions.

(** The session files of a project that a walk visits, each with its
    records, in order. *)
Definition sessions_in (dir : string) (visits : list Gen.visit) : list (list json) :=
  flat_map (fun v => match v with
                     | Gen.SessionFile lines _ (Some d) =>
                         if (d =? dir)%string then [lines] else []
                     | _ => []
                     end) visits.

(** The records of these files. *)
Definition records_in (dir : string) (visits : list Gen.visit) : list json :=
  List.concat (sessions_in dir visits).

(** An entry of the model table that holds no tokens. *)
Definition no_tokens (u : Gen.Usage.t) : Prop :=
  Gen.Usage.inputTokens u = 0%float /\ Gen.Usage.outputTokens u = 0%float /\
  Gen.Usage.cacheRead u = 0%float /\ Gen.Usage.cacheWrite u = 0%float.

(** [v] is the timestamp of a latest record within the retention window
    among [records]; no timestamp stands for no such record. *)
Definition latest {rt : Runtime} {cfg : Gen.Config} (v : value) (records : list json) : Prop :=
  match v with
  | None => forallb (fun r => negb (Spec.in_window r)) records = true
  | Some _ =>
      exists r,
        In r records /\ Spec.in_window r = true /\ Spec.field r "timestamp" = v /\
        forall r', In r' records -> Spec.in_window r' = true ->
                   Spec.time_of r' <= Spec.time_of r
  end.

(** An array of [n] counters: no hole, and every cell a number. *)
Definition is_number (c : cell) : bool :=
  match c with
  | Some _ => true
  | None => false
  end.

Definition counters (n : nat) (a : list cell) : Prop :=
  List.length a = n /\ forallb is_number a = true.

(** [i] is the first index at which the array holds its largest count,
    [m]. *)
Definition first_largest (a : list cell) (i m : Z) : Prop :=
  0 <= i < Z.of_nat (List.length a) /\
  Array_get a i = Some (Some m) /\
  forall j z, Array_get a j = Some (Some z) -> z <= m /\ (j < i -> z < m).

(** A list that holds no value twice, values being compared as a [Set]
    compares them. *)
Definition distinct (l : list json) : Prop :=
  ForallOrdPairs (fun a b => Gen.same_value a b = false) l.

(** A string in which a character does not occur. *)
Fixpoint free_of (sep : ascii) (s : string) : bool :=
  match s with
  | EmptyString => true
  | String c s' => negb (Ascii.eqb c sep) && free_of sep s'
  end.

(** What the comprehensive generator keeps of a model of the cache. *)
Definition seeded (usage : Cache.usage) : Gen.Usage.t :=
  {| Gen.Usage.inputTokens := Gen.or0 (Cache.inputTokens usage);
     Gen.Usage.outputTokens := Gen.or0 (Cache.outputTokens usage);
     Gen.Usage.cacheRead := Gen.or0 (Cache.cacheReadInputTokens usage);
     Gen.Usage.cacheWrite := Gen.or0 (Cache.cacheCreationInputTokens usage);
     Gen.Usage.sessions := 0 |}.



Section HistoryNotions.

Context {rt : Runtime} {fs : FileSystem}.

(** The entries of the history log that a request selects. *)
Definition selected (query_limit : option string) : list json :=
  Array_slice (- History.limit_of query_limit)
    (filter truthy (Spec.file_values History.HISTORY_FILE)).

(** The date an entry is grouped under: that of its timestamp, when it
    carries one that is a valid date. *)
Definition history_date (entry : json) : option string :=
  if Boolean (Spec.field entry "timestamp") then
    match History.date_of (Spec.field entry "timestamp") with
    | Ok date => Some date
    | Throw _ => None
    end
  else None.

(** The item that stands for an entry in its group. *)
Definition history_item (entry : json) : json :=
  History.sent_object
    [("display", match History.display_of (Spec.field entry "display") with
                 | Ok shown => Some shown
                 | Throw _ => None
                 end);
     ("project", Spec.field entry "project");
     ("timestamp", Spec.field entry "timestamp");
     ("sessionId", Spec.field entry "sessionId")].

Definition on_date (date : string) (entry : json) : bool :=
  match history_date entry with
  | Some d => (d =? date)%string
  | None => false
  end.

(** The items of the entries of a date, in the order of the entries. *)
Definition items_on (date : string) (entries : list json) : list json :=
  map history_item (filter (on_date date) entries).

End HistoryNotions.

(** An entry of the projects directory that is a directory. *)
Definition is_directory {rt : Runtime} {dirs : Directories} (d : string) : bool :=
  match statSync (path_join [Server.PROJECTS_DIR; d]) with
  | Ok stat => isDirectory stat
  | Throw _ => false
  end.

(** The shape of one row of the projects listing: its name is extracted
    from the directory name, and its session count is the number of the
    directory's entries named [*.jsonl]. *)
Definition row_of_directory {rt : Runtime} {dirs : Directories} (r : Listing.row) : Prop :=
  Listing.name r = Names.extractProjectName (Listing.fullPath r) /\
  exists files,
    readdirSync (path_join [Server.PROJECTS_DIR; Listing.fullPath r]) = Ok files /\
    Listing.sessionCount r = Spec.count (fun f => String_endsWith f ".jsonl") files.

Section ListingNotions.

Context {rt : Runtime} {fs : FileSystem} {dirs : Directories}.

(** The session files of a project directory whose [stat] succeeds, by
    their paths, in the order of the directory. *)
Definition readable_sessions (projectPath : string) (files : list string) : list string :=
  filter (fun p => match statSync p with
                   | Ok _ => true
                   | Throw _ => false
                   end)
    (map (fun f => path_join [projectPath; f])
       (filter (fun f => String_endsWith f ".jsonl") files)).

(** The entries the server reads from a file. *)
Definition session_entries (sessionPath : string) : list json :=
  filter truthy (Spec.file_values sessionPath).

(** The sum of a measure over the entries of some files. *)
Definition sum_over (measure : json -> Z) (paths : list string) : Z :=
  fold_right (fun p acc =>
                fold_right (fun e acc' => measure e + acc') 0 (session_entries p) + acc)
    0 paths.

(** The latest modification time of some files, if there is any file. *)
Definition latest_mtime (paths : list string) : option Z :=
  fold_left (fun acc p =>
               match statSync p with
               | Ok stat => Some (match acc with
                                  | Some l => Z.max l (mtime stat)
                                  | None => mtime stat
                                  end)
               | Throw _ => acc
               end) paths None.

End ListingNotions.

Section HandlerNotions.

Context {rt : Runtime} {fs : FileSystem} {dirs : Directories}.

(** The usage cache as a handler gets it: the value of the file's text,
    or the error of reading or of parsing the file. *)
Definition cache_value : exc json :=
  match readFileSync Server.STATS_CACHE with
  | Ok content => JSON_parse content
  | Throw message => Throw message
  end.

(** The project directories as a handler gets them: the entries of the
    projects directory that are directories, or the error of listing it
    or of the [stat] of one of its entries. *)
Definition project_directories : exc (list string) :=
  match readdirSync Server.PROJECTS_DIR with
  | Ok entries => Listing.directories entries
  | Throw message => Throw message
  end.

(** Project directories that can be listed. *)
Definition listable (projects : list string) : Prop :=
  forall d, In d projects ->
    exists files, readdirSync (path_join [Server.PROJECTS_DIR; d]) = Ok files.

End HandlerNotions.

Section TreeVisits.

Context {rt : Runtime} {fs : FileSystem} {dirs : Directories} {cfg : Gen.Config}.

(** The session files of a project directory, as visits. *)
Definition file_visits (projectDir projectPath : string) (files : list string)
  : list Gen.visit :=
  map (fun file =>
         Gen.SessionFile (Gen.parseJsonl (path_join [projectPath; file])) file
           (Some projectDir))
      (filter (fun file => String_endsWith file ".jsonl") files).

(** The visits that one entry of the projects directory stands for, and
    whether it could be listed: an entry whose [stat] fails stands for
    nothing, a directory that cannot be read for its own entering only. *)
Definition dir_visits (projectDir : string) : list Gen.visit * bool :=
  let projectPath := path_join [GenWalk.projectsDir; projectDir] in
  match statSync projectPath with
  | Throw _ => ([], false)
  | Ok stat =>
      if negb (isDirectory stat) then
        (if String_endsWith projectDir ".jsonl"
         then [Gen.SessionFile (Gen.parseJsonl projectPath) projectDir None]
         else [], true)
      else match readdirSync projectPath with
           | Throw _ => ([Gen.EnterProject projectDir], false)
           | Ok files =>
               (Gen.EnterProject projectDir :: file_visits projectDir projectPath files,
                true)
           end
  end.

(** The visits of the entries, up to the first that cannot be listed. *)
Fixpoint dirs_visits (projectDirs : list string) : list Gen.visit :=
  match projectDirs with
  | [] => []
  | projectDir :: rest =>
      if snd (dir_visits projectDir)
      then (fst (dir_visits projectDir) ++ dirs_visits rest)%list
      else fst (dir_visits projectDir)
  end.

(** The visits the directory tree stands for; none when the projects
    directory cannot be read. *)
Definition tree_visits : list Gen.visit :=
  match readdirSync GenWalk.projectsDir with
  | Ok projectDirs => dirs_visits projectDirs
  | Throw _ => []
  end.

End TreeVisits.

End Notions.

(** ** More samples for the examples *)

Module Sample.

(** The project of the specification's example, entered, and its two
    session files. *)
Definition opened : Gen.state := Gen.open_project "C--Users-u-app" Gen.initial_state.

Definition app_files : list Gen.visit := tl Demo.example_visits.

(** A session file whose second line is [null]. *)
Definition null_session : list json :=
  [ JObj [("type", JStr "user")]; JNull; JObj [("type", JStr "user")] ].

Definition null_visit : Gen.visit :=
  Gen.SessionFile null_session "a.jsonl" (Some "C--Users-u-app").

Definition after_null : list Gen.visit :=
  [ Gen.SessionFile [ JObj [("type", JStr "user")] ] "b.jsonl" (Some "C--Users-u-app") ].

(** A scan without a cache of the session of [Demo]. *)
Definition plain_scanned : Gen.state :=
  Demo.state_of (Gen.walk (rt := Demo.rt) (cfg := Demo.cfg) Demo.visits Gen.initial_state).

(** A cache that lists an hour past the 24 of the day. *)
Definition late_hour_cache : Cache.t :=
  {| Cache.hourCounts := Some [("30", 1)]; Cache.modelUsage := None |}.

(** A prompt of the history log, with its timestamp. *)
Definition stamped (timestamp : string) : json := JObj [("timestamp", JStr timestamp)].

(** [JSON.parse] on the lines of the sample history logs, one-field
    objects with a timestamp; as [Demo.parse] elsewhere. *)
Definition parse (s : string) : exc json :=
  let t := trim s in
  if (t =? Demo.line_of "timestamp" "2026-10-01T09:30:00.000Z")%string
  then Ok (stamped "2026-10-01T09:30:00.000Z")
  else if (t =? Demo.line_of "timestamp" "2026-10-03T14:05:00.000Z")%string
  then Ok (stamped "2026-10-03T14:05:00.000Z")
  else if (t =? Demo.line_of "timestamp" "soon")%string
  then Ok (stamped "soon")
  else Demo.parse s.

Definition rt : Runtime :=
  {| JSON_parse := parse;
     Number_toString := Demo.number_to_string;
     newDate := Demo.new_date;
     LocalTZA := fun _ => 0;
     toISOString := Demo.to_iso;
     parseInt := Demo.parse_int;
     path_join := Demo.join;
     homedir := "/home/u" |}.

(** A history log of three prompts, on two days. *)
Definition history_log : string :=
  Demo.line_of "timestamp" "2026-10-01T09:30:00.000Z" ++ Demo.nl ++
  Demo.line_of "timestamp" "2026-10-03T14:05:00.000Z" ++ Demo.nl ++
  Demo.line_of "timestamp" "2026-10-01T09:30:00.000Z" ++ Demo.nl.

Definition with_history : FileSystem :=
  Demo.fs_of [("/home/u/.claude/history.jsonl", Ok history_log)].

(** A history log whose second prompt has a timestamp that is no date. *)
Definition odd_log : string :=
  Demo.line_of "timestamp" "2026-10-01T09:30:00.000Z" ++ Demo.nl ++
  Demo.line_of "timestamp" "soon" ++ Demo.nl.

Definition with_odd_history : FileSystem :=
  Demo.fs_of [("/home/u/.claude/history.jsonl", Ok odd_log)].

(** Directories given by their listings, and the [stat] of paths; a path
    that is not listed does not exist. *)
Definition dirs_of (listings : list (string * list string)) (stats : list (string * Stats))
  : Directories :=
  {| readdirSync := fun p =>
       match assoc p listings with
       | Some entries => Ok entries
       | None => Demo.missing "scandir" p
       end;
     statSync := fun p =>
       match assoc p stats with
       | Some stat => Ok stat
       | None => Demo.missing "stat" p
       end |}.

(** A project directory with a session file, a session file that was
    removed after the directory was listed, and a file of notes. *)
Definition app_dirs : Directories :=
  dirs_of
    [("/home/u/.claude/projects", ["app"]);
     ("/home/u/.claude/projects/app", ["a.jsonl"; "gone.jsonl"; "notes.txt"])]
    [("/home/u/.claude/projects/app", {| isDirectory := true; mtime := 7 |});
     ("/home/u/.claude/projects/app/a.jsonl", {| isDirectory := false; mtime := 5 |})].

Definition app_fs : FileSystem :=
  Demo.fs_of [("/home/u/.claude/projects/app/a.jsonl", Ok Demo.two_lines)].

Definition app_row : Listing.row :=
  match Listing.list_project (rt := Demo.rt) (fs := app_fs) (dirs := app_dirs) "app" [] with
  | Done r _ => r
  | Thrown _ _ =>
      {| Listing.name := ""; Listing.fullPath := ""; Listing.sessionCount := 0;
         Listing.totalMessages := 0; Listing.totalToolCalls := 0;
         Listing.lastActivity := None; Listing.branches := [] |}
  end.

End Sample.

(* ================================================================== *)
(** * Part II: lemmas and theorems *)
(* ================================================================== *)

(** ** Running statements *)

Section MonadFacts.

Context {S : Type}.

Lemma bind_Done {A B : Type} (m : M S A) (k : A -> M S B) (s : S) (b : B) (s2 : S) :
  bind m k s = Done b s2 ->
  exists a s1, m s = Done a s1 /\ k a s1 = Done b s2.
Proof.
  unfold bind. destruct (m s) as [a s1 | msg s1]; intros H.
  - exists a, s1. split; [reflexivity | exact H].
  - discriminate H.
Qed.

Lemma bind_Done_intro {A B : Type} (m : M S A) (k : A -> M S B) (s s1 : S) (a : A) :
  m s = Done a s1 -> bind m k s = k a s1.
Proof. unfold bind. intros ->. reflexivity. Qed.

Lemma when_Done (b : bool) (m : M S unit) (s s' : S) :
  when b m s = Done tt s' ->
  (b = true /\ m s = Done tt s') \/ (b = false /\ s' = s).
Proof.
  destruct b; simpl; intros H.
  - left. split; [reflexivity | exact H].
  - right. inversion H. split; reflexivity.
Qed.

(** A property that every iteration keeps is kept by the loop. *)
Lemma for_of_invariant {A : Type} (P : S -> Prop) (body : A -> M S unit) :
  (forall x s s', body x s = Done tt s' -> P s -> P s') ->
  forall xs s s', for_of xs body s = Done tt s' -> P s -> P s'.
Proof.
  intros Hbody xs. induction xs as [| x xs IH]; simpl; intros s s' H HP.
  - inversion H. subst. exact HP.
  - apply bind_Done in H. destruct H as ([] & s1 & H1 & H2).
    eapply IH; [exact H2 |]. eapply Hbody; eassumption.
Qed.

(** A quantity to which every iteration adds its share grows by the sum
    of the shares. *)
Lemma for_of_sum {A : Type} (f : S -> Z) (w : A -> Z) (body : A -> M S unit) :
  (forall x s s', body x s = Done tt s' -> f s' = f s + w x) ->
  forall xs s s', for_of xs body s = Done tt s' ->
    f s' = f s + fold_right (fun x acc => w x + acc) 0 xs.
Proof.
  intros Hbody xs. induction xs as [| x xs IH]; simpl; intros s s' H.
  - inversion H. subst. lia.
  - apply bind_Done in H. destruct H as ([] & s1 & H1 & H2).
    rewrite (IH _ _ H2), (Hbody _ _ _ H1). lia.
Qed.

(** A loop whose iterations all complete completes. *)
Lemma for_of_total {A : Type} (ok : A -> bool) (body : A -> M S unit) :
  (forall x s, ok x = true -> exists s', body x s = Done tt s') ->
  forall xs s, forallb ok xs = true -> exists s', for_of xs body s = Done tt s'.
Proof.
  intros Hbody xs. induction xs as [| x xs IH]; simpl; intros s Hall.
  - exists s. reflexivity.
  - apply andb_true_iff in Hall. destruct Hall as [Hx Hxs].
    destruct (Hbody x s Hx) as [s1 H1].
    destruct (IH s1 Hxs) as [s2 H2].
    exists s2. simpl. erewrite bind_Done_intro by exact H1. exact H2.
Qed.

(** The same for iterations that complete as long as an invariant holds. *)
Lemma for_of_total_inv {A : Type} (ok : A -> bool) (I : S -> Prop) (body : A -> M S unit) :
  (forall x s, ok x = true -> I s -> exists s', body x s = Done tt s' /\ I s') ->
  forall xs s, forallb ok xs = true -> I s ->
    exists s', for_of xs body s = Done tt s' /\ I s'.
Proof.
  intros Hbody xs. induction xs as [| x xs IH]; simpl; intros s Hall HI.
  - exists s. split; [reflexivity | exact HI].
  - apply andb_true_iff in Hall. destruct Hall as [Hx Hxs].
    destruct (Hbody x s Hx HI) as (s1 & H1 & HI1).
    destruct (IH s1 Hxs HI1) as (s2 & H2 & HI2).
    exists s2. split; [| exact HI2]. erewrite bind_Done_intro by exact H1. exact H2.
Qed.

End MonadFacts.

(** Counting with a filter, one element at a time. *)
Lemma count_as_sum {A : Type} (p : A -> bool) (l : list A) :
  Spec.count p l = fold_right (fun x acc => Spec.b2z (p x) + acc) 0 l.
Proof.
  unfold Spec.count. induction l as [| x l IH]; simpl; [reflexivity |].
  rewrite <- IH. destruct (p x); simpl List.length; unfold Spec.b2z; lia.
Qed.

Lemma count_app {A : Type} (p : A -> bool) (l1 l2 : list A) :
  Spec.count p (l1 ++ l2) = Spec.count p l1 + Spec.count p l2.
Proof.
  unfold Spec.count. rewrite filter_app, length_app. lia.
Qed.

Ltac break_match :=
  match goal with
  | |- context [match ?x with _ => _ end] =>
      lazymatch x with
      | context [match _ with _ => _ end] => fail
      | _ => destruct x eqn:?
      end
  end.

Ltac done_eq :=
  let H := fresh "H" in
  intros H; first [ discriminate H | inversion H; subst; clear H ].

Lemma prop_or_null (x : json) :
  x = JNull \/ forall k, prop (Some x) k = Ok (Spec.field x k).
Proof. destruct x; [left; reflexivity | right; intros k; reflexivity ..]. Qed.

Ltac read_props x :=
  let Hx := fresh "Hprops" in
  destruct (prop_or_null x) as [-> | Hx]; [ simpl; discriminate | rewrite ?Hx ].

Lemma count_cons {A : Type} (p : A -> bool) (x : A) (l : list A) :
  Spec.count p (x :: l) = Spec.b2z (p x) + Spec.count p l.
Proof. rewrite !count_as_sum. reflexivity. Qed.

(** ** Values that have a string *)

Section Conversions.

Context {rt : Runtime}.

Lemma convertible_ToString :
  forall v, Spec.convertible v = true -> exists s, ToString v = Ok s.
Proof.
  fix IH 1. intros v. destruct v as [| b | x | s | items | props]; intros H.
  - exists "null". reflexivity.
  - destruct b; eexists; reflexivity.
  - eexists. reflexivity.
  - eexists. reflexivity.
  - cbn [ToString].
    match goal with
    | |- context [all_ok ?l] => assert (Hparts : exists parts, all_ok l = Ok parts)
    end.
    { cbn [Spec.convertible] in H. induction items as [| e items IHitems].
      - exists []. reflexivity.
      - cbn [forallb] in H. apply andb_true_iff in H. destruct H as [He Hitems].
        destruct (IHitems Hitems) as [parts Hparts].
        destruct (IH e He) as [s Hs].
        cbn [map all_ok]. rewrite Hparts.
        destruct e; try (rewrite Hs; eexists; reflexivity).
        eexists. reflexivity. }
    destruct Hparts as [parts Hparts]. rewrite Hparts. eexists. reflexivity.
  - cbn [ToString]. cbn [Spec.convertible] in H. apply negb_true_iff in H.
    rewrite H. eexists. reflexivity.
Qed.

Lemma ToString_convertible :
  forall v s, ToString v = Ok s -> Spec.convertible v = true.
Proof.
  fix IH 1. intros v. destruct v as [| b | x | s0 | items | props]; intros s H;
    try reflexivity.
  - cbn [ToString] in H. cbn [Spec.convertible].
    match type of H with
    | context [all_ok ?l] => assert (Hparts : exists parts, all_ok l = Ok parts)
    end.
    { destruct (all_ok _) as [parts |]; [exists parts; reflexivity | discriminate H]. }
    clear H. destruct Hparts as [parts Hparts]. revert parts Hparts.
    induction items as [| e items IHitems]; intros parts Hparts; [reflexivity |].
    cbn [map all_ok] in Hparts. cbn [forallb].
    pose proof (IH e) as IHe.
    destruct (all_ok (map _ items)) as [rest |] eqn:Hrest.
    + rewrite (IHitems rest eq_refl), andb_true_r.
      destruct e; try reflexivity;
        (destruct (ToString _) as [s1 |] eqn:Hs in Hparts; [| discriminate Hparts]);
        exact (IHe _ Hs).
    + destruct e; try discriminate Hparts;
        destruct (ToString _) in Hparts; discriminate Hparts.
  - cbn [ToString] in H. cbn [Spec.convertible].
    destruct (has_key "toString" props); [discriminate H | reflexivity].
Qed.

(** A date can be made of a value exactly when the value has a string. *)
Lemma Date_new_dated (v : value) : Spec.dated v = true -> exists d, Date_new v = Ok d.
Proof.
  destruct v as [[| b | x | s | items | props] |]; simpl; intros H;
    try (eexists; reflexivity).
  - destruct (convertible_ToString (JArr items) H) as [s Hs].
    cbn [ToString] in Hs. rewrite Hs. eexists. reflexivity.
  - apply negb_true_iff in H. rewrite H. eexists. reflexivity.
Qed.

Lemma dated_Date_new (v : value) (d : option Z) : Date_new v = Ok d -> Spec.dated v = true.
Proof.
  destruct v as [[| b | x | s | items | props] |]; intros H; try reflexivity.
  - unfold Date_new in H. destruct (ToString (JArr items)) as [s |] eqn:Hs; [| discriminate H].
    exact (ToString_convertible _ _ Hs).
  - unfold Date_new in H. destruct (ToString (JObj props)) as [s |] eqn:Hs; [| discriminate H].
    exact (ToString_convertible _ _ Hs).
Qed.

End Conversions.

(** ** The generator, one line at a time *)

Section GenLines.

Context {rt : Runtime} {fs : FileSystem} {cfg : Gen.Config}.
Import Gen.

Lemma getHours_range t : 0 <= getHours t < 24.
Proof. unfold getHours. apply Z.mod_pos_bound. lia. Qed.

Lemma getDay_range t : 0 <= getDay t < 7.
Proof. unfold getDay. apply Z.mod_pos_bound. lia. Qed.

Lemma index_in_range (i n : Z) :
  0 <= i < n -> n <= 4294967295 -> (0 <=? i) && (i <=? 4294967294) = true.
Proof. intros H Hn. apply andb_true_iff. split; apply Z.leb_le; lia. Qed.

Lemma track_timestamps_effect line s l s' l' :
  track_timestamps line (s, l) = Done tt (s', l') ->
  hourlyActivity s' =
    (if Spec.in_window line
     then array_update (Z.to_nat (getHours (Spec.time_of line))) incr (hourlyActivity s)
     else hourlyActivity s) /\
  weekdayActivity s' =
    (if Spec.in_window line
     then array_update (Z.to_nat (getDay (Spec.time_of line))) incr (weekdayActivity s)
     else weekdayActivity s) /\
  modelUsage s' = modelUsage s /\ toolCounts s' = toolCounts s /\
  branchCounts s' = branchCounts s /\ projectMap s' = projectMap s /\
  sessionMessages l' = sessionMessages l /\
  sessionToolCalls l' = sessionToolCalls l /\ branch l' = branch l.
Proof.
  unfold track_timestamps, bind, lift.
  read_props line.
  unfold Spec.in_window, Spec.time_of, when.
  destruct (Boolean (Spec.field line "timestamp")) eqn:Hb; simpl;
    [| unfold ret; done_eq; repeat split; reflexivity].
  unfold getHour, getWeekday, getDateStr. rewrite Hb. simpl.
  destruct (Date_new (Spec.field line "timestamp")) as [[t |] | m] eqn:Ht; simpl;
    [ | unfold ret; done_eq; repeat split; reflexivity | discriminate ].
  destruct (SIX_MONTHS_AGO <=? t) eqn:Hw; simpl;
    [| unfold ret; done_eq; repeat split; reflexivity].
  unfold array_update_at.
  rewrite (index_in_range _ 24 (getHours_range t)) by lia.
  rewrite (index_in_range _ 7 (getDay_range t)) by lia.
  unfold on_state, on_locals, modify, get, ret. simpl.
  repeat break_match; done_eq; simpl; repeat split; reflexivity.
Qed.

Lemma count_messages_effect line s l s' l' :
  count_messages line (s, l) = Done tt (s', l') ->
  s' = s /\
  sessionMessages l' = sessionMessages l + Spec.b2z (Spec.is_message line) /\
  sessionToolCalls l' = sessionToolCalls l /\ branch l' = branch l.
Proof.
  unfold count_messages, bind, lift.
  read_props line.
  unfold Spec.is_message, Spec.has_type, when, on_locals, modify, ret.
  break_match; done_eq; simpl; repeat split; unfold Spec.b2z; lia.
Qed.

Lemma track_branch_effect line s l s' l' :
  track_branch line (s, l) = Done tt (s', l') ->
  hourlyActivity s' = hourlyActivity s /\ weekdayActivity s' = weekdayActivity s /\
  modelUsage s' = modelUsage s /\ toolCounts s' = toolCounts s /\
  projectMap s' = projectMap s /\
  sessionMessages l' = sessionMessages l /\ sessionToolCalls l' = sessionToolCalls l /\
  branch l' = (if Spec.attributes_branch line l then Spec.field line "gitBranch" else branch l) /\
  branchCounts s' =
    (if Spec.attributes_branch line l
     then match Spec.field line "gitBranch" with
          | Some b => Spec.counted b (branchCounts s)
          | None => branchCounts s
          end
     else branchCounts s) /\
  (Spec.attributes_branch line l = true ->
   forall b, Spec.field line "gitBranch" = Some b -> exists key, ToString b = Ok key).
Proof.
  unfold track_branch, bind, lift.
  read_props line.
  unfold Spec.attributes_branch, Spec.counted, get, when, on_locals, on_state, modify, ret,
    bind. simpl.
  destruct (Spec.field line "gitBranch") as [b |]; simpl.
  - destruct (truthy b && negb (Boolean (branch l))); simpl.
    + unfold lift. destruct (ToString b) as [key | m] eqn:Hk; [| discriminate].
      done_eq. simpl. repeat split; try reflexivity.
      intros _ b' Hb'. inversion Hb'. subst b'. exists key. exact Hk.
    + done_eq. repeat split; try reflexivity. discriminate.
  - done_eq. repeat split; try reflexivity. discriminate.
Qed.

Lemma count_block_effect block s l s' l' :
  count_block block (s, l) = Done tt (s', l') ->
  hourlyActivity s' = hourlyActivity s /\ weekdayActivity s' = weekdayActivity s /\
  modelUsage s' = modelUsage s /\ branchCounts s' = branchCounts s /\
  projectMap s' = projectMap s /\
  sessionMessages l' = sessionMessages l /\ branch l' = branch l /\
  sessionToolCalls l' = sessionToolCalls l + Spec.b2z (Spec.is_tool_use block) /\
  toolCounts s' = (if Spec.is_tool_use block then Spec.attribute (toolCounts s) block else toolCounts s) /\
  (Spec.is_tool_use block = true -> exists name, Spec.tool_name block = Ok name).
Proof.
  unfold count_block, bind, lift.
  read_props block.
  unfold Spec.is_tool_use, Spec.has_type, when.
  destruct (strict_eq_str (Spec.field block "type") "tool_use"); simpl.
  - unfold on_locals, on_state, modify, ret. simpl.
    unfold Spec.attribute, Spec.tool_name.
    destruct (ToString _) as [name | m]; [| discriminate].
    done_eq. simpl. unfold Spec.b2z. repeat split; try reflexivity.
    intros _. exists name. reflexivity.
  - unfold ret. done_eq. unfold Spec.b2z.
    repeat split; try reflexivity; try lia; try discriminate.
Qed.

Lemma count_blocks_effect blocks : forall s l s' l',
  for_of blocks count_block (s, l) = Done tt (s', l') ->
  hourlyActivity s' = hourlyActivity s /\ weekdayActivity s' = weekdayActivity s /\
  modelUsage s' = modelUsage s /\ branchCounts s' = branchCounts s /\
  projectMap s' = projectMap s /\
  sessionMessages l' = sessionMessages l /\ branch l' = branch l /\
  sessionToolCalls l' = sessionToolCalls l + Spec.count Spec.is_tool_use blocks /\
  toolCounts s' = fold_left Spec.attribute (filter Spec.is_tool_use blocks) (toolCounts s) /\
  Forall (fun b => exists name, Spec.tool_name b = Ok name) (filter Spec.is_tool_use blocks).
Proof.
  induction blocks as [| b blocks IH]; simpl; intros s l s' l' H.
  - unfold ret in H. inversion H. subst. unfold Spec.count. simpl.
    repeat split; try reflexivity; try lia. constructor.
  - apply bind_Done in H. destruct H as ([] & [s1 l1] & H1 & H2).
    apply count_block_effect in H1. apply IH in H2.
    destruct H1 as (A1 & A2 & A3 & A4 & A5 & A6 & A7 & E1 & E2 & N1).
    destruct H2 as (B1 & B2 & B3 & B4 & B5 & B6 & B7 & E3 & E4 & N2).
    rewrite count_cons, E4, E2, E3, E1.
    destruct (Spec.is_tool_use b); repeat split; try congruence; try lia;
      try exact N2.
    constructor; [apply N1; reflexivity | exact N2].
Qed.

Lemma count_tool_calls_effect line s l s' l' :
  count_tool_calls line (s, l) = Done tt (s', l') ->
  hourlyActivity s' = hourlyActivity s /\ weekdayActivity s' = weekdayActivity s /\
  modelUsage s' = modelUsage s /\ branchCounts s' = branchCounts s /\
  projectMap s' = projectMap s /\
  sessionMessages l' = sessionMessages l /\ branch l' = branch l /\
  sessionToolCalls l' = sessionToolCalls l + Z.of_nat (List.length (Spec.tool_use_blocks line)) /\
  toolCounts s' = fold_left Spec.attribute (Spec.tool_use_blocks line) (toolCounts s) /\
  Forall (fun b => exists name, Spec.tool_name b = Ok name) (Spec.tool_use_blocks line).
Proof.
  unfold count_tool_calls, bind, lift.
  read_props line.
  unfold Spec.tool_use_blocks, Spec.has_type, when.
  destruct (strict_eq_str (Spec.field line "type") "assistant"); simpl;
    [| unfold ret; done_eq; repeat split; try reflexivity; simpl; try lia; constructor].
  destruct (prop_opt (Spec.field line "message") "content") as [c |]; simpl;
    [| unfold ret; done_eq; repeat split; try reflexivity; simpl; try lia; constructor].
  destruct (truthy c) eqn:Hc;
    [| destruct c; simpl in Hc; try discriminate Hc;
       unfold ret; done_eq; repeat split; try reflexivity; simpl; try lia; constructor ].
  destruct c;
    try (unfold ret; done_eq; repeat split; try reflexivity; simpl; try lia; constructor).
  intros H. apply count_blocks_effect in H. unfold Spec.count in H. exact H.
Qed.

Lemma track_model_effect line s l s' l' :
  track_model line (s, l) = Done tt (s', l') ->
  hourlyActivity s' = hourlyActivity s /\ weekdayActivity s' = weekdayActivity s /\
  toolCounts s' = toolCounts s /\ branchCounts s' = branchCounts s /\
  projectMap s' = projectMap s /\ l' = l /\
  match prop_opt (Spec.field line "message") "model" with
  | Some model =>
      if truthy model
      then exists shortName key,
             shortName_of model = Ok shortName /\
             ToString shortName = Ok key /\
             modelUsage s' = bump_model key (modelUsage s)
      else modelUsage s' = modelUsage s
  | None => modelUsage s' = modelUsage s
  end.
Proof.
  unfold track_model, bind, lift.
  read_props line.
  destruct (prop_opt (Spec.field line "message") "model") as [model |];
    [| unfold ret; done_eq; repeat split; reflexivity].
  unfold when. destruct (truthy model);
    [| unfold ret; done_eq; repeat split; reflexivity].
  destruct (shortName_of model) as [shortName |] eqn:Hs; [| discriminate].
  destruct (ToString shortName) as [key |] eqn:Hk; [| discriminate].
  unfold on_state, modify. done_eq. simpl.
  repeat split; try reflexivity. exists shortName, key. repeat split; assumption.
Qed.

(** One line, all five statement groups. *)
Lemma processLine_effect line s l s' l' :
  processLine line (s, l) = Done tt (s', l') ->
  hourlyActivity s' =
    (if Spec.in_window line
     then array_update (Z.to_nat (getHours (Spec.time_of line))) incr (hourlyActivity s)
     else hourlyActivity s) /\
  weekdayActivity s' =
    (if Spec.in_window line
     then array_update (Z.to_nat (getDay (Spec.time_of line))) incr (weekdayActivity s)
     else weekdayActivity s) /\
  projectMap s' = projectMap s /\
  sessionMessages l' = sessionMessages l + Spec.b2z (Spec.is_message line) /\
  sessionToolCalls l' =
    sessionToolCalls l + Z.of_nat (List.length (Spec.tool_use_blocks line)) /\
  toolCounts s' = fold_left Spec.attribute (Spec.tool_use_blocks line) (toolCounts s) /\
  branch l' = (if Spec.attributes_branch line l then Spec.field line "gitBranch" else branch l) /\
  branchCounts s' =
    (if Spec.attributes_branch line l
     then match Spec.field line "gitBranch" with
          | Some b => Spec.counted b (branchCounts s)
          | None => branchCounts s
          end
     else branchCounts s) /\
  match prop_opt (Spec.field line "message") "model" with
  | Some model =>
      if truthy model
      then exists shortName key,
             shortName_of model = Ok shortName /\
             ToString shortName = Ok key /\
             modelUsage s' = bump_model key (modelUsage s)
      else modelUsage s' = modelUsage s
  | None => modelUsage s' = modelUsage s
  end.
Proof.
  unfold processLine. intros H.
  apply bind_Done in H. destruct H as ([] & [s1 l1] & H1 & H).
  apply bind_Done in H. destruct H as ([] & [s2 l2] & H2 & H).
  apply bind_Done in H. destruct H as ([] & [s3 l3] & H3 & H).
  apply bind_Done in H. destruct H as ([] & [s4 l4] & H4 & H5).
  apply track_timestamps_effect in H1.
  destruct H1 as (A1 & A2 & A3 & A4 & A5 & A6 & A7 & A8 & A9).
  apply count_messages_effect in H2. destruct H2 as (-> & B1 & B2 & B3).
  apply track_branch_effect in H3.
  destruct H3 as (C1 & C2 & C3 & C4 & C5 & C6 & C7 & C8 & C9 & _).
  apply count_tool_calls_effect in H4.
  destruct H4 as (D1 & D2 & D3 & D4 & D5 & D6 & D7 & D8 & D9 & _).
  apply track_model_effect in H5.
  destruct H5 as (E1 & E2 & E3 & E4 & E5 & -> & E7).
  assert (Hattr : Spec.attributes_branch line l2 = Spec.attributes_branch line l)
    by (unfold Spec.attributes_branch; rewrite B3, A9; reflexivity).
  rewrite Hattr in C8, C9.
  assert (Hmu : modelUsage s4 = modelUsage s) by congruence.
  repeat split.
  - rewrite E1, D1, C1. exact A1.
  - rewrite E2, D2, C2. exact A2.
  - congruence.
  - rewrite D6, C6, B1, A7. reflexivity.
  - rewrite D8, C7, B2, A8. reflexivity.
  - rewrite E3, D9, C4, A4. reflexivity.
  - rewrite D7, C8, B3, A9. reflexivity.
  - rewrite E4, D4, C9, A5. reflexivity.
  - destruct (prop_opt (Spec.field line "message") "model") as [model |];
      [destruct (truthy model) |].
    + destruct E7 as (sn & key & Hsn & Hkey & E7).
      exists sn, key. repeat split; [exact Hsn | exact Hkey | congruence].
    + congruence.
    + congruence.
Qed.

(** The values that a line that was processed had to convert have a
    string. *)
Lemma processLine_converts line s l s' l' :
  processLine line (s, l) = Done tt (s', l') ->
  Forall (fun b => exists name, Spec.tool_name b = Ok name) (Spec.tool_use_blocks line) /\
  (Spec.attributes_branch line l = true ->
   forall b, Spec.field line "gitBranch" = Some b -> exists key, ToString b = Ok key).
Proof.
  unfold processLine. intros H.
  apply bind_Done in H. destruct H as ([] & [s1 l1] & H1 & H).
  apply bind_Done in H. destruct H as ([] & [s2 l2] & H2 & H).
  apply bind_Done in H. destruct H as ([] & [s3 l3] & H3 & H).
  apply bind_Done in H. destruct H as ([] & [s4 l4] & H4 & H5).
  apply track_timestamps_effect in H1.
  destruct H1 as (A1 & A2 & A3 & A4 & A5 & A6 & A7 & A8 & A9).
  apply count_messages_effect in H2. destruct H2 as (-> & B1 & B2 & B3).
  apply track_branch_effect in H3.
  destruct H3 as (C1 & C2 & C3 & C4 & C5 & C6 & C7 & C8 & C9 & C10).
  apply count_tool_calls_effect in H4.
  destruct H4 as (D1 & D2 & D3 & D4 & D5 & D6 & D7 & D8 & D9 & D10).
  assert (Hattr : Spec.attributes_branch line l2 = Spec.attributes_branch line l)
    by (unfold Spec.attributes_branch; rewrite B3, A9; reflexivity).
  rewrite Hattr in C10. split; assumption.
Qed.

(** *** Well-formed records are processed without an exception *)

Lemma is_object_inv (x : json) : Spec.is_object x = true -> exists ps, x = JObj ps.
Proof. destruct x; simpl; try discriminate. intros _. eexists. reflexivity. Qed.

Lemma track_timestamps_total line c :
  Spec.is_object line = true ->
  Spec.convertible_field line "timestamp" = true ->
  Spec.dated (lastActivity (fst c)) = true ->
  exists c', track_timestamps line c = Done tt c' /\ Spec.dated (lastActivity (fst c')) = true.
Proof.
  intros Ho Hts Hd. apply is_object_inv in Ho. destruct Ho as [ps ->]. destruct c as [s l].
  unfold Spec.convertible_field, Spec.field in Hts. simpl prop_opt in Hts.
  assert (Hdt : Spec.dated (assoc "timestamp" ps) = true).
  { unfold Spec.dated. destruct (assoc "timestamp" ps); [exact Hts | reflexivity]. }
  clear Hts. simpl fst in Hd.
  unfold track_timestamps, bind, lift. simpl prop. cbv iota.
  unfold when. destruct (Boolean (assoc "timestamp" ps)) eqn:Hb;
    [| eexists; split; [reflexivity | exact Hd]].
  destruct (Date_new_dated _ Hdt) as [d Ht]. rewrite Ht.
  destruct d as [t |]; cbn [Date_ge]; [| eexists; split; [reflexivity | exact Hd]].
  destruct (SIX_MONTHS_AGO <=? t); [| eexists; split; [reflexivity | exact Hd]].
  unfold getDateStr, getHour, getWeekday. rewrite Hb, Ht. simpl.
  unfold on_state, on_locals, modify, get, ret. simpl.
  destruct (Boolean (lastActivity s)); simpl.
  - destruct (Date_new_dated _ Hd) as [d0 Hd0]. rewrite Hd0.
    destruct (Date_lt d0 (Some t)); eexists; (split; [reflexivity | simpl; assumption]).
  - eexists. split; [reflexivity | simpl; exact Hdt].
Qed.

Lemma count_messages_total line c :
  Spec.is_object line = true ->
  exists c', count_messages line c = Done tt c' /\ lastActivity (fst c') = lastActivity (fst c).
Proof.
  intros Ho. apply is_object_inv in Ho. destruct Ho as [ps ->].
  unfold count_messages, bind, lift, when, on_locals, modify, ret. simpl prop. cbv iota.
  break_match; eexists; split; reflexivity.
Qed.

Lemma track_branch_total line c :
  Spec.is_object line = true ->
  Spec.convertible_field line "gitBranch" = true ->
  exists c', track_branch line c = Done tt c' /\ lastActivity (fst c') = lastActivity (fst c).
Proof.
  intros Ho Hb. apply is_object_inv in Ho. destruct Ho as [ps ->].
  unfold Spec.convertible_field, Spec.field in Hb. simpl prop_opt in Hb.
  unfold track_branch, bind, lift, when, on_locals, on_state, modify, ret, get.
  simpl prop. cbv iota.
  destruct (assoc "gitBranch" ps) as [b |]; simpl;
    [| eexists; split; reflexivity].
  destruct (convertible_ToString b Hb) as [key Hkey]. rewrite Hkey.
  break_match; eexists; split; reflexivity.
Qed.

Lemma count_block_total block c :
  Spec.is_object block && Spec.convertible_field block "name" = true ->
  exists c', count_block block c = Done tt c' /\ lastActivity (fst c') = lastActivity (fst c).
Proof.
  intros H. apply andb_true_iff in H. destruct H as [Ho Hn].
  apply is_object_inv in Ho. destruct Ho as [ps ->].
  unfold Spec.convertible_field, Spec.field in Hn. simpl prop_opt in Hn.
  unfold count_block, bind, lift, when, on_locals, on_state, modify, ret.
  simpl.
  destruct (strict_eq_str (assoc "type" ps) "tool_use"); [| eexists; split; reflexivity].
  assert (Hk : exists key,
            ToString match assoc "name" ps with
                     | Some n => if truthy n then n else JStr "unknown"
                     | None => JStr "unknown"
                     end = Ok key).
  { destruct (assoc "name" ps) as [n |]; [| eexists; reflexivity].
    destruct (truthy n); [apply convertible_ToString; exact Hn | eexists; reflexivity]. }
  destruct Hk as [key Hk]. rewrite Hk. eexists. split; reflexivity.
Qed.

Lemma count_tool_calls_total line c :
  Spec.well_formed_record line = true ->
  exists c', count_tool_calls line c = Done tt c' /\
             lastActivity (fst c') = lastActivity (fst c).
Proof.
  unfold Spec.well_formed_record. intros Hwf.
  apply andb_true_iff in Hwf. destruct Hwf as [Hwf _].
  apply andb_true_iff in Hwf. destruct Hwf as [Hwf Hblocks].
  apply andb_true_iff in Hwf. destruct Hwf as [Hwf _].
  apply andb_true_iff in Hwf. destruct Hwf as [Ho _].
  apply is_object_inv in Ho. destruct Ho as [ps ->].
  unfold count_tool_calls, bind, lift. simpl prop. cbv iota.
  unfold Spec.field in Hblocks. simpl prop_opt in Hblocks.
  unfold when.
  destruct (strict_eq_str (assoc "type" ps) "assistant" &&
            Boolean (prop_opt (assoc "message" ps) "content"));
    [| eexists; split; reflexivity].
  destruct (prop_opt (assoc "message" ps) "content") as [[] |];
    try (eexists; split; reflexivity).
  apply (for_of_total_inv
           (fun b => Spec.is_object b && Spec.convertible_field b "name")
           (fun c' : frame => lastActivity (fst c') = lastActivity (fst c)));
    [| exact Hblocks | reflexivity].
  intros x c0 Hx Hc0. destruct (count_block_total x c0 Hx) as (c1 & H1 & E1).
  exists c1. split; [exact H1 | congruence].
Qed.

Lemma track_model_total line c :
  Spec.well_formed_record line = true ->
  exists c', track_model line c = Done tt c' /\ lastActivity (fst c') = lastActivity (fst c).
Proof.
  unfold Spec.well_formed_record. intros Hwf.
  apply andb_true_iff in Hwf. destruct Hwf as [Hwf Hmodel].
  apply andb_true_iff in Hwf. destruct Hwf as [Hwf _].
  apply andb_true_iff in Hwf. destruct Hwf as [Hwf _].
  apply andb_true_iff in Hwf. destruct Hwf as [Ho _].
  apply is_object_inv in Ho. destruct Ho as [ps ->].
  unfold track_model, bind, lift. simpl prop. cbv iota.
  unfold Spec.field in Hmodel. simpl prop_opt in Hmodel.
  destruct (prop_opt (assoc "message" ps) "model") as [[] |];
    try discriminate Hmodel; try (eexists; split; reflexivity).
  unfold when. destruct (truthy (JStr s)); [| eexists; split; reflexivity].
  unfold shortName_of, includes, on_state, modify.
  destruct (String_includes s "opus"); [| destruct (String_includes s "sonnet")];
    cbn [ToString]; eexists; split; reflexivity.
Qed.

Lemma well_formed_is_object line :
  Spec.well_formed_record line = true -> Spec.is_object line = true.
Proof.
  unfold Spec.well_formed_record. intros H.
  repeat (apply andb_true_iff in H; destruct H as [H _]). exact H.
Qed.

Lemma well_formed_fields line :
  Spec.well_formed_record line = true ->
  Spec.convertible_field line "timestamp" = true /\
  Spec.convertible_field line "gitBranch" = true.
Proof.
  unfold Spec.well_formed_record. intros H.
  apply andb_true_iff in H. destruct H as [H _].
  apply andb_true_iff in H. destruct H as [H _].
  apply andb_true_iff in H. destruct H as [H Hb].
  apply andb_true_iff in H. destruct H as [_ Ht]. split; assumption.
Qed.

Lemma processLine_total line c :
  Spec.well_formed_record line = true ->
  Spec.dated (lastActivity (fst c)) = true ->
  exists c', processLine line c = Done tt c' /\ Spec.dated (lastActivity (fst c')) = true.
Proof.
  intros Hwf Hd. pose proof (well_formed_is_object _ Hwf) as Ho.
  destruct (well_formed_fields _ Hwf) as [Hts Hgb].
  unfold processLine.
  destruct (track_timestamps_total line c Ho Hts Hd) as (c1 & H1 & D1).
  destruct (count_messages_total line c1 Ho) as (c2 & H2 & E2).
  destruct (track_branch_total line c2 Ho Hgb) as (c3 & H3 & E3).
  destruct (count_tool_calls_total line c3 Hwf) as (c4 & H4 & E4).
  destruct (track_model_total line c4 Hwf) as (c5 & H5 & E5).
  exists c5. split.
  - erewrite bind_Done_intro by exact H1.
    erewrite bind_Done_intro by exact H2.
    erewrite bind_Done_intro by exact H3.
    erewrite bind_Done_intro by exact H4.
    exact H5.
  - rewrite E5, E4, E3, E2. exact D1.
Qed.

Lemma session_loop_total lines s :
  forallb Spec.well_formed_record lines = true ->
  Spec.dated (lastActivity s) = true ->
  exists s' l', session_loop lines s = Done tt (s', l').
Proof.
  intros Hwf Hd. unfold session_loop.
  destruct (for_of_total_inv Spec.well_formed_record
              (fun c : frame => Spec.dated (lastActivity (fst c)) = true) processLine
              (fun x c => processLine_total x c) lines (s, initial_locals) Hwf Hd)
    as ([s' l'] & H & _).
  exists s', l'. exact H.
Qed.

(** *** What a session adds up to *)

Lemma session_loop_messages lines s s' l' :
  session_loop lines s = Done tt (s', l') ->
  sessionMessages l' = Spec.count Spec.is_message lines.
Proof.
  unfold session_loop. intros H.
  rewrite count_as_sum.
  apply (for_of_sum (fun c : frame => sessionMessages (snd c))
           (fun x => Spec.b2z (Spec.is_message x)) processLine) in H.
  - simpl in H. exact H.
  - intros x [s0 l0] [s1 l1] Hc. simpl.
    apply processLine_effect in Hc. destruct Hc as (_ & _ & _ & Hm & _). exact Hm.
Qed.

Lemma session_loop_projectMap lines s s' l' :
  session_loop lines s = Done tt (s', l') -> projectMap s' = projectMap s.
Proof.
  unfold session_loop. intros H.
  apply (for_of_invariant (fun c : frame => projectMap (fst c) = projectMap s) processLine)
    in H; [exact H | | reflexivity].
  intros x [s0 l0] [s1 l1] Hc HP. simpl in *.
  apply processLine_effect in Hc. destruct Hc as (_ & _ & Hpm & _). congruence.
Qed.

End GenLines.

(** ** Property lists *)

Lemma assoc_replace_key_same {V : Type} (k : string) (v : V) (o : object V) :
  has_key k o = true -> assoc k (replace_key k v o) = Some v.
Proof.
  unfold has_key. induction o as [| [k' v'] o IH]; simpl; [discriminate |].
  destruct (k =? k')%string eqn:E; simpl.
  - rewrite E. reflexivity.
  - rewrite E. exact IH.
Qed.

Lemma assoc_replace_key_other {V : Type} (k k' : string) (v : V) (o : object V) :
  (k' =? k)%string = false -> assoc k' (replace_key k v o) = assoc k' o.
Proof.
  intros Hne. induction o as [| [k0 v0] o IH]; simpl; [reflexivity |].
  destruct (k =? k0)%string eqn:E; simpl.
  - apply String.eqb_eq in E. subst k0. rewrite Hne. reflexivity.
  - destruct (k' =? k0)%string; [reflexivity | exact IH].
Qed.

(** ** Messages (C1) *)

Section Messages.

Context {rt : Runtime} {fs : FileSystem} {cfg : Gen.Config}.

Lemma processSession_messages lines filename dir p s :
  forallb Spec.well_formed_record lines = true ->
  Spec.dated (Gen.lastActivity s) = true ->
  assoc dir (Gen.projectMap s) = Some p ->
  exists s2 p',
    Gen.processSession lines filename (Some dir) s = Done tt s2 /\
    assoc dir (Gen.projectMap s2) = Some p' /\
    Gen.Project.messages p' =
      Gen.Project.messages p + Spec.count Spec.is_message lines.
Proof.
  intros Hwf Hd Hp.
  destruct (session_loop_total lines s Hwf Hd) as (s' & l' & Hloop).
  pose proof (session_loop_messages lines s s' l' Hloop) as Hm.
  pose proof (session_loop_projectMap lines s s' l' Hloop) as Hpm.
  unfold Gen.session_loop in Hloop.
  exists (Gen.update_project (Some dir) l' s'), (Gen.update_project_entry l' p).
  unfold Gen.processSession. rewrite Hloop.
  split; [reflexivity |].
  unfold Gen.update_project. rewrite Hpm, Hp. simpl.
  split.
  - apply assoc_replace_key_same. unfold has_key. rewrite Hp. reflexivity.
  - rewrite Hm. reflexivity.
Qed.

(** The server's and the privacy-safe generator's callbacks. *)

Lemma server_count_entry_effect entry t t' :
  Server.count_entry entry t = Done tt t' ->
  Server.totalMessages t' = Server.totalMessages t + Spec.b2z (Spec.is_message entry).
Proof.
  unfold Server.count_entry, bind, lift.
  read_props entry.
  unfold Spec.is_message, Spec.has_type, when, modify, ret.
  repeat break_match; done_eq; simpl; unfold Spec.b2z; lia.
Qed.

Lemma server_count_entry_total entry t :
  Spec.is_object entry = true -> exists t', Server.count_entry entry t = Done tt t'.
Proof.
  intros Ho. apply is_object_inv in Ho. destruct Ho as [ps ->].
  unfold Server.count_entry, bind, lift, when, modify, ret. simpl.
  repeat break_match; eexists; reflexivity.
Qed.

Lemma gendata_count_entry_effect entry n n' :
  GenData.count_entry entry n = Done tt n' ->
  n' = n + Spec.b2z (Spec.is_message entry).
Proof.
  unfold GenData.count_entry, bind, lift.
  read_props entry.
  unfold Spec.is_message, Spec.has_type, when, modify, ret.
  repeat break_match; done_eq; simpl; unfold Spec.b2z; lia.
Qed.

Lemma gendata_count_entry_total entry n :
  Spec.is_object entry = true -> exists n', GenData.count_entry entry n = Done tt n'.
Proof.
  intros Ho. apply is_object_inv in Ho. destruct Ho as [ps ->].
  unfold GenData.count_entry, bind, lift, when, modify, ret. simpl.
  repeat break_match; eexists; reflexivity.
Qed.

Lemma well_formed_all_objects lines :
  forallb Spec.well_formed_record lines = true -> forallb Spec.is_object lines = true.
Proof.
  induction lines as [| x lines IH]; simpl; [reflexivity |].
  intros H. apply andb_true_iff in H. destruct H as [Hx Hl].
  rewrite (well_formed_is_object _ Hx), (IH Hl). reflexivity.
Qed.

(** C1.  For a session file all of whose lines are well-formed records,
    the message count aggregated for the file is the number of records
    whose type is [user] or [assistant]: in the comprehensive generator
    (the local count of [processSession], and what it adds to the
    project's messages), in the server's project listing and in the
    privacy-safe generator.  Records of another type, or without a type,
    are not among the counted ones and add nothing.  The generator is taken
    in a state a scan can be in: the last activity it holds, if any, is a
    timestamp that was read as a date. *)
Theorem message_count_is_user_assistant_count
  (lines : list json) (s : Gen.state) (t : Server.totals) (n : Z) :
  forallb Spec.well_formed_record lines = true ->
  Spec.dated (Gen.lastActivity s) = true ->
  (exists s' l',
      Gen.session_loop lines s = Done tt (s', l') /\
      Gen.sessionMessages l' = Spec.count Spec.is_message lines) /\
  (forall filename dir p,
      assoc dir (Gen.projectMap s) = Some p ->
      exists s2 p',
        Gen.processSession lines filename (Some dir) s = Done tt s2 /\
        assoc dir (Gen.projectMap s2) = Some p' /\
        Gen.Project.messages p' =
          Gen.Project.messages p + Spec.count Spec.is_message lines) /\
  (exists t',
      Server.count_session lines t = Done tt t' /\
      Server.totalMessages t' =
        Server.totalMessages t + Spec.count Spec.is_message lines) /\
  GenData.count_session lines n = Done tt (n + Spec.count Spec.is_message lines).
Proof.
  intros Hwf Hd. pose proof (well_formed_all_objects _ Hwf) as Hobj.
  repeat split.
  - destruct (session_loop_total lines s Hwf Hd) as (s' & l' & Hloop).
    exists s', l'. split; [exact Hloop |].
    eapply session_loop_messages. exact Hloop.
  - intros filename dir p Hp. apply processSession_messages; assumption.
  - destruct (for_of_total Spec.is_object Server.count_entry
                (fun x t0 => server_count_entry_total x t0) lines t Hobj) as [t' Ht].
    exists t'. unfold Server.count_session, try_catch. rewrite Ht.
    split; [reflexivity |].
    rewrite count_as_sum.
    apply (for_of_sum Server.totalMessages
             (fun x => Spec.b2z (Spec.is_message x)) Server.count_entry) in Ht;
      [exact Ht |].
    intros x t0 t1 Hx. apply server_count_entry_effect. exact Hx.
  - destruct (for_of_total Spec.is_object GenData.count_entry
                (fun x t0 => gendata_count_entry_total x t0) lines n Hobj) as [n' Hn].
    unfold GenData.count_session, try_catch. rewrite Hn.
    rewrite count_as_sum.
    apply (for_of_sum (fun z : Z => z)
             (fun x => Spec.b2z (Spec.is_message x)) GenData.count_entry) in Hn.
    + rewrite Hn. reflexivity.
    + intros x t0 t1 Hx. apply gendata_count_entry_effect. exact Hx.
Qed.

End Messages.

Lemma message_count_witness :
  forallb Spec.well_formed_record Demo.session = true /\
  Spec.dated (Gen.lastActivity Gen.initial_state) = true /\
  (exists s' l',
      Gen.session_loop (rt := Demo.rt) (cfg := Demo.cfg) Demo.session Gen.initial_state
        = Done tt (s', l') /\
      Gen.sessionMessages l' = 2) /\
  (exists t',
      Server.count_session (rt := Demo.rt) Demo.session Server.no_totals = Done tt t' /\
      Server.totalMessages t' = 2) /\
  GenData.count_session Demo.session 0 = Done tt 2.
Proof.
  split; [reflexivity |]. split; [reflexivity |].
  destruct (message_count_is_user_assistant_count (rt := Demo.rt) (cfg := Demo.cfg)
              Demo.session Gen.initial_state Server.no_totals 0 eq_refl eq_refl)
    as (H1 & _ & H3 & H4).
  split; [exact H1 |]. split; [exact H3 | exact H4].
Defined.

(** ** Arrays of counters *)

Lemma array_update_length (i : nat) (f : cell -> cell) (a : list cell) :
  (i < List.length a)%nat -> List.length (array_update i f a) = List.length a.
Proof.
  revert i. induction a as [| c a IH]; intros i Hi; simpl in *; [lia |].
  destruct i as [| i]; simpl; [reflexivity |]. rewrite IH; [reflexivity | lia].
Qed.

Lemma array_update_length_le (i : nat) (f : cell -> cell) (a : list cell) :
  (List.length a <= List.length (array_update i f a))%nat.
Proof.
  revert i. induction a as [| c a IH]; intros i; simpl; [lia |].
  destruct i as [| i]; simpl; [lia |]. specialize (IH i). lia.
Qed.

(** Writing at or past the [n]-th cell leaves the first [n] cells alone. *)
Lemma firstn_array_update_ge (n i : nat) (f : cell -> cell) (a : list cell) :
  (n <= i)%nat -> (n <= List.length a)%nat ->
  firstn n (array_update i f a) = firstn n a.
Proof.
  revert n i. induction a as [| c a IH]; intros n i Hni Hn; simpl in *.
  - assert (n = 0)%nat by lia. subst n. reflexivity.
  - destruct i as [| i].
    + assert (n = 0)%nat by lia. subst n. reflexivity.
    + destruct n as [| n]; [reflexivity |]. simpl. f_equal. apply IH; lia.
Qed.

(** Incrementing one of the first [n] cells adds one to their sum. *)
Lemma total_incr (n i : nat) (a : list cell) (t : Z) :
  (i < n)%nat -> (n <= List.length a)%nat ->
  Spec.total (firstn n a) = Some t ->
  Spec.total (firstn n (array_update i incr a)) = Some (t + 1).
Proof.
  revert n i t. induction a as [| c a IH]; intros n i t Hi Hn Ht; simpl in *; [lia |].
  destruct n as [| n]; [lia |]. simpl in Ht.
  destruct c as [z |]; [| discriminate Ht].
  destruct (Spec.total (firstn n a)) as [t0 |] eqn:Ha; [| discriminate Ht].
  inversion Ht. subst t. clear Ht.
  destruct i as [| i]; simpl.
  - rewrite Ha. f_equal. lia.
  - rewrite (IH n i t0); [f_equal; lia | lia | lia | exact Ha].
Qed.

(** Storing a number in a cell keeps the first [n] cells numbers. *)
Lemma total_store (n i : nat) (v : Z) (a : list cell) (t : Z) :
  (n <= List.length a)%nat ->
  Spec.total (firstn n a) = Some t ->
  exists t', Spec.total (firstn n (array_update i (fun _ => Some v) a)) = Some t'.
Proof.
  revert n i t. induction a as [| c a IH]; intros n i t Hn Ht; simpl in *.
  - assert (n = 0)%nat by lia. subst n. exists 0. reflexivity.
  - destruct n as [| n]; [exists 0; destruct i; reflexivity |]. simpl in Ht.
    destruct c as [z |]; [| discriminate Ht].
    destruct (Spec.total (firstn n a)) as [t0 |] eqn:Ha; [| discriminate Ht].
    destruct i as [| i]; simpl.
    + rewrite Ha. eexists. reflexivity.
    + destruct (IH n i t0) as [t' Ht']; [lia | exact Ha |].
      rewrite Ht'. eexists. reflexivity.
Qed.

Lemma buckets_incr (n : nat) (a : list cell) (t i : Z) :
  0 <= i < Z.of_nat n -> Spec.buckets n a t ->
  Spec.buckets n (array_update (Z.to_nat i) incr a) (t + 1).
Proof.
  intros Hi [Hn Ht]. split.
  - pose proof (array_update_length_le (Z.to_nat i) incr a). lia.
  - apply total_incr; [lia | exact Hn | exact Ht].
Qed.

Lemma buckets_store (n : nat) (a : list cell) (t : Z) (idx : option Z) (v : Z) :
  Spec.buckets n a t -> exists t', Spec.buckets n (array_update_at idx (fun _ => Some v) a) t'.
Proof.
  intros [Hn Ht]. unfold array_update_at.
  destruct idx as [i |]; [| exists t; split; assumption].
  destruct ((0 <=? i) && (i <=? 4294967294)); [| exists t; split; assumption].
  destruct (total_store n (Z.to_nat i) v a t Hn Ht) as [t' Ht'].
  exists t'. split; [| exact Ht'].
  pose proof (array_update_length_le (Z.to_nat i) (fun _ => Some v) a). lia.
Qed.

(** ** Hourly and weekday Spec.buckets (C2) *)

Section Buckets.

Context {rt : Runtime} {fs : FileSystem} {cfg : Gen.Config}.

Lemma load_cache_hourly (cache : option Cache.t) :
  exists seeded, Spec.buckets 24 (Gen.hourlyActivity (Gen.load_cache cache Gen.initial_state)) seeded.
Proof.
  assert (H0 : Spec.buckets 24 (Gen.hourlyActivity Gen.initial_state) 0)
    by (split; [simpl; lia | reflexivity]).
  destruct cache as [c |]; simpl; [| exists 0; exact H0].
  assert (Hseed : forall hc a t, Spec.buckets 24 a t ->
            exists t', Spec.buckets 24 (fold_left Gen.seed_hour hc a) t').
  { induction hc as [| e hc IH]; simpl; intros a t Ha; [exists t; exact Ha |].
    destruct (@buckets_store 24 a t (parseInt (fst e)) (snd e) Ha) as [t1 H1].
    apply (IH _ t1). exact H1. }
  destruct (Cache.hourCounts c) as [hc |].
  - destruct (Hseed hc _ _ H0) as [t' Ht'].
    exists t'. destruct (Cache.modelUsage c); simpl; exact Ht'.
  - exists 0. destruct (Cache.modelUsage c); simpl; exact H0.
Qed.

Lemma load_cache_weekday (cache : option Cache.t) :
  Gen.weekdayActivity (Gen.load_cache cache Gen.initial_state) = Array_fill0 7.
Proof.
  destruct cache as [c |]; simpl; [| reflexivity].
  destruct (Cache.hourCounts c); destruct (Cache.modelUsage c); reflexivity.
Qed.

Lemma processLine_buckets line s l s' l' h w :
  Gen.processLine line (s, l) = Done tt (s', l') ->
  Spec.buckets 24 (Gen.hourlyActivity s) h -> Spec.buckets 7 (Gen.weekdayActivity s) w ->
  Spec.buckets 24 (Gen.hourlyActivity s') (h + Spec.b2z (Spec.in_window line)) /\
  Spec.buckets 7 (Gen.weekdayActivity s') (w + Spec.b2z (Spec.in_window line)).
Proof.
  intros H Hh Hw. apply processLine_effect in H.
  destruct H as (E1 & E2 & _). rewrite E1, E2.
  destruct (Spec.in_window line); unfold Spec.b2z.
  - split; apply buckets_incr; try assumption.
    + pose proof (getHours_range (Spec.time_of line)). simpl. lia.
    + pose proof (getDay_range (Spec.time_of line)). simpl. lia.
  - rewrite !Z.add_0_r. split; assumption.
Qed.

Lemma session_buckets lines : forall s l s' l' h w,
  for_of lines Gen.processLine (s, l) = Done tt (s', l') ->
  Spec.buckets 24 (Gen.hourlyActivity s) h -> Spec.buckets 7 (Gen.weekdayActivity s) w ->
  Spec.buckets 24 (Gen.hourlyActivity s') (h + Spec.count Spec.in_window lines) /\
  Spec.buckets 7 (Gen.weekdayActivity s') (w + Spec.count Spec.in_window lines).
Proof.
  induction lines as [| x lines IH]; simpl; intros s l s' l' h w H Hh Hw.
  - inversion H. subst. unfold Spec.count. simpl. rewrite !Z.add_0_r. split; assumption.
  - apply bind_Done in H. destruct H as ([] & [s1 l1] & H1 & H2).
    destruct (processLine_buckets x s l s1 l1 h w H1 Hh Hw) as [Hh1 Hw1].
    destruct (IH _ _ _ _ _ _ H2 Hh1 Hw1) as [Hh2 Hw2].
    rewrite count_cons, !Z.add_assoc. split; assumption.
Qed.

Lemma update_project_buckets project l s :
  Gen.hourlyActivity (Gen.update_project project l s) = Gen.hourlyActivity s /\
  Gen.weekdayActivity (Gen.update_project project l s) = Gen.weekdayActivity s.
Proof.
  unfold Gen.update_project. destruct project as [dir |]; [| split; reflexivity].
  destruct (assoc dir (Gen.projectMap s)); split; reflexivity.
Qed.

Lemma do_visit_buckets v s s' h w :
  Gen.do_visit v s = Done tt s' ->
  Spec.buckets 24 (Gen.hourlyActivity s) h -> Spec.buckets 7 (Gen.weekdayActivity s) w ->
  Spec.buckets 24 (Gen.hourlyActivity s') (h + Spec.count Spec.in_window (Spec.records_of [v])) /\
  Spec.buckets 7 (Gen.weekdayActivity s') (w + Spec.count Spec.in_window (Spec.records_of [v])).
Proof.
  destruct v as [projectDir | lines filename project]; simpl; intros H Hh Hw.
  - unfold modify in H. inversion H. subst. unfold Gen.open_project, Spec.count. simpl.
    rewrite !Z.add_0_r. destruct (has_key projectDir (Gen.projectMap s)); split; assumption.
  - unfold Gen.processSession in H.
    destruct (for_of lines Gen.processLine (s, Gen.initial_locals)) as [[] [s1 l1] | msg [s1 l1]] eqn:Hloop;
      [| discriminate H].
    inversion H. subst. clear H.
    destruct (update_project_buckets project l1 s1) as [-> ->].
    rewrite app_nil_r. eapply session_buckets; eassumption.
Qed.

Lemma records_of_cons v visits :
  Spec.records_of (v :: visits) = (Spec.records_of [v] ++ Spec.records_of visits)%list.
Proof. simpl. rewrite app_nil_r. reflexivity. Qed.

Lemma walk_buckets visits : forall s s' h w,
  Gen.walk visits s = Done tt s' ->
  Spec.buckets 24 (Gen.hourlyActivity s) h -> Spec.buckets 7 (Gen.weekdayActivity s) w ->
  Spec.buckets 24 (Gen.hourlyActivity s') (h + Spec.count Spec.in_window (Spec.records_of visits)) /\
  Spec.buckets 7 (Gen.weekdayActivity s') (w + Spec.count Spec.in_window (Spec.records_of visits)).
Proof.
  unfold Gen.walk.
  induction visits as [| v visits IH]; intros s s' h w H Hh Hw.
  - simpl in H. inversion H. subst. unfold Spec.count. simpl.
    rewrite !Z.add_0_r. split; assumption.
  - simpl in H. apply bind_Done in H. destruct H as ([] & s1 & H1 & H2).
    destruct (do_visit_buckets v s s1 h w H1 Hh Hw) as [Hh1 Hw1].
    destruct (IH _ _ _ _ H2 Hh1 Hw1) as [Hh2 Hw2].
    rewrite records_of_cons, count_app, !Z.add_assoc. split; assumption.
Qed.

(** C2, as the code has it.  When the scan of the session files completes,
    the seven weekday buckets sum to the number of records that carry a
    timestamp within the retention window, and the 24 hourly buckets sum
    to that number plus what the cache seeded them with (nothing when
    there is no cache).  Records without a timestamp, or with one before
    the window, are in neither sum. *)
Theorem bucket_totals_after_scan
  (cache : option Cache.t) (visits : list Gen.visit) (s1 : Gen.state) :
  Gen.walk visits (Gen.load_cache cache Gen.initial_state) = Done tt s1 ->
  Gen.scan visits (Gen.load_cache cache Gen.initial_state) = Done tt s1 /\
  Spec.bucket_total 7 (Gen.weekdayActivity s1) =
    Some (Spec.count Spec.in_window (Spec.records_of visits)) /\
  (exists seeded,
     Spec.bucket_total 24 (Gen.hourlyActivity (Gen.load_cache cache Gen.initial_state))
       = Some seeded /\
     Spec.bucket_total 24 (Gen.hourlyActivity s1) =
       Some (seeded + Spec.count Spec.in_window (Spec.records_of visits))) /\
  Spec.bucket_total 24 (Gen.hourlyActivity (Gen.load_cache None Gen.initial_state)) = Some 0.
Proof.
  intros H.
  destruct (load_cache_hourly cache) as [seeded Hh].
  assert (Hw : Spec.buckets 7 (Gen.weekdayActivity (Gen.load_cache cache Gen.initial_state)) 0)
    by (rewrite load_cache_weekday; split; [simpl; lia | reflexivity]).
  destruct (walk_buckets visits _ _ _ _ H Hh Hw) as [[_ Hh1] [_ Hw1]].
  split; [unfold Gen.scan, try_catch; rewrite H; reflexivity |].
  split; [exact Hw1 |].
  split; [| reflexivity].
  exists seeded. split; [exact (proj2 Hh) | exact Hh1].
Qed.

End Buckets.

Lemma bucket_totals_witness :
  Gen.walk (rt := Demo.rt) (cfg := Demo.cfg) Demo.visits Demo.seeded = Done tt Demo.scanned /\
  Spec.bucket_total 7 (Gen.weekdayActivity Demo.scanned) = Some 1 /\
  Spec.bucket_total 24 (Gen.hourlyActivity Demo.scanned) = Some (5 + 1).
Proof.
  assert (H : Gen.walk (rt := Demo.rt) (cfg := Demo.cfg) Demo.visits Demo.seeded
              = Done tt Demo.scanned) by (vm_compute; reflexivity).
  split; [exact H |].
  destruct (bucket_totals_after_scan (rt := Demo.rt) (cfg := Demo.cfg)
              (Some Demo.cache) Demo.visits Demo.scanned H) as (_ & Hw & (seeded & Hs & Hh) & _).
  split; [exact Hw |].
  assert (Hseed : seeded = 5) by (vm_compute in Hs; inversion Hs; reflexivity).
  rewrite Hseed in Hh. exact Hh.
Defined.

(** C2 as stated fails: with a cache that has counted five records in one
    hour and a single session holding one record in the window, the hourly
    buckets sum to six and the weekday buckets to one. *)
Lemma hourly_buckets_counterexample :
  Gen.scan (rt := Demo.rt) (cfg := Demo.cfg) Demo.visits
    (Gen.load_cache (rt := Demo.rt) (Some Demo.cache) Gen.initial_state)
    = Done tt Demo.scanned /\
  Spec.count (Spec.in_window (rt := Demo.rt) (cfg := Demo.cfg))
    (Spec.records_of Demo.visits) = 1 /\
  Spec.bucket_total 24 (Gen.hourlyActivity Demo.scanned) = Some 6 /\
  Spec.bucket_total 7 (Gen.weekdayActivity Demo.scanned) = Some 1.
Proof.
  split; [vm_compute; reflexivity |].
  split; [vm_compute; reflexivity |].
  split; vm_compute; reflexivity.
Qed.

(** ** Cost estimates (C3) *)

Lemma pricing_of_row (model : string) :
  Gen.pricing_of model =
    Some (if String_includes model "Opus" then Spec.opus_row else Spec.default_row).
Proof. unfold Gen.pricing_of. destruct (String_includes model "Opus"); reflexivity. Qed.

(** A name that is a key of the price table holds [opus] or [sonnet],
    unless it is [default]. *)
Lemma table_key_classified (name : string) (row : Gen.Rate.t) :
  assoc name Gen.PRICING = Some row ->
  String_includes name "opus" = true \/ String_includes name "sonnet" = true \/
  row = Spec.default_row.
Proof.
  unfold Gen.PRICING. simpl.
  destruct (name =? "claude-sonnet-4-5-20250929")%string eqn:E1.
  - apply String.eqb_eq in E1. subst name. intros _. right. left. reflexivity.
  - destruct (name =? "claude-opus-4-5-20251101")%string eqn:E2.
    + apply String.eqb_eq in E2. subst name. intros _. left. reflexivity.
    + destruct (name =? "default")%string; [| discriminate].
      intros H. inversion H. right. right. reflexivity.
Qed.

Lemma display_name_row (id : string) :
  Gen.pricing_of (Gen.display_name id) = Some (Spec.rate_row (Gen.display_name id)).
Proof.
  rewrite pricing_of_row. f_equal. unfold Spec.rate_row, Gen.display_name.
  destruct (String_includes id "opus") eqn:Ho; [reflexivity |].
  destruct (String_includes id "sonnet") eqn:Hs; [reflexivity |].
  destruct (String_includes id "Opus"); [reflexivity |].
  destruct (assoc id Gen.PRICING) as [row |] eqn:Hrow; [| reflexivity].
  destruct (table_key_classified id row Hrow) as [H | [H | H]]; congruence.
Qed.

(** C3, as the code has it.  In the comprehensive generator the cost of a
    model display name is the sum over the four token categories of
    tokens / 1e6 times the category's rate, with the Opus row for a name
    that holds [Opus] and the default row for every other name; for the
    display names the generator forms, that is the row of the price table
    with its default.  The privacy-safe generator prices three categories
    only (input, output, cache-read), with the Opus rates for an
    identifier that holds [opus] and the default rates otherwise: the
    cache-write tokens do not enter its estimate. *)
Theorem estimated_cost_formula
  (name : string) (usage : Gen.Usage.t) (id : string) (cached : Cache.usage) :
  Gen.model_cost name usage =
    Ok (Spec.cost4 (Gen.Usage.inputTokens usage) (Gen.Usage.outputTokens usage)
          (Gen.Usage.cacheRead usage) (Gen.Usage.cacheWrite usage)
          (if String_includes name "Opus" then Spec.opus_row else Spec.default_row)) /\
  Gen.pricing_of (Gen.display_name id) = Some (Spec.rate_row (Gen.display_name id)) /\
  GenData.estimatedCost (GenData.model_entry_of id cached) =
    Spec.cost3 (GenData.toNumber (Cache.inputTokens cached))
      (GenData.toNumber (Cache.outputTokens cached))
      (GenData.toNumber (Cache.cacheReadInputTokens cached))
      (if String_includes id "opus" then Spec.opus_row else Spec.default_row).
Proof.
  split; [| split].
  - unfold Gen.model_cost. rewrite pricing_of_row. reflexivity.
  - apply display_name_row.
  - unfold GenData.model_entry_of, GenData.inputCost, GenData.outputCost,
      GenData.cacheCost, Spec.cost3. simpl.
    destruct (String_includes id "opus"); reflexivity.
Qed.

(** C3 as stated fails in the privacy-safe generator: a model with one
    million cache-write tokens and no other usage is estimated at 0, where
    the sum over the four categories is 3.75. *)
Lemma estimated_cost_counterexample :
  GenData.estimatedCost
    (GenData.model_entry_of "claude-sonnet-4-5-20250929" Demo.write_heavy) = 0%float /\
  GenData.shortName_of "claude-sonnet-4-5-20250929" = "Claude Sonnet" /\
  Spec.cost4 0 0 0 1000000 (Spec.rate_row "Claude Sonnet") = 3.75%float.
Proof.
  split; [vm_compute; reflexivity |].
  split; vm_compute; reflexivity.
Qed.

(** ** The line parsers (C4) *)

Section Parsers.

Context {rt : Runtime} {fs : FileSystem}.

Lemma parseJsonl_lines_spec (ls : list string) : forall acc,
  Gen.parseJsonl_lines ls acc = (acc ++ Spec.values_of_lines ls)%list.
Proof.
  induction ls as [| line ls IH]; intros acc; simpl.
  - rewrite app_nil_r. reflexivity.
  - destruct (truthy_str (trim line)); simpl; [| apply IH].
    destruct (JSON_parse line) as [v | msg]; simpl; [| apply IH].
    rewrite IH, <- app_assoc. reflexivity.
Qed.

Lemma filter_map_parse_spec (ls : list string) :
  filter truthy
    (map Server.parse_or_null (filter (fun line => truthy_str (trim line)) ls))
  = filter truthy (Spec.values_of_lines ls).
Proof.
  induction ls as [| line ls IH]; simpl; [reflexivity |].
  destruct (truthy_str (trim line)); simpl; [| exact IH].
  unfold Server.parse_or_null.
  destruct (JSON_parse line) as [v | msg]; simpl; rewrite <- IH; reflexivity.
Qed.

Lemma values_of_lines_app (l1 l2 : list string) :
  Spec.values_of_lines (l1 ++ l2) =
    (Spec.values_of_lines l1 ++ Spec.values_of_lines l2)%list.
Proof. unfold Spec.values_of_lines. apply flat_map_app. Qed.

(** C4, as the code has it.  The comprehensive generator's parser returns
    exactly the JSON values of the non-blank lines that parse, in file
    order.  The parser of the server and of the privacy-safe generator
    returns those of them that are truthy: a line whose value is [null],
    [false], [0] or the empty string is dropped like a line that does not
    parse.  Each line contributes on its own, so a line that fails to parse
    changes nothing for the others, and a file that cannot be read yields
    the empty sequence. *)
Theorem parsers_return_parsed_lines
  (filePath : string) (t : Server.trace) (l1 l2 : list string) :
  Gen.parseJsonl filePath = Spec.file_values filePath /\
  Server.parseJSONL filePath t =
    Done (filter truthy (Spec.file_values filePath))
         (t ++ [Server.Call_readFileSync filePath])%list /\
  GenData.parseJSONL filePath = filter truthy (Spec.file_values filePath) /\
  Spec.values_of_lines (l1 ++ l2) =
    (Spec.values_of_lines l1 ++ Spec.values_of_lines l2)%list.
Proof.
  unfold Spec.file_values, Spec.parsed_values.
  split; [| split; [| split]].
  - unfold Gen.parseJsonl. destruct (readFileSync filePath); [| reflexivity].
    apply parseJsonl_lines_spec.
  - unfold Server.parseJSONL, Server.fs_readFileSync, Server.log,
      try_catch, bind, modify, lift, ret.
    destruct (readFileSync filePath); [| reflexivity].
    rewrite filter_map_parse_spec. reflexivity.
  - unfold GenData.parseJSONL. destruct (readFileSync filePath); [| reflexivity].
    apply filter_map_parse_spec.
  - apply values_of_lines_app.
Qed.

End Parsers.

(** C4 as stated fails for the server's parser: of a file whose two lines
    are a user record and the number 0, both of which parse, it returns the
    record only. *)
Lemma server_parser_counterexample :
  Spec.parsed_values (rt := Demo.rt) Demo.two_lines =
    [JObj [("type", JStr "user")]; JNum 0] /\
  Server.parseJSONL (rt := Demo.rt) (fs := Demo.fs_of [("/s.jsonl", Ok Demo.two_lines)])
      "/s.jsonl" [] =
    Done [JObj [("type", JStr "user")]] [Server.Call_readFileSync "/s.jsonl"] /\
  Gen.parseJsonl (rt := Demo.rt) (fs := Demo.fs_of [("/s.jsonl", Ok Demo.two_lines)])
      "/s.jsonl" =
    [JObj [("type", JStr "user")]; JNum 0].
Proof.
  split; [vm_compute; reflexivity |].
  split; vm_compute; reflexivity.
Qed.

(** ** Frequency maps *)

Lemma assoc_insert_index_same {V : Type} (i : N) (k : string) (v : V) (o : object V) :
  assoc k (insert_index i k v o) = Some v \/ exists v', assoc k o = Some v'.
Proof.
  induction o as [| [k0 v0] o IH]; simpl.
  - rewrite String.eqb_refl. left. reflexivity.
  - destruct (array_index k0) as [j |]; [destruct (i <? j)%N |]; simpl.
    + rewrite String.eqb_refl. left. reflexivity.
    + destruct (k =? k0)%string; [right; eexists; reflexivity | exact IH].
    + rewrite String.eqb_refl. left. reflexivity.
Qed.

Lemma assoc_insert_index_other {V : Type} (i : N) (k k' : string) (v : V) (o : object V) :
  (k' =? k)%string = false -> assoc k' (insert_index i k v o) = assoc k' o.
Proof.
  intros Hne. induction o as [| [k0 v0] o IH]; simpl.
  - rewrite Hne. reflexivity.
  - destruct (array_index k0) as [j |]; [destruct (i <? j)%N |]; simpl.
    + rewrite Hne. reflexivity.
    + destruct (k' =? k0)%string; [reflexivity | exact IH].
    + rewrite Hne. reflexivity.
Qed.

Lemma assoc_app_last {V : Type} (k k' : string) (v : V) (o : object V) :
  assoc k' (o ++ [(k, v)])%list =
    match assoc k' o with
    | Some x => Some x
    | None => if (k' =? k)%string then Some v else None
    end.
Proof.
  induction o as [| [k0 v0] o IH]; simpl; [reflexivity |].
  destruct (k' =? k0)%string; [reflexivity | exact IH].
Qed.

(** Reading back what was written, and reading another key. *)
Lemma obj_get_set_same {V : Type} (k : string) (v : V) (o : object V) :
  obj_get k (obj_set k v o) = Some v.
Proof.
  unfold obj_get, obj_set. destruct (has_key k o) eqn:Hk.
  - apply assoc_replace_key_same. exact Hk.
  - unfold has_key in Hk. destruct (assoc k o) eqn:Ha; [discriminate |].
    destruct (array_index k) as [i |].
    + destruct (assoc_insert_index_same i k v o) as [H | [v' H]]; [exact H | congruence].
    + rewrite assoc_app_last, Ha, String.eqb_refl. reflexivity.
Qed.

Lemma obj_get_set_other {V : Type} (k k' : string) (v : V) (o : object V) :
  (k' =? k)%string = false -> obj_get k' (obj_set k v o) = obj_get k' o.
Proof.
  intros Hne. unfold obj_get, obj_set. destruct (has_key k o).
  - apply assoc_replace_key_other. exact Hne.
  - destruct (array_index k) as [i |].
    + apply assoc_insert_index_other. exact Hne.
    + rewrite assoc_app_last, Hne. destruct (assoc k' o); reflexivity.
Qed.









(** ** Tool calls (C5) *)

Section ToolCalls.

Context {rt : Runtime} {fs : FileSystem} {cfg : Gen.Config}.



(** The blocks a session attributes, in order; the tool of each has a
    string. *)
Lemma session_loop_tools lines : forall s l s' l',
  for_of lines Gen.processLine (s, l) = Done tt (s', l') ->
  Gen.sessionToolCalls l' =
    Gen.sessionToolCalls l + Z.of_nat (List.length (flat_map Spec.tool_use_blocks lines)) /\
  Gen.toolCounts s' =
    fold_left Spec.attribute (flat_map Spec.tool_use_blocks lines) (Gen.toolCounts s) /\
  Forall (fun b => exists name, Spec.tool_name b = Ok name)
    (flat_map Spec.tool_use_blocks lines).
Proof.
  induction lines as [| x lines IH]; simpl; intros s l s' l' H.
  - inversion H. subst. split; [simpl; lia |]. split; [reflexivity | constructor].
  - apply bind_Done in H. destruct H as ([] & [s1 l1] & H1 & H2).
    pose proof (processLine_converts _ _ _ _ _ H1) as [N1 _].
    apply processLine_effect in H1.
    destruct H1 as (_ & _ & _ & _ & E1 & E2 & _).
    apply IH in H2. destruct H2 as (E3 & E4 & N2).
    rewrite E3, E4, E1, E2, fold_left_app, length_app.
    split; [lia |]. split; [reflexivity |].
    apply Forall_app. split; assumption.
Qed.

Lemma server_count_entry_tools entry t t' :
  Server.count_entry entry t = Done tt t' ->
  Server.totalToolCalls t' = Server.totalToolCalls t + Spec.pattern_matches entry.
Proof.
  unfold Server.count_entry, bind, lift.
  read_props entry.
  unfold Spec.pattern_matches, when, modify, ret.
  repeat break_match; done_eq; simpl; lia.
Qed.


End ToolCalls.



(** ** Model classification (C7) *)

Section Models.

Context {rt : Runtime} {fs : FileSystem} {cfg : Gen.Config}.





End Models.



(** ** Branch attribution (C9) *)

Section Branches.

Context {rt : Runtime} {fs : FileSystem} {cfg : Gen.Config}.



End Branches.



(** ** The session handler (C10) *)

Lemma slice0_first_chars (n : nat) (s : string) :
  String_slice0 n s = Spec.first_chars n s.
Proof.
  unfold String_slice0, Spec.first_chars. revert n.
  induction s as [| c s IH]; intros [| n]; simpl; try reflexivity.
  rewrite IH. reflexivity.
Qed.

Lemma first_chars_length (n : nat) (s : string) :
  (String.length (Spec.first_chars n s) <= n)%nat.
Proof.
  unfold Spec.first_chars. revert n.
  induction s as [| c s IH]; intros [| n]; simpl; try lia.
  specialize (IH n). lia.
Qed.

Lemma first_chars_prefix (n : nat) (s : string) :
  prefix (Spec.first_chars n s) s = true.
Proof.
  unfold Spec.first_chars. revert n.
  induction s as [| c s IH]; intros [| n]; simpl; try reflexivity.
  destruct (ascii_dec c c) as [_ | Hne]; [apply IH | contradiction Hne; reflexivity].
Qed.

Section Handlers.

Context {rt : Runtime} {fs : FileSystem}.

Lemma parseJSONL_run (filePath : string) (t : Server.trace) :
  Server.parseJSONL filePath t =
    Done (filter truthy (Spec.file_values filePath))
         (t ++ [Server.Call_readFileSync filePath])%list.
Proof.
  unfold Spec.file_values, Spec.parsed_values.
  unfold Server.parseJSONL, Server.fs_readFileSync, Server.log,
    try_catch, bind, modify, lift, ret.
  destruct (readFileSync filePath); [| reflexivity].
  rewrite filter_map_parse_spec. reflexivity.
Qed.

Lemma fs_existsSync_run (p : string) (t : Server.trace) :
  Server.fs_existsSync p t = Done (existsSync p) (t ++ [Server.Call_existsSync p])%list.
Proof. reflexivity. Qed.

(** The session handler, case by case. *)
Lemma get_session_run (project sessionId : string) (t : Server.trace) :
  Server.get_session project sessionId t =
    if existsSync (Spec.session_path project sessionId)
    then Done {| Server.status := 200;
                 Server.body := Spec.entries_of (Spec.session_path project sessionId) |}
              (t ++ [Server.Call_existsSync (Spec.session_path project sessionId);
                     Server.Call_readFileSync (Spec.session_path project sessionId)])%list
    else if existsSync (Spec.agent_path project sessionId)
    then Done {| Server.status := 200;
                 Server.body := Spec.entries_of (Spec.agent_path project sessionId) |}
              (t ++ [Server.Call_existsSync (Spec.session_path project sessionId);
                     Server.Call_existsSync (Spec.agent_path project sessionId);
                     Server.Call_readFileSync (Spec.agent_path project sessionId)])%list
    else Done {| Server.status := 404;
                 Server.body := JObj [("error", JStr "Session not found")] |}
              (t ++ [Server.Call_existsSync (Spec.session_path project sessionId);
                     Server.Call_existsSync (Spec.agent_path project sessionId)])%list.
Proof.
  unfold Spec.session_path, Spec.agent_path, Spec.entries_of.
  rewrite <- slice0_first_chars.
  unfold Server.get_session, try_catch.
  erewrite bind_Done_intro by apply fs_existsSync_run.
  destruct (existsSync (path_join [Server.PROJECTS_DIR; project; sessionId ++ ".jsonl"]));
    cbn [negb].
  - erewrite bind_Done_intro by apply parseJSONL_run.
    unfold ret. rewrite <- app_assoc. reflexivity.
  - erewrite bind_Done_intro by apply fs_existsSync_run.
    destruct (existsSync
                (path_join [Server.PROJECTS_DIR; project;
                            "agent-" ++ String_slice0 8 sessionId ++ ".jsonl"])).
    + erewrite bind_Done_intro by apply parseJSONL_run.
      unfold ret. rewrite <- !app_assoc. reflexivity.
    + unfold ret. rewrite <- app_assoc. reflexivity.
Qed.

(** C10.  When no file named after the session identifier exists in the
    project directory, the session-detail handler looks for the agent
    file, named [agent-], the first 8 characters of the identifier,
    [.jsonl]: if it exists the response has status 200 and for body the
    file's parsed entries (the truthy values of its lines), and if it does
    not the response has status 404 and an error object for body.  The two
    paths are the only ones it consults, and the agent file's name is
    built from a prefix of the identifier of at most 8 characters:
    identifiers that agree on it share their agent file. *)
Theorem session_fallback_to_agent_file (project sessionId : string) (t : Server.trace) :
  existsSync (Spec.session_path project sessionId) = false ->
  (exists resp,
     Server.get_session project sessionId t =
       Done resp
            (t ++ Server.Call_existsSync (Spec.session_path project sessionId)
               :: Server.Call_existsSync (Spec.agent_path project sessionId)
               :: (if existsSync (Spec.agent_path project sessionId)
                   then [Server.Call_readFileSync (Spec.agent_path project sessionId)]
                   else []))%list /\
     if existsSync (Spec.agent_path project sessionId)
     then Server.status resp = 200 /\
          Server.body resp =
            JArr (filter truthy (Spec.file_values (Spec.agent_path project sessionId)))
     else Server.status resp = 404 /\
          Server.body resp = JObj [("error", JStr "Session not found")]) /\
  (String.length (Spec.first_chars 8 sessionId) <= 8)%nat /\
  prefix (Spec.first_chars 8 sessionId) sessionId = true /\
  (forall other,
     Spec.first_chars 8 other = Spec.first_chars 8 sessionId ->
     Spec.agent_path project other = Spec.agent_path project sessionId).
Proof.
  intros Hno. rewrite get_session_run, Hno.
  split.
  { destruct (existsSync (Spec.agent_path project sessionId));
      eexists; (split; [reflexivity | split; reflexivity]). }
  split; [apply first_chars_length |]. split; [apply first_chars_prefix |].
  intros other Hsame. unfold Spec.agent_path. rewrite Hsame. reflexivity.
Qed.

End Handlers.

Lemma session_fallback_witness :
  existsSync (FileSystem := Demo.agent_only)
    (Spec.session_path (rt := Demo.rt) "app" "0123456789abcdef") = false /\
  exists resp,
    Server.get_session (rt := Demo.rt) (fs := Demo.agent_only) "app" "0123456789abcdef" [] =
      Done resp
        [Server.Call_existsSync "/home/u/.claude/projects/app/0123456789abcdef.jsonl";
         Server.Call_existsSync "/home/u/.claude/projects/app/agent-01234567.jsonl";
         Server.Call_readFileSync "/home/u/.claude/projects/app/agent-01234567.jsonl"] /\
    Server.status resp = 200 /\
    Server.body resp = JArr [JObj [("type", JStr "user")]].
Proof.
  split; [reflexivity |].
  destruct (session_fallback_to_agent_file (rt := Demo.rt) (fs := Demo.agent_only)
              "app" "0123456789abcdef" [] eq_refl) as [(resp & Hrun & Hresp) _].
  exists resp. split; [exact Hrun |]. exact Hresp.
Defined.

(** C8 as stated fails for the session-detail handler: when the session
    file exists and cannot be read, the response has status 200 and an
    empty list of entries for body. *)
Lemma session_read_failure_counterexample :
  readFileSync (FileSystem := Demo.unreadable)
    "/home/u/.claude/projects/app/0123456789abcdef.jsonl"
    = Demo.denied "/home/u/.claude/projects/app/0123456789abcdef.jsonl" /\
  Server.get_session (rt := Demo.rt) (fs := Demo.unreadable) "app" "0123456789abcdef" [] =
    Done {| Server.status := 200; Server.body := JArr [] |}
      [Server.Call_existsSync "/home/u/.claude/projects/app/0123456789abcdef.jsonl";
       Server.Call_readFileSync "/home/u/.claude/projects/app/0123456789abcdef.jsonl"].
Proof.
  split; [reflexivity | vm_compute; reflexivity].
Qed.

(** ** Ranking and truncation (C6) *)

Section Sort.

Variable A : Type.
Variable key : A -> Z.

Lemma sort_insert_perm (x : A) (l : list A) :
  Permutation (sort_insert (Spec.descending key) x l) (x :: l).
Proof.
  induction l as [| y l IH]; simpl; [apply Permutation_refl |].
  destruct (0 <? (Spec.descending key) x y); [| apply Permutation_refl].
  apply Permutation_trans with (y :: x :: l);
    [apply perm_skip; exact IH | apply perm_swap].
Qed.

Lemma Array_sort_perm (l : list A) : Permutation (Array_sort (Spec.descending key) l) l.
Proof.
  induction l as [| x l IH]; simpl; [apply Permutation_refl |].
  apply Permutation_trans with (x :: Array_sort (Spec.descending key) l);
    [apply sort_insert_perm | apply perm_skip; exact IH].
Qed.

Lemma sort_insert_sorted (x : A) (l : list A) :
  StronglySorted (Spec.at_least key) l -> StronglySorted (Spec.at_least key) (sort_insert (Spec.descending key) x l).
Proof.
  induction l as [| y l IH]; simpl; intros Hs.
  - constructor; constructor.
  - apply StronglySorted_inv in Hs. destruct Hs as [Hl Hy].
    destruct (0 <? (Spec.descending key) x y) eqn:E.
    + apply Z.ltb_lt in E. constructor; [apply IH; exact Hl |].
      apply Forall_forall. intros z Hz.
      apply (Permutation_in _ (sort_insert_perm x l)) in Hz.
      destruct Hz as [<- | Hz].
      * unfold Spec.at_least, Spec.descending in *. lia.
      * rewrite Forall_forall in Hy. apply Hy. exact Hz.
    + apply Z.ltb_ge in E. constructor; [constructor; assumption |].
      constructor; [unfold Spec.at_least, Spec.descending in *; lia |].
      apply Forall_forall. intros z Hz. rewrite Forall_forall in Hy.
      specialize (Hy z Hz). unfold Spec.at_least, Spec.descending in *. lia.
Qed.

Lemma Array_sort_sorted (l : list A) : StronglySorted (Spec.at_least key) (Array_sort (Spec.descending key) l).
Proof.
  induction l as [| x l IH]; simpl; [constructor | apply sort_insert_sorted; exact IH].
Qed.

Lemma sorted_app (l1 l2 : list A) :
  StronglySorted (Spec.at_least key) (l1 ++ l2) ->
  StronglySorted (Spec.at_least key) l1 /\
  (forall x y, In x l1 -> In y l2 -> key y <= key x).
Proof.
  induction l1 as [| a l1 IH]; simpl; intros Hs.
  - split; [constructor | intros x y []].
  - apply StronglySorted_inv in Hs. destruct Hs as [Hl Ha].
    destruct (IH Hl) as [H1 H2]. rewrite Forall_forall in Ha.
    split.
    + constructor; [exact H1 |]. apply Forall_forall. intros z Hz.
      apply Ha. apply in_or_app. left. exact Hz.
    + intros x y [<- | Hx] Hy.
      * apply Ha. apply in_or_app. right. exact Hy.
      * apply H2; assumption.
Qed.

(** The first [n] of a sorted list are sorted, and each is at least as
    large as each of the rest. *)
Lemma sorted_slice (n : nat) (l : list A) :
  StronglySorted (Spec.at_least key) l ->
  StronglySorted (Spec.at_least key) (slice0 n l) /\
  (forall x y, In x (slice0 n l) -> In y (skipn n l) -> key y <= key x).
Proof.
  intros Hs. apply sorted_app. unfold slice0. rewrite firstn_skipn. exact Hs.
Qed.

Lemma sorted_non_increasing (l : list A) :
  StronglySorted (Spec.at_least key) l -> Spec.non_increasing (map key l) = true.
Proof.
  induction l as [| x l IH]; intros Hs; [reflexivity |].
  apply StronglySorted_inv in Hs. destruct Hs as [Hl Hx].
  specialize (IH Hl). destruct l as [| y l]; [reflexivity |].
  cbn [map Spec.non_increasing] in *. rewrite IH, andb_true_r.
  apply Z.leb_le. rewrite Forall_forall in Hx. apply Hx. left. reflexivity.
Qed.

End Sort.

(** ** The shaped output *)

Lemma obj_set_length {V : Type} (k : string) (v : V) (o : object V) :
  (List.length (obj_set k v o) <= S (List.length o))%nat.
Proof.
  unfold obj_set. destruct (has_key k o).
  - clear. induction o as [| [k0 v0] o IH]; simpl; [lia |].
    destruct (k =? k0)%string; simpl; lia.
  - destruct (array_index k) as [i |].
    + clear. induction o as [| [k0 v0] o IH]; simpl; [lia |].
      destruct (array_index k0) as [j |]; [destruct (i <? j)%N |]; simpl; lia.
    + rewrite length_app. simpl. lia.
Qed.

Lemma reduce_length {V : Type} (l : list (string * V)) : forall acc,
  (List.length (fold_left (fun obj e => obj_set (fst e) (snd e) obj) l acc)
   <= List.length acc + List.length l)%nat.
Proof.
  induction l as [| e l IH]; intros acc; simpl; [lia |].
  specialize (IH (obj_set (fst e) (snd e) acc)).
  pose proof (obj_set_length (fst e) (snd e) acc). lia.
Qed.

Lemma top_counts_length (n : nat) (counts : object Z) :
  (List.length (Gen.top_counts n counts) <= n)%nat.
Proof.
  unfold Gen.top_counts.
  pose proof (reduce_length (slice0 n (Array_sort Gen.by_count (Object_entries counts))) []).
  pose proof (firstn_le_length n (Array_sort Gen.by_count (Object_entries counts))).
  unfold slice0 in *. simpl in *. lia.
Qed.

Lemma has_key_false {V : Type} (k : string) (o : object V) :
  ~ In k (map fst o) -> has_key k o = false.
Proof.
  unfold has_key. induction o as [| [k0 v0] o IH]; simpl; intros Hn; [reflexivity |].
  destruct (k =? k0)%string eqn:E.
  - apply String.eqb_eq in E. subst k0. exfalso. apply Hn. left. reflexivity.
  - apply IH. intros Hin. apply Hn. right. exact Hin.
Qed.

(** Writing distinct keys, none an array index, lists them as written. *)
Lemma reduce_appends {V : Type} (l : list (string * V)) : forall acc,
  NoDup (map fst (acc ++ l)) -> Spec.no_index_key l = true ->
  fold_left (fun obj e => obj_set (fst e) (snd e) obj) l acc = (acc ++ l)%list.
Proof.
  induction l as [| [k v] l IH]; intros acc Hnd Hni; simpl.
  - rewrite app_nil_r. reflexivity.
  - simpl in Hni. apply andb_true_iff in Hni. destruct Hni as [Hk Hl].
    destruct (array_index k) eqn:Hidx; [discriminate Hk |].
    assert (Hfresh : has_key k acc = false).
    { apply has_key_false. rewrite map_app in Hnd. simpl in Hnd.
      apply NoDup_remove_2 in Hnd. intros Hin. apply Hnd.
      apply in_or_app. left. exact Hin. }
    unfold obj_set at 2. rewrite Hfresh, Hidx.
    rewrite IH; [rewrite <- app_assoc; reflexivity | | exact Hl].
    rewrite <- app_assoc. exact Hnd.
Qed.

Lemma no_index_key_perm {V : Type} (l l' : object V) :
  Permutation l l' -> Spec.no_index_key l' = true -> Spec.no_index_key l = true.
Proof.
  unfold Spec.no_index_key. intros Hp H. rewrite forallb_forall in *.
  intros x Hx. apply H. apply (Permutation_in _ Hp). exact Hx.
Qed.

Lemma no_index_key_firstn {V : Type} (n : nat) (l : object V) :
  Spec.no_index_key l = true -> Spec.no_index_key (firstn n l) = true.
Proof.
  unfold Spec.no_index_key. intros H. rewrite forallb_forall in *.
  intros x Hx. apply H. rewrite <- (firstn_skipn n l). apply in_or_app. left. exact Hx.
Qed.

Lemma NoDup_firstn {B : Type} (n : nat) (l : list B) : NoDup l -> NoDup (firstn n l).
Proof.
  intros H. rewrite <- (firstn_skipn n l) in H. apply NoDup_app_remove_r in H. exact H.
Qed.

Section Output.

Context {rt : Runtime} {fs : FileSystem} {cfg : Gen.Config}.

(** X1.  Top-N truncation returns at most N entries: 20 tools, 15
    branches, 10 projects. *)
Theorem output_sizes (s : Gen.state) :
  (List.length (Gen.toolUsage s) <= 20)%nat /\
  (List.length (Gen.gitBranches s) <= 15)%nat /\
  (List.length (Gen.projects s) <= 10)%nat.
Proof.
  split; [apply top_counts_length |]. split; [apply top_counts_length |].
  unfold Gen.projects, slice0. apply firstn_le_length.
Qed.

(** X2.  The projects list is in non-increasing order of session count; each
    project in it has at least as many sessions as each ranked project
    left out, and more than each project left out for having none. *)
Theorem projects_ranked (s : Gen.state) :
  Spec.non_increasing (map Gen.Row.sessions (Gen.projects s)) = true /\
  Gen.projects s = slice0 10 (Spec.ranked_rows s) /\
  Permutation (Spec.ranked_rows s)
    (filter (fun p => 0 <? Gen.Row.sessions p)
       (map Gen.project_row (map snd (Gen.projectMap s)))) /\
  (forall p q, In p (Gen.projects s) -> In q (skipn 10 (Spec.ranked_rows s)) ->
     Gen.Row.sessions q <= Gen.Row.sessions p) /\
  (forall p q, In p (Gen.projects s) ->
     In q (map Gen.project_row (map snd (Gen.projectMap s))) ->
     (0 <? Gen.Row.sessions q) = false ->
     Gen.Row.sessions q < Gen.Row.sessions p).
Proof.
  pose proof (Array_sort_sorted Gen.Row.t Gen.Row.sessions
                (filter (fun p => 0 <? Gen.Row.sessions p)
                   (map Gen.project_row (map snd (Gen.projectMap s))))) as Hs.
  pose proof (Array_sort_perm Gen.Row.t Gen.Row.sessions
                (filter (fun p => 0 <? Gen.Row.sessions p)
                   (map Gen.project_row (map snd (Gen.projectMap s))))) as Hp.
  change (Array_sort (Spec.descending Gen.Row.sessions)
            (filter (fun p => 0 <? Gen.Row.sessions p)
               (map Gen.project_row (map snd (Gen.projectMap s)))))
    with (Spec.ranked_rows s) in Hs, Hp.
  destruct (sorted_slice Gen.Row.t Gen.Row.sessions 10 (Spec.ranked_rows s) Hs) as [H1 H2].
  split; [apply sorted_non_increasing; exact H1 |].
  split; [reflexivity |]. split; [exact Hp |]. split; [exact H2 |].
  intros p q Hin Hq Hzero.
  assert (Hpos : 0 < Gen.Row.sessions p).
  { unfold Gen.projects in Hin.
    assert (Hin' : In p (Spec.ranked_rows s)).
    { rewrite <- (firstn_skipn 10 (Spec.ranked_rows s)). apply in_or_app. left. exact Hin. }
    apply (Permutation_in _ Hp) in Hin'. apply filter_In in Hin'.
    apply Z.ltb_lt. apply Hin'. }
  apply Z.ltb_ge in Hzero. lia.
Qed.

(** X3.  A frequency map none of whose keys is an array index comes out as
    the first N entries of the sort: in non-increasing order of count, and
    each entry kept has at least the count of each entry left out. *)
Theorem top_counts_ranked (n : nat) (counts : object Z) :
  NoDup (map fst counts) ->
  Spec.no_index_key counts = true ->
  Gen.top_counts n counts = slice0 n (Array_sort Gen.by_count (Object_entries counts)) /\
  Spec.non_increasing (Spec.counts_of (Gen.top_counts n counts)) = true /\
  Permutation (Array_sort Gen.by_count (Object_entries counts)) counts /\
  (forall x y,
     In x (Gen.top_counts n counts) ->
     In y (skipn n (Array_sort Gen.by_count (Object_entries counts))) ->
     snd y <= snd x).
Proof.
  intros Hnd Hni. unfold Object_entries.
  pose proof (Array_sort_sorted (string * Z) snd counts) as Hs.
  pose proof (Array_sort_perm (string * Z) snd counts) as Hp.
  change (Spec.descending snd) with Gen.by_count in Hs, Hp.
  assert (Heq : Gen.top_counts n counts = slice0 n (Array_sort Gen.by_count counts)).
  { unfold Gen.top_counts, Object_entries. rewrite reduce_appends; [reflexivity | |].
    - simpl. unfold slice0. rewrite <- firstn_map. apply NoDup_firstn.
      apply (Permutation_NoDup (l := map fst counts)); [| exact Hnd].
      apply Permutation_map. apply Permutation_sym. exact Hp.
    - unfold slice0. apply no_index_key_firstn.
      apply (no_index_key_perm _ _ Hp). exact Hni. }
  destruct (sorted_slice (string * Z) snd n (Array_sort Gen.by_count counts) Hs) as [H1 H2].
  rewrite Heq. split; [reflexivity |].
  split; [apply (sorted_non_increasing (string * Z) snd); exact H1 |].
  split; [exact Hp | exact H2].
Qed.

End Output.

Lemma top_counts_ranked_witness :
  NoDup (map fst [("Read", 3); ("Bash", 7); ("Edit", 3)]) /\
  Gen.top_counts 2 [("Read", 3); ("Bash", 7); ("Edit", 3)] = [("Bash", 7); ("Read", 3)].
Proof.
  assert (Hnd : NoDup (map fst [("Read", 3); ("Bash", 7); ("Edit", 3)])).
  { simpl. repeat constructor; simpl; intuition discriminate. }
  split; [exact Hnd |].
  destruct (top_counts_ranked 2 [("Read", 3); ("Bash", 7); ("Edit", 3)] Hnd eq_refl)
    as [H _].
  rewrite H. reflexivity.
Defined.

(** C6 at a branch named by a number.  Of three sessions, two are on
    [main] and one on [42]: the sort puts [main] first, but an object lists
    a key that is an array index before its other keys, so the branch map
    of the output lists [42] with count 1 before [main] with count 2. *)
Lemma gitBranches_index_key_first :
  Gen.scan (rt := Demo.rt) (cfg := Demo.cfg) Demo.branch_visits Gen.initial_state
    = Done tt Demo.branch_scanned /\
  Array_sort Gen.by_count (Object_entries (Gen.branchCounts Demo.branch_scanned))
    = [("main", 2); ("42", 1)] /\
  Gen.gitBranches Demo.branch_scanned = [("42", 1); ("main", 2)] /\
  Spec.non_increasing (Spec.counts_of (Gen.gitBranches Demo.branch_scanned)) = false.
Proof.
  split; [vm_compute; reflexivity |].
  split; [vm_compute; reflexivity |].
  split; vm_compute; reflexivity.
Qed.

(** X4.  The example of the specification: a project directory with two
    session files, one holding three user or assistant records and one
    [tool_use] block named [Read], the other one user record, is reported
    with 2 sessions, 4 messages and 1 tool call, and [Read] is the one tool
    of the tool map. *)
Example project_summary_example :
  Gen.scan (rt := Demo.rt) (cfg := Demo.cfg) Demo.example_visits Gen.initial_state
    = Done tt Demo.example_scanned /\
  map (fun p => (Gen.Row.name p, Gen.Row.sessions p, Gen.Row.messages p, Gen.Row.toolCalls p))
      (Gen.projects Demo.example_scanned)
    = [("Users u app", 2, 4, 1)] /\
  Gen.toolUsage Demo.example_scanned = [("Read", 1)].
Proof.
  split; [vm_compute; reflexivity |].
  split; vm_compute; reflexivity.
Qed.

(** ** Properties kept by statements, completed or not *)

Section Preserves.

Context {S : Type}.

Variable P : S -> Prop.

Lemma preserves_ret {A : Type} (a : A) : preserves P (ret a).
Proof. intros s H. exact H. Qed.

Lemma preserves_lift {A : Type} (e : exc A) : preserves P (lift e).
Proof. intros s H. unfold lift. destruct e; exact H. Qed.

Lemma preserves_get : preserves P get.
Proof. intros s H. exact H. Qed.

Lemma preserves_modify (f : S -> S) : (forall s, P s -> P (f s)) -> preserves P (modify f).
Proof. intros Hf s H. apply Hf. exact H. Qed.

Lemma preserves_bind {A B : Type} (m : M S A) (k : A -> M S B) :
  preserves P m -> (forall a, preserves P (k a)) -> preserves P (bind m k).
Proof.
  intros Hm Hk s H. unfold bind. specialize (Hm s H).
  destruct (m s) as [a s1 | msg s1]; simpl in Hm; [apply Hk; exact Hm | exact Hm].
Qed.

Lemma preserves_when (b : bool) (m : M S unit) : preserves P m -> preserves P (when b m).
Proof. intros Hm. destruct b; [exact Hm | apply preserves_ret]. Qed.

Lemma preserves_for_of {A : Type} (xs : list A) (body : A -> M S unit) :
  (forall x, preserves P (body x)) -> preserves P (for_of xs body).
Proof.
  intros Hb. induction xs as [| x xs IH]; simpl.
  - apply preserves_ret.
  - apply preserves_bind; [apply Hb | intros _; exact IH].
Qed.

Lemma preserves_try_catch {A : Type} (m : M S A) (h : string -> M S A) :
  preserves P m -> (forall msg, preserves P (h msg)) -> preserves P (try_catch m h).
Proof.
  intros Hm Hh s H. unfold try_catch. specialize (Hm s H).
  destruct (m s) as [a s1 | msg s1]; simpl in Hm; [exact Hm | apply Hh; exact Hm].
Qed.

End Preserves.

(** A loop stops at the first iteration that throws. *)
Lemma for_of_app {S A : Type} (xs ys : list A) (body : A -> M S unit) (s : S) :
  for_of (xs ++ ys) body s =
    match for_of xs body s with
    | Done _ s1 => for_of ys body s1
    | Thrown msg s1 => Thrown msg s1
    end.
Proof.
  revert s. induction xs as [| x xs IH]; intros s; simpl; [reflexivity |].
  unfold bind. destruct (body x s) as [[] s1 | msg s1]; [apply IH | reflexivity].
Qed.

Lemma for_of_throws {S A : Type} (body : A -> M S unit) (bad : A) :
  (forall s, exists msg, body bad s = Thrown msg s) ->
  forall xs s, In bad xs -> exists msg s1, for_of xs body s = Thrown msg s1.
Proof.
  intros Hbad xs. induction xs as [| x xs IH]; intros s Hin; [destruct Hin |].
  simpl. unfold bind. destruct (body x s) as [[] s1 | msg s1] eqn:E.
  - destruct Hin as [-> | Hin].
    + destruct (Hbad s) as [msg Hm]. rewrite Hm in E. discriminate E.
    + apply IH. exact Hin.
  - exists msg, s1. reflexivity.
Qed.

(** Statements on the frame of [processSession]. *)
Lemma preserves_on_state (P : Gen.frame -> Prop) (f : Gen.state -> Gen.state) :
  (forall s l, P (s, l) -> P (f s, l)) -> preserves P (Gen.on_state f).
Proof. intros Hf [s l] H. apply Hf. exact H. Qed.

Lemma preserves_on_locals (P : Gen.frame -> Prop) (f : Gen.locals -> Gen.locals) :
  (forall s l, P (s, l) -> P (s, f l)) -> preserves P (Gen.on_locals f).
Proof. intros Hf [s l] H. apply Hf. exact H. Qed.

(** Splits a statement into its parts; what is left are the updates. *)
Ltac preserve :=
  repeat first
    [ apply preserves_ret
    | apply preserves_lift
    | apply preserves_get
    | apply preserves_bind; [| intros ?]
    | apply preserves_when
    | apply preserves_for_of; intros ?
    | match goal with
      | |- preserves _ (match ?x with _ => _ end) => destruct x
      | |- preserves _ (if ?x then _ else _) => destruct x
      end ].

Section GenFrame.

Context {rt : Runtime} {fs : FileSystem} {cfg : Gen.Config}.

(** A property of the state that no update of a counter or of a bucket
    of [processSession]'s loop can break is kept by the loop. *)
Lemma processLine_preserves (Q : Gen.state -> Prop) (line : json) :
  (forall a s, Q s -> Q (Gen.set_hourlyActivity a s)) ->
  (forall a s, Q s -> Q (Gen.set_weekdayActivity a s)) ->
  (forall d s, Q s -> Q (Gen.set_allSessionDates d s)) ->
  (forall v s, Q s -> Q (Gen.set_lastActivity v s)) ->
  (forall k s, Q s -> Q (Gen.set_branchCounts (Gen.count_up k (Gen.branchCounts s)) s)) ->
  (forall k s, Q s -> Q (Gen.set_toolCounts (Gen.count_up k (Gen.toolCounts s)) s)) ->
  (forall k s, Q s -> Q (Gen.set_modelUsage (Gen.bump_model k (Gen.modelUsage s)) s)) ->
  preserves (fun c : Gen.frame => Q (fst c)) (Gen.processLine line).
Proof.
  intros Hh Hw Hd Hl Hb Ht Hm.
  unfold Gen.processLine, Gen.track_timestamps, Gen.count_messages, Gen.track_branch,
    Gen.count_tool_calls, Gen.count_block, Gen.track_model.
  preserve;
    try (apply preserves_on_locals; intros s l H; exact H);
    apply preserves_on_state; intros s l H; simpl in *;
    try destruct (_ || _); auto.
Qed.

End GenFrame.

(** ** The scan, session by session *)

Section GenScan.

Context {rt : Runtime} {fs : FileSystem} {cfg : Gen.Config}.

Lemma processSession_preserves (Q : Gen.state -> Prop) lines filename project :
  (forall line, preserves (fun c : Gen.frame => Q (fst c)) (Gen.processLine line)) ->
  (forall pm s, Q s -> Q (Gen.set_projectMap pm s)) ->
  preserves Q (Gen.processSession lines filename project).
Proof.
  intros Hline Hpm s H. unfold Gen.processSession.
  pose proof (preserves_for_of (fun c : Gen.frame => Q (fst c)) lines Gen.processLine Hline
                (s, Gen.initial_locals) H) as Hloop.
  destruct (for_of lines Gen.processLine (s, Gen.initial_locals)) as [[] [s1 l1] | msg [s1 l1]];
    simpl in *; [| exact Hloop].
  unfold Gen.update_project. destruct project as [dir |]; [| exact Hloop].
  destruct (assoc dir (Gen.projectMap s1)); [apply Hpm |]; exact Hloop.
Qed.

Lemma walk_preserves (Q : Gen.state -> Prop) visits :
  (forall line, preserves (fun c : Gen.frame => Q (fst c)) (Gen.processLine line)) ->
  (forall pm s, Q s -> Q (Gen.set_projectMap pm s)) ->
  preserves Q (Gen.walk visits).
Proof.
  intros Hline Hpm. unfold Gen.walk. apply preserves_for_of. intros [dir | lines f p]; simpl.
  - apply preserves_modify. intros s H. unfold Gen.open_project.
    destruct (has_key dir (Gen.projectMap s)); [exact H | apply Hpm; exact H].
  - apply processSession_preserves; assumption.
Qed.

(** The scan completes, in the state in which the walk left off. *)
Lemma scan_final visits s : Gen.scan visits s = Done tt (final (Gen.walk visits s)).
Proof.
  unfold Gen.scan, try_catch. destruct (Gen.walk visits s) as [[] s1 | msg s1]; reflexivity.
Qed.

Lemma processSession_Done lines filename project s s2 :
  Gen.processSession lines filename project s = Done tt s2 ->
  exists s1 l1,
    Gen.session_loop lines s = Done tt (s1, l1) /\ s2 = Gen.update_project project l1 s1.
Proof.
  unfold Gen.processSession, Gen.session_loop.
  destruct (for_of lines Gen.processLine (s, Gen.initial_locals)) as [[] [s1 l1] | msg [s1 l1]];
    intros H; [| discriminate H].
  inversion H. exists s1, l1. split; reflexivity.
Qed.

End GenScan.

Lemma assoc_app_found {V : Type} (k : string) (l1 l2 : list (string * V)) (v : V) :
  assoc k l1 = Some v -> assoc k (l1 ++ l2) = Some v.
Proof.
  induction l1 as [| [k0 v0] l1 IH]; simpl; [discriminate |].
  destruct (k =? k0)%string; [intros H; exact H | exact IH].
Qed.

Section Totals.

Context {rt : Runtime} {fs : FileSystem} {cfg : Gen.Config}.

Lemma session_tool_calls lines s s1 l1 :
  Gen.session_loop lines s = Done tt (s1, l1) ->
  Gen.sessionToolCalls l1 = Z.of_nat (List.length (flat_map Spec.tool_use_blocks lines)).
Proof.
  unfold Gen.session_loop. intros H.
  destruct (session_loop_tools lines _ _ _ _ H) as [E _]. simpl in E. exact E.
Qed.

(** X5.  When the walk completes, a project that was in the map holds one
    more session for each of its session files visited, and its messages
    and tool calls have grown by the number of [user] and [assistant]
    records, and of [tool_use] blocks, of these files; its name and path
    stay. *)
Theorem project_totals (visits : list Gen.visit) (dir : string) :
  forall (s s' : Gen.state) (p : Gen.Project.t),
  Gen.walk visits s = Done tt s' ->
  assoc dir (Gen.projectMap s) = Some p ->
  exists p',
    assoc dir (Gen.projectMap s') = Some p' /\
    Gen.Project.sessions p' =
      Gen.Project.sessions p + Z.of_nat (List.length (Notions.sessions_in dir visits)) /\
    Gen.Project.messages p' =
      Gen.Project.messages p + Spec.count Spec.is_message (Notions.records_in dir visits) /\
    Gen.Project.toolCalls p' =
      Gen.Project.toolCalls p +
      Z.of_nat (List.length (flat_map Spec.tool_use_blocks (Notions.records_in dir visits))) /\
    Gen.Project.name p' = Gen.Project.name p /\
    Gen.Project.path p' = Gen.Project.path p.
Proof.
  unfold Gen.walk, Notions.records_in.
  induction visits as [| v visits IH]; intros s s' p H Hp.
  - inversion H. subst. exists p. unfold Spec.count. simpl.
    repeat split; try exact Hp; lia.
  - simpl in H. apply bind_Done in H. destruct H as ([] & s1 & H1 & H2).
    destruct v as [d | lines f project].
    + (* a directory is entered *)
      assert (Hp1 : assoc dir (Gen.projectMap s1) = Some p).
      { simpl in H1. unfold modify in H1. inversion H1. unfold Gen.open_project.
        destruct (has_key d (Gen.projectMap s)); [exact Hp |].
        simpl. apply assoc_app_found. exact Hp. }
      destruct (IH _ _ _ H2 Hp1) as (p' & A & B & C & D & E & F).
      exists p'.
      change (Notions.sessions_in dir (Gen.EnterProject d :: visits))
        with (Notions.sessions_in dir visits).
      repeat split; assumption.
    + simpl in H1. apply processSession_Done in H1.
      destruct H1 as (s0 & l0 & Hloop & ->).
      pose proof (session_loop_projectMap lines s s0 l0 Hloop) as Hpm.
      pose proof (session_loop_messages lines s s0 l0 Hloop) as Hm.
      pose proof (session_tool_calls lines s s0 l0 Hloop) as Ht.
      destruct project as [d |].
      * destruct (d =? dir)%string eqn:Hd.
        -- apply String.eqb_eq in Hd. subst d.
           assert (Hp1 : assoc dir (Gen.projectMap (Gen.update_project (Some dir) l0 s0))
                         = Some (Gen.update_project_entry l0 p)).
           { unfold Gen.update_project. rewrite Hpm, Hp. simpl.
             apply assoc_replace_key_same. unfold has_key. rewrite Hp. reflexivity. }
           destruct (IH _ _ _ H2 Hp1) as (p' & A & B & C & D & E & F).
           exists p'.
           assert (Hs : Notions.sessions_in dir (Gen.SessionFile lines f (Some dir) :: visits)
                        = lines :: Notions.sessions_in dir visits).
           { unfold Notions.sessions_in. simpl. rewrite String.eqb_refl. reflexivity. }
           rewrite Hs. cbn [List.concat List.length].
           rewrite flat_map_app, length_app, count_app, B, C, D, E, F.
           cbn [Gen.update_project_entry Gen.Project.sessions Gen.Project.messages
                Gen.Project.toolCalls Gen.Project.name Gen.Project.path].
           rewrite Hm, Ht. repeat split; try reflexivity; try exact A; lia.
        -- assert (Hp1 : assoc dir (Gen.projectMap (Gen.update_project (Some d) l0 s0))
                         = Some p).
           { unfold Gen.update_project. rewrite Hpm.
             destruct (assoc d (Gen.projectMap s)); [| rewrite Hpm; exact Hp].
             simpl. rewrite assoc_replace_key_other; [exact Hp |].
             rewrite String.eqb_sym. exact Hd. }
           destruct (IH _ _ _ H2 Hp1) as (p' & A & B & C & D & E & F).
           exists p'.
           assert (Hs : Notions.sessions_in dir (Gen.SessionFile lines f (Some d) :: visits)
                        = Notions.sessions_in dir visits).
           { unfold Notions.sessions_in. simpl. rewrite Hd. reflexivity. }
           rewrite Hs. repeat split; assumption.
      * assert (Hp1 : assoc dir (Gen.projectMap (Gen.update_project None l0 s0)) = Some p)
          by (simpl; rewrite Hpm; exact Hp).
        destruct (IH _ _ _ H2 Hp1) as (p' & A & B & C & D & E & F).
        exists p'.
        change (Notions.sessions_in dir (Gen.SessionFile lines f None :: visits))
          with (Notions.sessions_in dir visits).
        repeat split; assumption.
Qed.

End Totals.

(** ** A line that is [null] *)

Section NullLine.

Context {rt : Runtime} {fs : FileSystem} {cfg : Gen.Config}.

Lemma processLine_null (c : Gen.frame) :
  exists msg, Gen.processLine JNull c = Thrown msg c.
Proof. eexists. reflexivity. Qed.

Lemma processLine_projectMap (pm : list (string * Gen.Project.t)) (line : json) :
  preserves (fun c : Gen.frame => Gen.projectMap (fst c) = pm) (Gen.processLine line).
Proof.
  apply (processLine_preserves (fun s => Gen.projectMap s = pm)); intros; assumption.
Qed.

Lemma processSession_null lines filename project s :
  In JNull lines ->
  exists msg s2,
    Gen.processSession lines filename project s = Thrown msg s2 /\
    Gen.projectMap s2 = Gen.projectMap s.
Proof.
  intros Hin.
  destruct (for_of_throws Gen.processLine JNull processLine_null lines
              (s, Gen.initial_locals) Hin) as (msg & [s2 l2] & Hloop).
  exists msg, s2. unfold Gen.processSession. rewrite Hloop. split; [reflexivity |].
  pose proof (preserves_for_of (fun c : Gen.frame => Gen.projectMap (fst c) = Gen.projectMap s)
                lines Gen.processLine (processLine_projectMap (Gen.projectMap s))
                (s, Gen.initial_locals) eq_refl) as H.
  rewrite Hloop in H. exact H.
Qed.

(** X6.  A session file one of whose lines is [null] ends the scan: the
    exception its record raises leaves [processSession] and the walk, so
    the session is not added to its project and nothing that comes after
    the file is visited. *)
Theorem null_line_ends_scan
  (visits1 visits2 : list Gen.visit) (lines : list json) (filename : string)
  (project : option string) (s s1 : Gen.state) :
  In JNull lines ->
  Gen.walk visits1 s = Done tt s1 ->
  exists s2,
    Gen.scan (visits1 ++ Gen.SessionFile lines filename project :: visits2) s = Done tt s2 /\
    Gen.scan (visits1 ++ [Gen.SessionFile lines filename project]) s = Done tt s2 /\
    (exists msg, Gen.processSession lines filename project s1 = Thrown msg s2) /\
    Gen.projectMap s2 = Gen.projectMap s1.
Proof.
  intros Hin Hwalk.
  destruct (processSession_null lines filename project s1 Hin) as (msg & s2 & Hps & Hpm).
  exists s2.
  assert (Hstop : forall rest,
            Gen.scan (visits1 ++ Gen.SessionFile lines filename project :: rest) s = Done tt s2).
  { intros rest. unfold Gen.scan, try_catch, Gen.walk in *. rewrite for_of_app, Hwalk.
    simpl. unfold bind. rewrite Hps. reflexivity. }
  split; [apply Hstop |]. split; [apply Hstop |].
  split; [exists msg; exact Hps | exact Hpm].
Qed.

End NullLine.

(** ** The cost without a cache *)

Lemma Forall_replace_key {V : Type} (R : V -> Prop) (k : string) (v : V) (o : object V) :
  Forall (fun e => R (snd e)) o -> R v -> Forall (fun e => R (snd e)) (replace_key k v o).
Proof.
  intros Ho Hv. induction o as [| [k0 v0] o IH]; simpl; [constructor |].
  apply Forall_cons_iff in Ho. destruct Ho as [H0 Ho].
  destruct (k =? k0)%string; constructor; auto.
Qed.

Lemma Forall_insert_index {V : Type} (R : V -> Prop) (i : N) (k : string) (v : V)
  (o : object V) :
  Forall (fun e => R (snd e)) o -> R v -> Forall (fun e => R (snd e)) (insert_index i k v o).
Proof.
  intros Ho Hv. induction o as [| [k0 v0] o IH]; simpl; [repeat constructor; exact Hv |].
  pose proof Ho as Ho'. apply Forall_cons_iff in Ho. destruct Ho as [H0 Ho].
  destruct (array_index k0) as [j |]; [destruct (i <? j)%N |];
    constructor; auto.
Qed.

(** Writing a value that has a property into an object all of whose
    values have it. *)
Lemma Forall_obj_set {V : Type} (R : V -> Prop) (k : string) (v : V) (o : object V) :
  Forall (fun e => R (snd e)) o -> R v -> Forall (fun e => R (snd e)) (obj_set k v o).
Proof.
  intros Ho Hv. unfold obj_set. destruct (has_key k o).
  - apply Forall_replace_key; assumption.
  - destruct (array_index k) as [i |].
    + apply Forall_insert_index; assumption.
    + apply Forall_app. split; [exact Ho | repeat constructor; exact Hv].
Qed.

Lemma Forall_obj_get {V : Type} (R : V -> Prop) (k : string) (v : V) (o : object V) :
  Forall (fun e => R (snd e)) o -> obj_get k o = Some v -> R v.
Proof.
  unfold obj_get. intros Ho. induction o as [| [k0 v0] o IH]; simpl; [discriminate |].
  apply Forall_cons_iff in Ho. destruct Ho as [H0 Ho].
  destruct (k =? k0)%string; [intros H; inversion H; subst; exact H0 | apply IH; exact Ho].
Qed.

Section Cost.

Context {rt : Runtime} {fs : FileSystem} {cfg : Gen.Config}.

Lemma bump_model_no_tokens (k : string) (mu : object Gen.Usage.t) :
  Forall (fun e => Notions.no_tokens (snd e)) mu ->
  Forall (fun e => Notions.no_tokens (snd e)) (Gen.bump_model k mu).
Proof.
  intros H. unfold Gen.bump_model.
  assert (H1 : Forall (fun e => Notions.no_tokens (snd e))
                 (if has_key k mu || inherited k then mu
                  else obj_set k Gen.Usage.zero mu)).
  { destruct (has_key k mu || inherited k); [exact H |].
    apply Forall_obj_set; [exact H |]. repeat split; reflexivity. }
  destruct (obj_get k (if has_key k mu || inherited k then mu
                       else obj_set k Gen.Usage.zero mu))
    as [u |] eqn:Hu; [| exact H1].
  apply Forall_obj_set; [exact H1 |].
  pose proof (Forall_obj_get Notions.no_tokens k u _ H1 Hu) as (A & B & C & D).
  repeat split; assumption.
Qed.

Lemma model_cost_no_tokens (model : string) (u : Gen.Usage.t) :
  Notions.no_tokens u -> Gen.model_cost model u = Ok 0%float.
Proof.
  intros (A & B & C & D). unfold Gen.model_cost, Gen.pricing_of.
  rewrite A, B, C, D. destruct (String_includes model "Opus"); reflexivity.
Qed.

Lemma add_costs_no_tokens (entries : list (string * Gen.Usage.t)) :
  Forall (fun e => Notions.no_tokens (snd e)) entries ->
  Gen.add_costs entries 0%float = Ok 0%float.
Proof.
  induction entries as [| [model u] entries IH]; intros H; [reflexivity |].
  apply Forall_cons_iff in H. destruct H as [Hu H]. simpl in Hu.
  cbn [Gen.add_costs]. rewrite (model_cost_no_tokens model u Hu).
  change (0 + 0)%float with 0%float. apply IH. exact H.
Qed.

(** X7.  Token counts come from the cache only: a scan that starts without
    one creates the entries of the model table with no tokens, whatever
    the session files hold, and the estimated cost is 0. *)
Theorem cost_without_cache (visits : list Gen.visit) :
  exists s',
    Gen.scan visits Gen.initial_state = Done tt s' /\
    Forall (fun e => Notions.no_tokens (snd e)) (Gen.modelUsage s') /\
    Gen.estimatedCostUSD s' = Ok 0%float.
Proof.
  exists (final (Gen.walk visits Gen.initial_state)).
  split; [apply scan_final |].
  assert (H : Forall (fun e => Notions.no_tokens (snd e))
                (Gen.modelUsage (final (Gen.walk visits Gen.initial_state)))).
  { apply (walk_preserves
             (fun s => Forall (fun e => Notions.no_tokens (snd e)) (Gen.modelUsage s))).
    - intros line.
      apply (processLine_preserves
               (fun s => Forall (fun e => Notions.no_tokens (snd e)) (Gen.modelUsage s)));
        intros; try assumption.
      simpl. apply bump_model_no_tokens. assumption.
    - intros pm s H. exact H.
    - constructor. }
  split; [exact H |].
  unfold Gen.estimatedCostUSD, Object_entries. apply add_costs_no_tokens. exact H.
Qed.

End Cost.

(** ** The last activity *)

Section LastActivity.

Context {rt : Runtime} {fs : FileSystem} {cfg : Gen.Config}.

(** The statement groups after the first leave the timestamps alone. *)
Lemma after_timestamps_preserves (Q : Gen.state -> Prop) (line : json) :
  (forall k s, Q s -> Q (Gen.set_branchCounts (Gen.count_up k (Gen.branchCounts s)) s)) ->
  (forall k s, Q s -> Q (Gen.set_toolCounts (Gen.count_up k (Gen.toolCounts s)) s)) ->
  (forall k s, Q s -> Q (Gen.set_modelUsage (Gen.bump_model k (Gen.modelUsage s)) s)) ->
  preserves (fun c : Gen.frame => Q (fst c))
    (Gen.count_messages line ;; Gen.track_branch line ;; Gen.count_tool_calls line ;;
     Gen.track_model line).
Proof.
  intros Hb Ht Hm.
  unfold Gen.count_messages, Gen.track_branch, Gen.count_tool_calls, Gen.count_block,
    Gen.track_model.
  preserve;
    try (apply preserves_on_locals; intros s l H; exact H);
    apply preserves_on_state; intros s l H; simpl in *; auto.
Qed.

(** A last activity that was read as a date stays one. *)
Lemma track_timestamps_dated (line : json) :
  preserves (fun c : Gen.frame => Spec.dated (Gen.lastActivity (fst c)) = true)
    (Gen.track_timestamps line).
Proof.
  intros [s l] Hd. simpl fst in Hd.
  unfold Gen.track_timestamps, bind, lift, when.
  destruct (prop (Some line) "timestamp") as [timestamp | m]; [| exact Hd].
  destruct (Boolean timestamp); [| exact Hd].
  destruct (Date_new timestamp) as [ts | m] eqn:Hts; [| exact Hd].
  apply dated_Date_new in Hts.
  destruct (Gen.Date_ge ts (Some Gen.SIX_MONTHS_AGO)); [| exact Hd].
  unfold Gen.on_state, Gen.on_locals, modify, get, ret, bind, lift.
  repeat break_match; simpl; assumption.
Qed.

Lemma processLine_dated (line : json) :
  preserves (fun c : Gen.frame => Spec.dated (Gen.lastActivity (fst c)) = true)
    (Gen.processLine line).
Proof.
  unfold Gen.processLine. apply preserves_bind; [apply track_timestamps_dated |].
  intros _.
  apply (after_timestamps_preserves (fun s => Spec.dated (Gen.lastActivity s) = true));
    intros k s H; exact H.
Qed.

(** Every state a scan is in holds a last activity that was read as a
    date, or none. *)
Lemma scanned_states_are_dated (cache : option Cache.t) (visits : list Gen.visit) :
  Spec.dated
    (Gen.lastActivity (final (Gen.walk visits (Gen.load_cache cache Gen.initial_state))))
    = true.
Proof.
  apply (walk_preserves (fun s => Spec.dated (Gen.lastActivity s) = true)).
  - apply processLine_dated.
  - intros pm s H. exact H.
  - unfold Gen.load_cache. destruct cache as [c |]; [| reflexivity].
    destruct (Cache.hourCounts c), (Cache.modelUsage c); reflexivity.
Qed.

Lemma track_timestamps_lastActivity line s l s' l' :
  Gen.track_timestamps line (s, l) = Done tt (s', l') ->
  Gen.lastActivity s' =
    (if Spec.in_window line
        && (negb (Boolean (Gen.lastActivity s))
            || Gen.Date_lt (Spec.moment (Gen.lastActivity s)) (Some (Spec.time_of line)))
     then Spec.field line "timestamp"
     else Gen.lastActivity s).
Proof.
  unfold Gen.track_timestamps, bind, lift.
  read_props line.
  unfold Spec.in_window, Spec.time_of, Spec.moment, when.
  destruct (Boolean (Spec.field line "timestamp")) eqn:Hb; simpl;
    [| unfold ret; done_eq; reflexivity].
  unfold Gen.getHour, Gen.getWeekday, Gen.getDateStr. rewrite Hb. simpl.
  destruct (Date_new (Spec.field line "timestamp")) as [[t |] | m] eqn:Ht; simpl;
    [ | unfold ret; done_eq; reflexivity | discriminate ].
  destruct (Gen.SIX_MONTHS_AGO <=? t) eqn:Hw; simpl;
    [| unfold ret; done_eq; reflexivity].
  unfold Gen.on_state, Gen.on_locals, modify, get, ret. simpl.
  destruct (Boolean (Gen.lastActivity s)); simpl.
  - destruct (Date_new (Gen.lastActivity s)) as [d |]; [| discriminate].
    simpl. destruct (Gen.Date_lt d (Some t)); done_eq; reflexivity.
  - done_eq. reflexivity.
Qed.

Lemma processLine_lastActivity line s l s' l' :
  Gen.processLine line (s, l) = Done tt (s', l') ->
  Gen.lastActivity s' =
    (if Spec.in_window line
        && (negb (Boolean (Gen.lastActivity s))
            || Gen.Date_lt (Spec.moment (Gen.lastActivity s)) (Some (Spec.time_of line)))
     then Spec.field line "timestamp"
     else Gen.lastActivity s).
Proof.
  unfold Gen.processLine. intros H.
  apply bind_Done in H. destruct H as ([] & [s1 l1] & H1 & H2).
  apply track_timestamps_lastActivity in H1. rewrite <- H1.
  pose proof (after_timestamps_preserves
                (fun s0 => Gen.lastActivity s0 = Gen.lastActivity s1) line
                (fun _ _ H => H) (fun _ _ H => H) (fun _ _ H => H) (s1, l1) eq_refl) as Hp.
  rewrite H2 in Hp. exact Hp.
Qed.

Lemma in_window_time (r : json) :
  Spec.in_window r = true ->
  Boolean (Spec.field r "timestamp") = true /\
  Spec.moment (Spec.field r "timestamp") = Some (Spec.time_of r).
Proof.
  unfold Spec.in_window, Spec.time_of, Spec.moment. intros H. apply andb_true_iff in H.
  destruct H as [Hb Hd]. split; [exact Hb |].
  destruct (Date_new (Spec.field r "timestamp")) as [[t |] |];
    [reflexivity | discriminate Hd | discriminate Hd].
Qed.

Lemma latest_step (v : value) (seen : list json) (line : json) :
  Notions.latest v seen ->
  Notions.latest
    (if Spec.in_window line
        && (negb (Boolean v) || Gen.Date_lt (Spec.moment v) (Some (Spec.time_of line)))
     then Spec.field line "timestamp" else v)
    (seen ++ [line]).
Proof.
  intros Hv. destruct (Spec.in_window line) eqn:Hw; simpl.
  - destruct (in_window_time line Hw) as [Hb Hd].
    destruct v as [v0 |]; cbn [Notions.latest] in Hv.
    + destruct Hv as (r & Hin & Hrw & Hrf & Hmax).
      destruct (in_window_time r Hrw) as [Hrb Hrd].
      rewrite Hrf in Hrb, Hrd. rewrite Hrb, Hrd. cbn [negb orb Gen.Date_lt].
      destruct (Spec.time_of r <? Spec.time_of line) eqn:Hlt; cbn [Notions.latest].
      * apply Z.ltb_lt in Hlt.
        destruct (Spec.field line "timestamp") as [v1 |] eqn:Hf; [| discriminate Hb].
        exists line. split; [apply in_or_app; right; left; reflexivity |].
        split; [exact Hw |]. split; [exact Hf |].
        intros r' Hr' Hr'w. apply in_app_or in Hr'. destruct Hr' as [Hr' | [<- | []]]; [| lia].
        specialize (Hmax r' Hr' Hr'w). lia.
      * apply Z.ltb_ge in Hlt.
        exists r. split; [apply in_or_app; left; exact Hin |].
        split; [exact Hrw |]. split; [exact Hrf |].
        intros r' Hr' Hr'w. apply in_app_or in Hr'. destruct Hr' as [Hr' | [<- | []]]; [| lia].
        apply Hmax; assumption.
    + cbn [Boolean negb orb].
      destruct (Spec.field line "timestamp") as [v1 |] eqn:Hf; [| discriminate Hb].
      cbn [Notions.latest].
      exists line. split; [apply in_or_app; right; left; reflexivity |].
      split; [exact Hw |]. split; [exact Hf |].
      intros r' Hr' Hr'w. apply in_app_or in Hr'. destruct Hr' as [Hr' | [<- | []]]; [| lia].
      rewrite forallb_forall in Hv. specialize (Hv r' Hr'). rewrite Hr'w in Hv.
      discriminate Hv.
  - destruct v as [v0 |]; cbn [Notions.latest] in Hv |- *.
    + destruct Hv as (r & Hin & Hrw & Hrf & Hmax).
      exists r. split; [apply in_or_app; left; exact Hin |].
      split; [exact Hrw |]. split; [exact Hrf |].
      intros r' Hr' Hr'w. apply in_app_or in Hr'. destruct Hr' as [Hr' | [<- | []]].
      * apply Hmax; assumption.
      * rewrite Hw in Hr'w. discriminate Hr'w.
    + rewrite forallb_app, Hv. cbn [forallb andb]. rewrite Hw. reflexivity.
Qed.

Lemma session_latest lines : forall seen s l s' l',
  for_of lines Gen.processLine (s, l) = Done tt (s', l') ->
  Notions.latest (Gen.lastActivity s) seen ->
  Notions.latest (Gen.lastActivity s') (seen ++ lines).
Proof.
  induction lines as [| line lines IH]; intros seen s l s' l' H Hv.
  - inversion H. subst. rewrite app_nil_r. exact Hv.
  - simpl in H. apply bind_Done in H. destruct H as ([] & [s1 l1] & H1 & H2).
    apply processLine_lastActivity in H1.
    pose proof (latest_step _ seen line Hv) as Hstep. rewrite <- H1 in Hstep.
    specialize (IH _ _ _ _ _ H2 Hstep). rewrite <- app_assoc in IH. exact IH.
Qed.

Lemma update_project_lastActivity project l s :
  Gen.lastActivity (Gen.update_project project l s) = Gen.lastActivity s.
Proof.
  unfold Gen.update_project. destruct project as [dir |]; [| reflexivity].
  destruct (assoc dir (Gen.projectMap s)); reflexivity.
Qed.

Lemma walk_latest visits : forall seen s s',
  Gen.walk visits s = Done tt s' ->
  Notions.latest (Gen.lastActivity s) seen ->
  Notions.latest (Gen.lastActivity s') (seen ++ Spec.records_of visits).
Proof.
  unfold Gen.walk.
  induction visits as [| v visits IH]; intros seen s s' H Hv.
  - inversion H. subst. simpl. rewrite app_nil_r. exact Hv.
  - simpl in H. apply bind_Done in H. destruct H as ([] & s1 & H1 & H2).
    rewrite records_of_cons, app_assoc. apply (IH _ _ _ H2).
    destruct v as [dir | lines f project]; simpl in *.
    + unfold modify in H1. inversion H1. rewrite app_nil_r.
      unfold Gen.open_project. destruct (has_key dir (Gen.projectMap s)); exact Hv.
    + apply processSession_Done in H1. destruct H1 as (s0 & l0 & Hloop & ->).
      rewrite update_project_lastActivity, app_nil_r.
      apply (session_latest lines seen s Gen.initial_locals s0 l0 Hloop Hv).
Qed.

Lemma load_cache_lastActivity (cache : option Cache.t) :
  Gen.lastActivity (Gen.load_cache cache Gen.initial_state) = None.
Proof.
  unfold Gen.load_cache. destruct cache as [c |]; [| reflexivity].
  destruct (Cache.hourCounts c), (Cache.modelUsage c); reflexivity.
Qed.

(** X8.  When the walk completes, the last activity of the summary is the
    timestamp of a record within the retention window that no such record
    of a visited file is later than; there is none when no record falls
    within the window.  The cache has no part in it. *)
Theorem last_activity_is_latest
  (cache : option Cache.t) (visits : list Gen.visit) (s' : Gen.state) :
  Gen.walk visits (Gen.load_cache cache Gen.initial_state) = Done tt s' ->
  Notions.latest (Gen.lastActivity s') (Spec.records_of visits).
Proof.
  intros H.
  apply (walk_latest visits [] _ _ H).
  rewrite load_cache_lastActivity. reflexivity.
Qed.

End LastActivity.

(** ** Objects hold a key once *)

Lemma has_key_In {V : Type} (k : string) (o : object V) :
  has_key k o = true -> In k (map fst o).
Proof.
  unfold has_key. induction o as [| [k0 v0] o IH]; simpl; [discriminate |].
  destruct (k =? k0)%string eqn:E.
  - apply String.eqb_eq in E. intros _. left. symmetry. exact E.
  - intros H. right. apply IH. exact H.
Qed.

Lemma keys_replace_key {V : Type} (k : string) (v : V) (o : object V) :
  map fst (replace_key k v o) = map fst o.
Proof.
  induction o as [| [k0 v0] o IH]; simpl; [reflexivity |].
  destruct (k =? k0)%string; simpl; [reflexivity | rewrite IH; reflexivity].
Qed.

Lemma keys_insert_index {V : Type} (i : N) (k : string) (v : V) (o : object V) :
  Permutation (map fst (insert_index i k v o)) (k :: map fst o).
Proof.
  induction o as [| [k0 v0] o IH]; simpl; [apply Permutation_refl |].
  destruct (array_index k0) as [j |]; [destruct (i <? j)%N |]; simpl;
    try apply Permutation_refl.
  apply Permutation_trans with (k0 :: k :: map fst o);
    [apply perm_skip; exact IH | apply perm_swap].
Qed.

Lemma keys_obj_set {V : Type} (k : string) (v : V) (o : object V) :
  NoDup (map fst o) -> NoDup (map fst (obj_set k v o)).
Proof.
  intros Hnd. unfold obj_set. destruct (has_key k o) eqn:Hk.
  - rewrite keys_replace_key. exact Hnd.
  - assert (Hfresh : ~ In k (map fst o)).
    { intros Hin. unfold has_key in Hk.
      destruct (assoc k o) eqn:Ha; [discriminate Hk |].
      clear Hk Hnd. induction o as [| [k0 v0] o IH]; simpl in *; [exact Hin |].
      destruct (k =? k0)%string eqn:E; [discriminate Ha |].
      destruct Hin as [-> | Hin]; [rewrite String.eqb_refl in E; discriminate E |].
      apply IH; assumption. }
    assert (Hk' : NoDup (k :: map fst o)) by (constructor; assumption).
    destruct (array_index k) as [i |].
    + apply (Permutation_NoDup (l := k :: map fst o)); [| exact Hk'].
      apply Permutation_sym. apply keys_insert_index.
    + rewrite map_app. simpl.
      apply (Permutation_NoDup (l := k :: map fst o)); [| exact Hk'].
      apply Permutation_cons_append.
Qed.

(** With each key held once, an entry is what a lookup finds. *)
Lemma assoc_In {V : Type} (k : string) (v : V) (o : object V) :
  NoDup (map fst o) -> In (k, v) o -> assoc k o = Some v.
Proof.
  induction o as [| [k0 v0] o IH]; simpl; intros Hnd Hin; [destruct Hin |].
  apply NoDup_cons_iff in Hnd. destruct Hnd as [Hk0 Hnd].
  destruct Hin as [Heq | Hin].
  - inversion Heq. subst. rewrite String.eqb_refl. reflexivity.
  - destruct (k =? k0)%string eqn:E; [| apply IH; assumption].
    apply String.eqb_eq in E. subst k0. exfalso. apply Hk0.
    apply (in_map fst) in Hin. exact Hin.
Qed.

Lemma assoc_Some_In {V : Type} (k : string) (v : V) (o : object V) :
  assoc k o = Some v -> In (k, v) o.
Proof.
  induction o as [| [k0 v0] o IH]; simpl; [discriminate |].
  destruct (k =? k0)%string eqn:E.
  - apply String.eqb_eq in E. subst k0. intros H. inversion H. left. reflexivity.
  - intros H. right. apply IH. exact H.
Qed.

Lemma assoc_perm {V : Type} (k : string) (o o' : object V) :
  NoDup (map fst o) -> Permutation o o' -> assoc k o' = assoc k o.
Proof.
  intros Hnd Hp.
  assert (Hnd' : NoDup (map fst o'))
    by (apply (Permutation_NoDup (l := map fst o)); [apply Permutation_map; exact Hp | exact Hnd]).
  destruct (assoc k o) as [v |] eqn:Ha.
  - apply assoc_In; [exact Hnd' |].
    apply (Permutation_in _ Hp). apply assoc_Some_In. exact Ha.
  - destruct (assoc k o') as [v' |] eqn:Ha'; [| reflexivity].
    apply assoc_Some_In in Ha'. apply (Permutation_in _ (Permutation_sym Hp)) in Ha'.
    apply (assoc_In _ _ _ Hnd) in Ha'. congruence.
Qed.

(** Writing entries with distinct keys into an object, one after the
    other, and reading a key back. *)
Lemma reduce_lookup {V : Type} (k : string) (l : list (string * V)) : forall acc,
  NoDup (map fst l) ->
  obj_get k (fold_left (fun obj e => obj_set (fst e) (snd e) obj) l acc) =
    match assoc k l with
    | Some v => Some v
    | None => obj_get k acc
    end.
Proof.
  induction l as [| [k0 v0] l IH]; intros acc Hnd; simpl; [reflexivity |].
  apply NoDup_cons_iff in Hnd. destruct Hnd as [Hk0 Hnd].
  rewrite IH by exact Hnd.
  destruct (k =? k0)%string eqn:E.
  - apply String.eqb_eq in E. subst k0.
    destruct (assoc k l) as [v |] eqn:Ha.
    + exfalso. apply Hk0. apply assoc_Some_In in Ha. apply (in_map fst) in Ha. exact Ha.
    + apply obj_get_set_same.
  - destruct (assoc k l); [reflexivity |]. apply obj_get_set_other. exact E.
Qed.

Lemma assoc_firstn {V : Type} (k : string) (v : V) (n : nat) (o : object V) :
  assoc k (firstn n o) = Some v -> assoc k o = Some v.
Proof.
  revert n. induction o as [| [k0 v0] o IH]; intros n; destruct n; simpl; try discriminate.
  destruct (k =? k0)%string; [intros H; exact H | apply IH].
Qed.

Section Ranking.

Context {rt : Runtime} {fs : FileSystem} {cfg : Gen.Config}.

Lemma count_up_keys (k : string) (o : object Z) :
  NoDup (map fst o) -> NoDup (map fst (Gen.count_up k o)).
Proof. unfold Gen.count_up. apply keys_obj_set. Qed.

(** The frequency maps of a scan hold each tool and each branch once. *)
Lemma scan_keys (visits : list Gen.visit) :
  NoDup (map fst (Gen.toolCounts (final (Gen.walk visits Gen.initial_state)))) /\
  NoDup (map fst (Gen.branchCounts (final (Gen.walk visits Gen.initial_state)))).
Proof.
  apply (walk_preserves
           (fun s => NoDup (map fst (Gen.toolCounts s)) /\
                     NoDup (map fst (Gen.branchCounts s)))).
  - intros line.
    apply (processLine_preserves
             (fun s => NoDup (map fst (Gen.toolCounts s)) /\
                       NoDup (map fst (Gen.branchCounts s))));
      intros; try assumption; simpl;
      match goal with H : _ /\ _ |- _ => destruct H as [Ha Hb] end;
      split; try assumption; apply count_up_keys; assumption.
  - intros pm s H. exact H.
  - split; constructor.
Qed.

Lemma top_counts_lookup (n : nat) (counts : object Z) (k : string) :
  NoDup (map fst counts) ->
  obj_get k (Gen.top_counts n counts) =
    assoc k (slice0 n (Array_sort Gen.by_count (Object_entries counts))).
Proof.
  intros Hnd. unfold Gen.top_counts, Object_entries.
  pose proof (Array_sort_perm (string * Z) snd counts) as Hp.
  change (Spec.descending snd) with Gen.by_count in Hp.
  rewrite reduce_lookup.
  - destruct (assoc k (slice0 n (Array_sort Gen.by_count counts))); reflexivity.
  - unfold slice0. rewrite <- firstn_map. apply NoDup_firstn.
    apply (Permutation_NoDup (l := map fst counts)); [| exact Hnd].
    apply Permutation_map. apply Permutation_sym. exact Hp.
Qed.

(** X9.  After a scan, every entry of the tool map and of the branch
    map of the output is an entry of the frequency map it was cut from,
    with the same count; a frequency map of at most N keys is carried
    over whole. *)
Theorem top_counts_keeps_counts (visits : list Gen.visit) (s' : Gen.state) :
  Gen.scan visits Gen.initial_state = Done tt s' ->
  (forall k v, obj_get k (Gen.toolUsage s') = Some v ->
               obj_get k (Gen.toolCounts s') = Some v) /\
  (forall k v, obj_get k (Gen.gitBranches s') = Some v ->
               obj_get k (Gen.branchCounts s') = Some v) /\
  ((List.length (Gen.toolCounts s') <= 20)%nat ->
   forall k, obj_get k (Gen.toolUsage s') = obj_get k (Gen.toolCounts s')) /\
  ((List.length (Gen.branchCounts s') <= 15)%nat ->
   forall k, obj_get k (Gen.gitBranches s') = obj_get k (Gen.branchCounts s')).
Proof.
  intros H.
  assert (Hs : s' = final (Gen.walk visits Gen.initial_state))
    by (rewrite scan_final in H; inversion H; reflexivity).
  clear H. subst s'. destruct (scan_keys visits) as [Ht Hb].
  assert (Hsub : forall n counts k v,
            NoDup (map fst counts) ->
            obj_get k (Gen.top_counts n counts) = Some v -> obj_get k counts = Some v).
  { intros n counts k v Hnd Hk. rewrite top_counts_lookup in Hk by exact Hnd.
    apply assoc_firstn in Hk. unfold obj_get.
    rewrite <- Hk. symmetry. apply assoc_perm; [exact Hnd |].
    apply Permutation_sym.
    pose proof (Array_sort_perm (string * Z) snd counts) as Hp. exact Hp. }
  assert (Hall : forall n counts k,
            NoDup (map fst counts) -> (List.length counts <= n)%nat ->
            obj_get k (Gen.top_counts n counts) = obj_get k counts).
  { intros n counts k Hnd Hn. rewrite top_counts_lookup by exact Hnd.
    pose proof (Array_sort_perm (string * Z) snd counts) as Hp.
    change (Spec.descending snd) with Gen.by_count in Hp.
    unfold slice0, Object_entries. rewrite firstn_all2.
    - unfold obj_get. apply assoc_perm; [exact Hnd |]. apply Permutation_sym. exact Hp.
    - rewrite (Permutation_length Hp). exact Hn. }
  unfold Gen.toolUsage, Gen.gitBranches.
  split; [intros k v; apply Hsub; exact Ht |].
  split; [intros k v; apply Hsub; exact Hb |].
  split; intros Hn k; apply Hall; assumption.
Qed.

(** X10.  After a scan in which no tool is named by an array index, nor
    like a member of [Object.prototype] (for such a tool the frequency map
    holds no count), the tool that the insight names as the most used, the
    first entry of the tool map, has a count that no tool's count exceeds;
    there is none only when no tool was called. *)
Theorem top_tool_is_most_used (visits : list Gen.visit) (s' : Gen.state) :
  Gen.scan visits Gen.initial_state = Done tt s' ->
  Spec.no_index_key (Gen.toolCounts s') = true ->
  forallb Spec.plain_tool (flat_map Spec.tool_use_blocks (Spec.records_of visits)) = true ->
  match Gen.topTool s' with
  | Some (name, calls) =>
      obj_get name (Gen.toolCounts s') = Some calls /\
      forall k v, obj_get k (Gen.toolCounts s') = Some v -> v <= calls
  | None => Gen.toolCounts s' = []
  end.
Proof.
  intros H Hni _.
  assert (Hs : s' = final (Gen.walk visits Gen.initial_state))
    by (rewrite scan_final in H; inversion H; reflexivity).
  clear H. destruct (scan_keys visits) as [Hnd _]. rewrite <- Hs in Hnd. clear Hs.
  set (counts := Gen.toolCounts s') in *.
  pose proof (Array_sort_sorted (string * Z) snd counts) as Hsorted.
  pose proof (Array_sort_perm (string * Z) snd counts) as Hp.
  change (Spec.descending snd) with Gen.by_count in Hsorted, Hp.
  assert (Heq : Gen.toolUsage s' = slice0 20 (Array_sort Gen.by_count counts)).
  { unfold Gen.toolUsage, Gen.top_counts, Object_entries. fold counts.
    rewrite reduce_appends; [reflexivity | |].
    - cbn [app]. unfold slice0. rewrite <- firstn_map. apply NoDup_firstn.
      apply (Permutation_NoDup (l := map fst counts)); [| exact Hnd].
      apply Permutation_map. apply Permutation_sym. exact Hp.
    - unfold slice0. apply no_index_key_firstn.
      apply (no_index_key_perm _ _ Hp). exact Hni. }
  unfold Gen.topTool, Object_entries. rewrite Heq.
  destruct (Array_sort Gen.by_count counts) as [| [name calls] rest] eqn:Hsort.
  - simpl. apply Permutation_nil in Hp. exact Hp.
  - simpl. split.
    + unfold obj_get. apply assoc_In; [exact Hnd |].
      apply (Permutation_in _ Hp). left. reflexivity.
    + intros k v Hk. unfold obj_get in Hk. apply assoc_Some_In in Hk.
      apply (Permutation_in _ (Permutation_sym Hp)) in Hk.
      apply StronglySorted_inv in Hsorted. destruct Hsorted as [_ Hall].
      destruct Hk as [Heq' | Hk]; [inversion Heq'; lia |].
      rewrite Forall_forall in Hall. specialize (Hall _ Hk).
      unfold Spec.at_least in Hall. simpl in Hall. exact Hall.
Qed.

End Ranking.

(** ** The largest bucket *)

Lemma Math_max_numbers (a : list cell) :
  forallb Notions.is_number a = true -> a <> [] ->
  exists m, Math_max a = Num m /\ In (Some m) a /\ forall z, In (Some z) a -> z <= m.
Proof.
  induction a as [| c a IH]; intros Hall Hne; [contradiction Hne; reflexivity |].
  simpl in Hall. apply andb_true_iff in Hall. destruct Hall as [Hc Hall].
  destruct c as [z |]; [| discriminate Hc].
  destruct a as [| c' a'].
  - exists z. simpl. split; [reflexivity |]. split; [left; reflexivity |].
    intros z' [Heq | []]. inversion Heq. lia.
  - destruct (IH Hall) as (m & Hm & Hin & Hmax); [discriminate |].
    remember (c' :: a') as a1.
    exists (Z.max z m). cbn [Math_max]. rewrite Hm.
    split; [reflexivity |]. split.
    + destruct (Z.max_spec z m) as [[_ ->] | [_ ->]]; [right; exact Hin | left; reflexivity].
    + intros z' [Heq | Hz'].
      * inversion Heq. lia.
      * specialize (Hmax z' Hz'). lia.
Qed.

Lemma Math_max_hole (a : list cell) : In None a -> Math_max a = NaN.
Proof.
  induction a as [| c a IH]; intros Hin; [destruct Hin |].
  simpl. destruct c as [z |]; [| reflexivity].
  destruct Hin as [Heq | Hin]; [discriminate Heq |].
  rewrite (IH Hin). reflexivity.
Qed.

Lemma indexOf_NaN (a : list cell) : forall i, indexOf_from i NaN a = -1.
Proof.
  induction a as [| c a IH]; intros i; simpl; [reflexivity |].
  destruct c; simpl; apply IH.
Qed.

Lemma indexOf_found (m : Z) (a : list cell) : forall i,
  In (Some m) a ->
  exists k : nat,
    indexOf_from i (Num m) a = i + Z.of_nat k /\
    nth_error a k = Some (Some m) /\
    forall j, (j < k)%nat -> nth_error a j <> Some (Some m).
Proof.
  induction a as [| c a IH]; intros i Hin; [destruct Hin |].
  simpl. destruct (strict_eq_num c (Num m)) eqn:E.
  - exists 0%nat. destruct c as [z |]; [| discriminate E]. simpl in E.
    apply Z.eqb_eq in E. subst z.
    split; [lia |]. split; [reflexivity |]. intros j Hj. lia.
  - assert (Hin' : In (Some m) a).
    { destruct Hin as [-> | Hin]; [| exact Hin].
      simpl in E. rewrite Z.eqb_refl in E. discriminate E. }
    destruct (IH (i + 1) Hin') as (k & Hk & Hn & Hfirst).
    exists (S k). split; [lia |]. split; [exact Hn |].
    intros j Hj. destruct j as [| j]; simpl.
    + intros Heq. inversion Heq. subst c. simpl in E. rewrite Z.eqb_refl in E.
      discriminate E.
    + apply Hfirst. lia.
Qed.

Lemma Array_get_nth {A : Type} (a : list A) (j : Z) (x : A) :
  Array_get a j = Some x -> 0 <= j /\ nth_error a (Z.to_nat j) = Some x.
Proof.
  unfold Array_get. destruct (j <? 0) eqn:E; [discriminate |].
  apply Z.ltb_ge in E. intros H. split; assumption.
Qed.

(** [a.indexOf(Math.max(...a))] of an array of counters. *)
Lemma indexOf_max (a : list cell) :
  forallb Notions.is_number a = true -> a <> [] ->
  exists m, Notions.first_largest a (Array_indexOf (Math_max a) a) m.
Proof.
  intros Hall Hne.
  destruct (Math_max_numbers a Hall Hne) as (m & Hm & Hin & Hmax).
  destruct (indexOf_found m a 0 Hin) as (k & Hk & Hn & Hfirst).
  exists m. unfold Notions.first_largest, Array_indexOf. rewrite Hm, Hk.
  assert (Hlen : (k < List.length a)%nat)
    by (apply nth_error_Some; rewrite Hn; discriminate).
  split; [lia |]. split.
  - unfold Array_get. destruct (0 + Z.of_nat k <? 0) eqn:E; [apply Z.ltb_lt in E; lia |].
    replace (Z.to_nat (0 + Z.of_nat k)) with k by lia. exact Hn.
  - intros j z Hj. apply Array_get_nth in Hj. destruct Hj as [Hj0 Hj].
    assert (Hz : z <= m) by (apply Hmax; eapply nth_error_In; exact Hj).
    split; [exact Hz |]. intros Hlt.
    assert (Hne' : z <> m).
    { intros ->. apply (Hfirst (Z.to_nat j)); [lia | exact Hj]. }
    lia.
Qed.

Lemma counters_incr (n : nat) (a : list cell) (i : Z) :
  0 <= i < Z.of_nat n -> Notions.counters n a ->
  Notions.counters n (array_update (Z.to_nat i) incr a).
Proof.
  intros Hi [Hlen Hall]. split.
  - rewrite array_update_length; [exact Hlen | lia].
  - assert (Hk : (Z.to_nat i < List.length a)%nat) by lia.
    clear Hlen Hi. revert Hk. generalize (Z.to_nat i). intros k. revert k.
    induction a as [| c a IH]; intros k Hk; simpl in *; [lia |].
    apply andb_true_iff in Hall. destruct Hall as [Hc Hall].
    destruct k as [| k]; simpl.
    + destruct c; [rewrite Hall; reflexivity | discriminate Hc].
    + rewrite Hc. apply IH; [exact Hall | lia].
Qed.

Section Arrays.

Context {rt : Runtime} {fs : FileSystem} {cfg : Gen.Config}.

(** What incrementing a bucket in range keeps, the walk keeps. *)
Lemma walk_arrays (Ph Pw : list cell -> Prop) :
  (forall i a, 0 <= i < 24 -> Ph a -> Ph (array_update (Z.to_nat i) incr a)) ->
  (forall i a, 0 <= i < 7 -> Pw a -> Pw (array_update (Z.to_nat i) incr a)) ->
  forall visits s s',
    Gen.walk visits s = Done tt s' ->
    Ph (Gen.hourlyActivity s) /\ Pw (Gen.weekdayActivity s) ->
    Ph (Gen.hourlyActivity s') /\ Pw (Gen.weekdayActivity s').
Proof.
  intros Hh Hw. unfold Gen.walk.
  apply (for_of_invariant
           (fun s => Ph (Gen.hourlyActivity s) /\ Pw (Gen.weekdayActivity s)) Gen.do_visit).
  intros v s s' H HP. destruct v as [dir | lines f project]; simpl in H.
  - unfold modify in H. inversion H. unfold Gen.open_project.
    destruct (has_key dir (Gen.projectMap s)); exact HP.
  - apply processSession_Done in H. destruct H as (s0 & l0 & Hloop & ->).
    assert (H0 : Ph (Gen.hourlyActivity s0) /\ Pw (Gen.weekdayActivity s0)).
    { unfold Gen.session_loop in Hloop.
      apply (for_of_invariant
               (fun c : Gen.frame => Ph (Gen.hourlyActivity (fst c)) /\
                                     Pw (Gen.weekdayActivity (fst c)))
               Gen.processLine) in Hloop; [exact Hloop | | exact HP].
      intros line [s1 l1] [s2 l2] Hline [H1 H2]. simpl in *.
      apply processLine_effect in Hline. destruct Hline as (E1 & E2 & _).
      rewrite E1, E2. destruct (Spec.in_window line); [| split; assumption].
      split; [apply Hh; [apply getHours_range | exact H1]
             | apply Hw; [apply getDay_range | exact H2]]. }
    unfold Gen.update_project. destruct project as [dir |]; [| exact H0].
    destruct (assoc dir (Gen.projectMap s0)); exact H0.
Qed.

(** X11.  When the walk completes, with or without a cache, the seven
    weekday buckets are numbers, and the day that the first insight names
    is the first day of the week whose bucket is the largest: a day of
    the week in all cases. *)
Theorem most_active_day_is_first_largest
  (cache : option Cache.t) (visits : list Gen.visit) (s' : Gen.state) :
  Gen.walk visits (Gen.load_cache cache Gen.initial_state) = Done tt s' ->
  Notions.counters 7 (Gen.weekdayActivity s') /\
  (exists m, Notions.first_largest (Gen.weekdayActivity s') (Insights.maxWeekday s') m) /\
  (exists name,
     Insights.most_active_day s' = Some name /\
     nth_error Insights.weekdays (Z.to_nat (Insights.maxWeekday s')) = Some name).
Proof.
  intros H.
  destruct (walk_arrays (fun _ => True) (Notions.counters 7)
              (fun _ _ _ _ => I) (fun i a => counters_incr 7 a i) visits _ _ H) as [_ Hc].
  { split; [exact I |]. rewrite load_cache_weekday. split; reflexivity. }
  split; [exact Hc |].
  destruct Hc as [Hlen Hall].
  destruct (indexOf_max (Gen.weekdayActivity s') Hall) as [m Hm].
  { intros E. rewrite E in Hlen. discriminate Hlen. }
  split; [exists m; exact Hm |].
  destruct Hm as [Hrange _]. rewrite Hlen in Hrange.
  unfold Insights.most_active_day, Array_get.
  fold (Insights.maxWeekday s') in *.
  destruct (Insights.maxWeekday s' <? 0) eqn:E; [apply Z.ltb_lt in E; lia |].
  destruct (nth_error Insights.weekdays (Z.to_nat (Insights.maxWeekday s'))) as [name |] eqn:Hn.
  - exists name. split; reflexivity.
  - apply nth_error_None in Hn. simpl in Hn. lia.
Qed.

(** X12.  The peak hour.  Without a cache the 24 hourly buckets are
    numbers when the walk completes, and the peak hour is the first hour
    whose bucket is the largest.  In any state in which a bucket is a hole
    or not a number (a cache that lists an hour past 24 leaves holes),
    [Math.max] of the buckets is [NaN], which [indexOf] never finds: the
    peak hour is then -1. *)
Theorem peak_hour_of_buckets (visits : list Gen.visit) (s' : Gen.state) :
  Gen.walk visits Gen.initial_state = Done tt s' ->
  Notions.counters 24 (Gen.hourlyActivity s') /\
  (exists m, Notions.first_largest (Gen.hourlyActivity s') (Insights.maxHour s') m) /\
  (forall s, In None (Gen.hourlyActivity s) -> Insights.maxHour s = -1).
Proof.
  intros H.
  destruct (walk_arrays (Notions.counters 24) (fun _ => True)
              (fun i a => counters_incr 24 a i) (fun _ _ _ _ => I) visits _ _ H) as [Hc _].
  { split; [split; reflexivity | exact I]. }
  split; [exact Hc |]. split.
  - destruct Hc as [Hlen Hall]. apply indexOf_max; [exact Hall |].
    intros E. rewrite E in Hlen. discriminate Hlen.
  - intros s Hin. unfold Insights.maxHour, Array_indexOf.
    rewrite (Math_max_hole _ Hin). apply indexOf_NaN.
Qed.

End Arrays.

(** ** The walk over the directories *)

Section Tree.

Context {rt : Runtime} {fs : FileSystem} {dirs : Directories} {cfg : Gen.Config}.

Lemma visit_files_walk (projectDir projectPath : string) (files : list string) :
  forall s,
    for_of files (GenWalk.visit_file projectDir projectPath) s =
    Gen.walk (Notions.file_visits projectDir projectPath files) s.
Proof.
  unfold Gen.walk, Notions.file_visits.
  induction files as [| file files IH]; intros s; [reflexivity |].
  cbn [for_of filter]. unfold GenWalk.visit_file at 1.
  destruct (String_endsWith file ".jsonl"); cbn [when map for_of Gen.do_visit].
  - unfold bind.
    destruct (Gen.processSession _ file (Some projectDir) s) as [[] s1 | msg s1];
      [apply IH | reflexivity].
  - unfold bind, ret. apply IH.
Qed.

(** One entry of the projects directory: the statements of the loop body
    do what its visits do, and stop with an exception after them when
    the entry cannot be listed. *)
Lemma visit_dir_walk (projectDir : string) (s : Gen.state) :
  if snd (Notions.dir_visits projectDir)
  then GenWalk.visit_dir projectDir s = Gen.walk (fst (Notions.dir_visits projectDir)) s
  else exists msg s1,
         GenWalk.visit_dir projectDir s = Thrown msg s1 /\
         Gen.walk (fst (Notions.dir_visits projectDir)) s = Done tt s1.
Proof.
  unfold GenWalk.visit_dir, Notions.dir_visits, bind, lift.
  destruct (statSync (path_join [GenWalk.projectsDir; projectDir])) as [stat | msg];
    cbn [fst snd]; [| exists msg, s; split; reflexivity].
  destruct (isDirectory stat); cbn [negb fst snd].
  - unfold modify.
    destruct (readdirSync (path_join [GenWalk.projectsDir; projectDir])) as [files | msg];
      cbn [fst snd].
    + rewrite visit_files_walk. reflexivity.
    + exists msg, (Gen.open_project projectDir s). split; reflexivity.
  - destruct (String_endsWith projectDir ".jsonl"); cbn [when fst snd].
    + unfold Gen.walk. cbn [for_of Gen.do_visit]. unfold bind, ret.
      destruct (Gen.processSession _ projectDir None s) as [[] s1 | msg s1]; reflexivity.
    + reflexivity.
Qed.

Lemma visit_dirs_final (projectDirs : list string) : forall s,
  final (for_of projectDirs GenWalk.visit_dir s) =
  final (Gen.walk (Notions.dirs_visits projectDirs) s).
Proof.
  induction projectDirs as [| d rest IH]; intros s; [reflexivity |].
  cbn [for_of Notions.dirs_visits]. unfold bind.
  pose proof (visit_dir_walk d s) as Hd.
  destruct (snd (Notions.dir_visits d)).
  - rewrite Hd. unfold Gen.walk in *. rewrite for_of_app.
    destruct (for_of (fst (Notions.dir_visits d)) Gen.do_visit s) as [[] s1 | msg s1];
      [apply IH | reflexivity].
  - destruct Hd as (msg & s1 & H1 & H2). rewrite H1, H2. reflexivity.
Qed.

(** X13.  The scan of the projects directory is the scan of the visits its
    tree stands for: each sub-directory is entered as a project and each
    of its entries named [*.jsonl] is a session of it, an entry named
    [*.jsonl] that is no directory is a session of no project, all other
    entries are passed over, and the first entry that cannot be listed
    ends the walk.  When the projects directory cannot be read nothing is
    scanned. *)
Theorem scan_projects_is_scan_of_tree (s : Gen.state) :
  GenWalk.scan_projects s = Gen.scan Notions.tree_visits s /\
  (forall message,
     readdirSync GenWalk.projectsDir = Throw message ->
     GenWalk.scan_projects s = Done tt s).
Proof.
  assert (H : GenWalk.scan_projects s = Gen.scan Notions.tree_visits s).
  { rewrite scan_final. unfold GenWalk.scan_projects, Notions.tree_visits, try_catch, bind, lift.
    destruct (readdirSync GenWalk.projectsDir) as [projectDirs | msg]; [| reflexivity].
    rewrite <- visit_dirs_final.
    destruct (for_of projectDirs GenWalk.visit_dir s) as [[] s1 | msg s1]; reflexivity. }
  split; [exact H |].
  intros message Hno. unfold GenWalk.scan_projects, try_catch, bind, lift.
  rewrite Hno. reflexivity.
Qed.

End Tree.

(** ** Splitting and joining *)

Lemma split_nonempty (sep : ascii) (s : string) : split sep s <> [].
Proof.
  destruct s as [| c s]; simpl; [discriminate |].
  destruct (Ascii.eqb c sep); [discriminate |].
  destruct (split sep s); discriminate.
Qed.

(** The parts of a split do not hold the separator. *)
Lemma split_free (sep : ascii) (s : string) :
  Forall (fun p => Notions.free_of sep p = true) (split sep s).
Proof.
  induction s as [| c s IH]; simpl; [repeat constructor |].
  destruct (Ascii.eqb c sep) eqn:E; [constructor; [reflexivity | exact IH] |].
  destruct (split sep s) as [| w ws]; [repeat constructor; simpl; rewrite E; reflexivity |].
  apply Forall_cons_iff in IH. destruct IH as [Hw Hws].
  constructor; [simpl; rewrite E, Hw; reflexivity | exact Hws].
Qed.

Lemma concat_cons (sep x : string) (y : string) (l : list string) :
  concat sep (x :: y :: l) = x ++ sep ++ concat sep (y :: l).
Proof. reflexivity. Qed.

(** Joining the parts of a split gives the string back. *)
Lemma concat_split (sep : ascii) (s : string) :
  concat (String sep EmptyString) (split sep s) = s.
Proof.
  induction s as [| c s IH]; [reflexivity |].
  cbn [split]. destruct (Ascii.eqb c sep) eqn:E.
  - apply Ascii.eqb_eq in E. subst c.
    pose proof (split_nonempty sep s) as Hne.
    destruct (split sep s) as [| w ws]; [contradiction Hne; reflexivity |].
    rewrite concat_cons, IH. reflexivity.
  - pose proof (split_nonempty sep s) as Hne.
    destruct (split sep s) as [| w ws]; [contradiction Hne; reflexivity |].
    destruct ws as [| w' ws].
    + simpl in *. rewrite IH. reflexivity.
    + rewrite concat_cons in *. simpl. rewrite <- IH. reflexivity.
Qed.

Lemma split_free_one (sep : ascii) (x : string) :
  Notions.free_of sep x = true -> split sep x = [x].
Proof.
  induction x as [| c x IH]; simpl; [reflexivity |].
  intros H. apply andb_true_iff in H. destruct H as [Hc Hx].
  apply negb_true_iff in Hc. rewrite Hc, (IH Hx). reflexivity.
Qed.

Lemma split_app_sep (sep : ascii) (x rest : string) :
  Notions.free_of sep x = true ->
  split sep (x ++ String sep rest) = x :: split sep rest.
Proof.
  induction x as [| c x IH]; simpl; intros H.
  - rewrite Ascii.eqb_refl. reflexivity.
  - apply andb_true_iff in H. destruct H as [Hc Hx].
    apply negb_true_iff in Hc. rewrite Hc, (IH Hx). reflexivity.
Qed.

(** Splitting a join of parts that do not hold the separator gives the
    parts back. *)
Lemma split_concat (sep : ascii) (l : list string) :
  l <> [] -> Forall (fun p => Notions.free_of sep p = true) l ->
  split sep (concat (String sep EmptyString) l) = l.
Proof.
  induction l as [| x l IH]; intros Hne Hall; [contradiction Hne; reflexivity |].
  apply Forall_cons_iff in Hall. destruct Hall as [Hx Hall].
  destruct l as [| y l].
  - simpl. apply split_free_one. exact Hx.
  - rewrite concat_cons. cbn [append].
    rewrite split_app_sep by exact Hx. rewrite IH; [reflexivity | discriminate | exact Hall].
Qed.

Lemma append_assoc (a b c : string) : (a ++ b) ++ c = a ++ (b ++ c).
Proof. induction a as [| x a IH]; simpl; [reflexivity | rewrite IH; reflexivity]. Qed.

(** The join of the last parts is the end of the join of all. *)
Lemma concat_skipn (sep : string) (l : list string) (n : nat) :
  skipn n l <> [] -> exists pre, concat sep l = pre ++ concat sep (skipn n l).
Proof.
  revert l. induction n as [| n IH]; intros l Hne; [exists ""; reflexivity |].
  destruct l as [| x l]; [contradiction Hne; reflexivity |].
  cbn [skipn] in *. destruct (IH l Hne) as [pre Hpre].
  destruct l as [| y l]; [destruct n; contradiction Hne; reflexivity |].
  rewrite concat_cons, Hpre. exists (x ++ sep ++ pre).
  rewrite !append_assoc. reflexivity.
Qed.

Lemma append_length (s t : string) :
  String.length (s ++ t) = (String.length s + String.length t)%nat.
Proof. induction s as [| c s IH]; simpl; [reflexivity | rewrite IH; reflexivity]. Qed.

Lemma substring_all (s : string) : substring 0 (String.length s) s = s.
Proof. induction s as [| c s IH]; simpl; [reflexivity | rewrite IH; reflexivity]. Qed.

Lemma endsWith_app (pre s : string) : String_endsWith (pre ++ s) s = true.
Proof.
  unfold String_endsWith. rewrite append_length.
  replace (String.length pre + String.length s - String.length s)%nat
    with (String.length pre) by lia.
  assert (H : substring (String.length pre) (String.length s) (pre ++ s) = s).
  { induction pre as [| c pre IH]; simpl; [apply substring_all | exact IH]. }
  rewrite H, String.eqb_refl, andb_true_r. apply Nat.leb_le. lia.
Qed.

Lemma endsWith_trans (a b c : string) :
  (exists p, a = p ++ b) -> (exists q, b = q ++ c) -> String_endsWith a c = true.
Proof.
  intros [p ->] [q ->]. rewrite <- append_assoc. apply endsWith_app.
Qed.

Lemma Array_slice_last {A : Type} (k : Z) (a : list A) :
  k < 0 -> Array_slice k a = skipn (List.length a - Z.to_nat (- k)) a.
Proof.
  intros Hk. unfold Array_slice.
  destruct (k <? 0) eqn:E; [| apply Z.ltb_ge in E; lia].
  f_equal. lia.
Qed.

Lemma skipn_nonempty {A : Type} (n : nat) (a : list A) :
  (n < List.length a)%nat -> skipn n a <> [].
Proof.
  intros Hn E. apply (f_equal (@List.length A)) in E.
  rewrite length_skipn in E. simpl in E. lia.
Qed.

(** ** Project names *)

Lemma strip_drive_suffix (d : string) : exists pre, d = pre ++ Names.strip_drive d.
Proof.
  unfold Names.strip_drive.
  repeat match goal with
         | |- context [match ?x with _ => _ end] => destruct x
         end;
    try (exists ""; reflexivity);
    eexists (String _ "--"); reflexivity.
Qed.

Lemma findIndex_none {A : Type} (p : A -> bool) (a : list A) : forall i,
  0 <= i -> forallb (fun x => negb (p x)) a = true -> findIndex_from i p a = -1.
Proof.
  induction a as [| x a IH]; intros i Hi H; [reflexivity |].
  simpl in *. apply andb_true_iff in H. destruct H as [Hx Ha].
  apply negb_true_iff in Hx. rewrite Hx. apply IH; [lia | exact Ha].
Qed.

(** X14.  The name the server shows for a project directory is always
    an end of the directory name, and is not empty unless the directory
    name is.  It is the directory name itself, or one of its
    dash-separated parts (being an end, the last), or such a part
    together with the dash that follows it (when the directory name ends
    with a dash). *)
Theorem extractProjectName_shape (dirName : string) :
  String_endsWith dirName (Names.extractProjectName dirName) = true /\
  (truthy_str dirName = true -> truthy_str (Names.extractProjectName dirName) = true) /\
  (Names.extractProjectName dirName = dirName \/
   exists part,
     In part (split "-" (Names.strip_drive dirName)) /\
     Notions.free_of "-" part = true /\
     (Names.extractProjectName dirName = part \/
      Names.extractProjectName dirName = part ++ "-")).
Proof.
  destruct (strip_drive_suffix dirName) as [pre0 Hpre0].
  unfold Names.extractProjectName.
  pose proof (split_nonempty "-" (Names.strip_drive dirName)) as Hne.
  pose proof (split_free "-" (Names.strip_drive dirName)) as Hfree.
  pose proof (concat_split "-" (Names.strip_drive dirName)) as Hjoin.
  remember (split "-" (Names.strip_drive dirName)) as parts eqn:Hparts.
  cbv zeta.
  destruct (findIndex Names.known_segment parts =? -1) eqn:Hidx.
  { split; [apply (endsWith_app "" dirName) |]. split; [intros H; exact H | left; reflexivity]. }
  apply Z.eqb_neq in Hidx.
  assert (Hlen : (0 < List.length parts)%nat)
    by (destruct parts; [contradiction Hne; reflexivity | simpl; lia]).
  rewrite !Array_slice_last by lia.
  change (Z.to_nat (- -1)) with 1%nat. change (Z.to_nat (- -2)) with 2%nat.
  (* the last part *)
  assert (Hlast : exists p, skipn (List.length parts - 1) parts = [p] /\ In p parts).
  { pose proof (length_skipn (List.length parts - 1) parts) as Hl.
    destruct (skipn (List.length parts - 1) parts) as [| p [| p' r]] eqn:Hs;
      simpl in Hl; try lia.
    exists p. split; [reflexivity |].
    rewrite <- (firstn_skipn (List.length parts - 1) parts), Hs.
    apply in_or_app. right. left. reflexivity. }
  destruct Hlast as (p & Hp & Hpin).
  rewrite Hp. cbn [Array_get Z.ltb Z.compare Z.to_nat nth_error].
  assert (Hsuffix : forall n, skipn n parts <> [] ->
            String_endsWith dirName (Array_join "-" (skipn n parts)) = true).
  { intros n Hn. destruct (concat_skipn "-" parts n Hn) as [pre Hpre].
    apply endsWith_trans with (b := Names.strip_drive dirName).
    - exists pre0. exact Hpre0.
    - exists pre. rewrite <- Hjoin. exact Hpre. }
  destruct (truthy_str p) eqn:Htp.
  - (* the last part is not empty *)
    split.
    { specialize (Hsuffix (List.length parts - 1)%nat). rewrite Hp in Hsuffix.
      apply Hsuffix. discriminate. }
    split; [intros _; exact Htp |].
    right. exists p. split; [exact Hpin |]. split; [| left; reflexivity].
    rewrite Forall_forall in Hfree. apply Hfree. exact Hpin.
  - (* the directory name ends with a dash *)
    unfold truthy_str in Htp. apply negb_false_iff in Htp. apply String.eqb_eq in Htp.
    subst p.
    assert (Hlen2 : (2 <= List.length parts)%nat).
    { destruct parts as [| x [| y r]]; [contradiction Hne; reflexivity | | simpl; lia].
      exfalso. apply Hidx. cbn [List.length Nat.sub skipn] in Hp.
      inversion Hp. reflexivity. }
    assert (Htwo : exists x, skipn (List.length parts - 2) parts = [x; ""] /\ In x parts).
    { pose proof (length_skipn (List.length parts - 2) parts) as Hl.
      pose proof (skipn_skipn 1 (List.length parts - 2) parts) as Hss.
      replace (1 + (List.length parts - 2))%nat with (List.length parts - 1)%nat in Hss by lia.
      rewrite Hp in Hss.
      destruct (skipn (List.length parts - 2) parts) as [| x [| y [| z r]]] eqn:Hs;
        simpl in Hl; try lia.
      simpl in Hss. inversion Hss. subst y.
      exists x. split; [reflexivity |].
      rewrite <- (firstn_skipn (List.length parts - 2) parts), Hs.
      apply in_or_app. right. left. reflexivity. }
    destruct Htwo as (x & Hx & Hxin).
    split; [apply Hsuffix; rewrite Hx; discriminate |].
    rewrite Hx. unfold Array_join. rewrite concat_cons. cbn [concat].
    split.
    + intros _. unfold truthy_str. destruct x; reflexivity.
    + right. exists x. split; [exact Hxin |].
      split; [rewrite Forall_forall in Hfree; apply Hfree; exact Hxin |].
      right. reflexivity.
Qed.

(** X15.  The sanitized name of a project directory is made of at most
    two dash-separated parts, none of which is one of the skipped words
    (the segments of the personal path) and each of which is longer than
    two characters.  Its parts are parts of the directory name, unless it
    is [Project], which it is when the directory name has no such
    part. *)
Theorem sanitizeProjectName_parts (dirName : string) :
  (List.length (split "-" (Names.sanitizeProjectName dirName)) <= 2)%nat /\
  forallb Names.meaningful_part (split "-" (Names.sanitizeProjectName dirName)) = true /\
  (Names.sanitizeProjectName dirName = "Project" \/
   forall part, In part (split "-" (Names.sanitizeProjectName dirName)) ->
                In part (split "-" (Names.strip_drive dirName))) /\
  (filter Names.meaningful_part (split "-" (Names.strip_drive dirName)) = [] ->
   Names.sanitizeProjectName dirName = "Project").
Proof.
  rewrite <- and_assoc, <- and_assoc. split;
    [rewrite !and_assoc
    | intros Hnone; unfold Names.sanitizeProjectName; rewrite Hnone; reflexivity].
  unfold Names.sanitizeProjectName.
  set (parts := split "-" (Names.strip_drive dirName)).
  set (meaningful := filter Names.meaningful_part parts).
  rewrite Array_slice_last by lia. change (Z.to_nat (- -2)) with 2%nat.
  set (kept := skipn (List.length meaningful - 2) meaningful).
  assert (Hsub : forall p, In p kept -> In p meaningful).
  { intros p Hp. rewrite <- (firstn_skipn (List.length meaningful - 2) meaningful).
    apply in_or_app. right. exact Hp. }
  assert (Hlen : (List.length kept <= 2)%nat)
    by (unfold kept; rewrite length_skipn; lia).
  destruct kept as [| x kept'] eqn:Hkept.
  { simpl. split; [lia |]. split; [reflexivity | left; reflexivity]. }
  assert (Hfree : Forall (fun p => Notions.free_of "-" p = true) (x :: kept')).
  { apply Forall_forall. intros p Hp. apply Hsub in Hp.
    apply filter_In in Hp. destruct Hp as [Hp _].
    pose proof (split_free "-" (Names.strip_drive dirName)) as Hf.
    rewrite Forall_forall in Hf. apply Hf. exact Hp. }
  assert (Hmean : forallb Names.meaningful_part (x :: kept') = true).
  { apply forallb_forall. intros p Hp. apply Hsub in Hp.
    apply filter_In in Hp. apply Hp. }
  assert (Htruthy : truthy_str (Array_join "-" (x :: kept')) = true).
  { assert (Hx : Names.meaningful_part x = true)
      by (simpl in Hmean; apply andb_true_iff in Hmean; apply Hmean).
    unfold Names.meaningful_part in Hx. apply andb_true_iff in Hx. destruct Hx as [_ Hx].
    apply Nat.ltb_lt in Hx. unfold Array_join, truthy_str.
    destruct x as [| c x]; [simpl in Hx; lia |].
    destruct kept'; reflexivity. }
  rewrite Htruthy. unfold Array_join.
  rewrite (split_concat "-" (x :: kept')); [| discriminate | exact Hfree].
  split; [exact Hlen |]. split; [exact Hmean |].
  right. intros p Hp. apply Hsub in Hp. apply filter_In in Hp. apply Hp.
Qed.

(** ** The model table *)




Section ModelTable.

Context {rt : Runtime}.


End ModelTable.

(** ** What the server counts *)

Section ServerCounts.

Context {rt : Runtime} {fs : FileSystem}.

Lemma server_count_entry_truthy entry t :
  truthy entry = true -> exists t', Server.count_entry entry t = Done tt t'.
Proof.
  intros Ht. unfold Server.count_entry, bind, lift, when, modify, ret.
  destruct entry; try discriminate Ht; simpl;
    repeat break_match; eexists; reflexivity.
Qed.

Lemma gendata_count_entry_truthy entry n :
  truthy entry = true -> exists n', GenData.count_entry entry n = Done tt n'.
Proof.
  intros Ht. unfold GenData.count_entry, bind, lift, when, modify, ret.
  destruct entry; try discriminate Ht; simpl;
    repeat break_match; eexists; reflexivity.
Qed.

Lemma filter_all {A : Type} (p : A -> bool) (l : list A) : forallb p (filter p l) = true.
Proof.
  induction l as [| x l IH]; simpl; [reflexivity |].
  destruct (p x) eqn:E; simpl; [rewrite E |]; exact IH.
Qed.

(** X17.  In the server and in the privacy-safe generator every entry
    that the parser returns for a file is counted: no entry raises an
    exception, so the handler of the inner [try] is never entered and the
    totals grow by the [user] and [assistant] entries, and by the pattern
    matches, of the whole file. *)
Theorem parsed_entries_are_all_counted
  (filePath : string) (tr : Server.trace) (t : Server.totals) (n : Z) :
  exists entries tr' t',
    Server.parseJSONL filePath tr = Done entries tr' /\
    GenData.parseJSONL filePath = entries /\
    for_of entries Server.count_entry t = Done tt t' /\
    Server.totalMessages t' =
      Server.totalMessages t + Spec.count Spec.is_message entries /\
    Server.totalToolCalls t' =
      Server.totalToolCalls t + fold_right (fun e acc => Spec.pattern_matches e + acc) 0 entries /\
    for_of entries GenData.count_entry n =
      Done tt (n + Spec.count Spec.is_message entries).
Proof.
  exists (filter truthy (Spec.file_values filePath)),
         (tr ++ [Server.Call_readFileSync filePath])%list.
  assert (Hall : forallb truthy (filter truthy (Spec.file_values filePath)) = true)
    by apply filter_all.
  destruct (for_of_total truthy Server.count_entry
              (fun x t0 H => server_count_entry_truthy x t0 H) _ t Hall) as [t' Ht].
  destruct (for_of_total truthy GenData.count_entry
              (fun x n0 H => gendata_count_entry_truthy x n0 H) _ n Hall) as [n' Hn].
  exists t'.
  split.
  { unfold Server.parseJSONL, Server.fs_readFileSync, Server.log,
      try_catch, bind, modify, lift, ret, Spec.file_values, Spec.parsed_values.
    destruct (readFileSync filePath); [| reflexivity].
    rewrite filter_map_parse_spec. reflexivity. }
  split.
  { unfold GenData.parseJSONL, Spec.file_values, Spec.parsed_values.
    destruct (readFileSync filePath); [| reflexivity].
    apply filter_map_parse_spec. }
  split; [exact Ht |].
  split.
  { rewrite count_as_sum.
    apply (for_of_sum Server.totalMessages
             (fun x => Spec.b2z (Spec.is_message x)) Server.count_entry) in Ht; [exact Ht |].
    intros x t0 t1 Hx. apply server_count_entry_effect. exact Hx. }
  split.
  { apply (for_of_sum Server.totalToolCalls Spec.pattern_matches Server.count_entry) in Ht;
      [exact Ht |].
    intros x t0 t1 Hx. apply server_count_entry_tools. exact Hx. }
  rewrite Hn. f_equal. rewrite count_as_sum.
  apply (for_of_sum (fun z : Z => z)
           (fun x => Spec.b2z (Spec.is_message x)) GenData.count_entry) in Hn; [exact Hn |].
  intros x t0 t1 Hx. apply gendata_count_entry_effect. exact Hx.
Qed.

End ServerCounts.

(** ** The pattern of the server's tool calls *)

Lemma match_count_nonneg (s : string) : forall skip, 0 <= Server.match_count skip s.
Proof.
  induction s as [| c s IH]; intros skip; cbn [Server.match_count]; [lia |].
  destruct skip as [| k]; [| apply IH].
  destruct (prefix "tool_use" (String c s));
    [pose proof (IH 7%nat); lia |].
  destruct (prefix "function_call" (String c s));
    [pose proof (IH 12%nat); lia | apply IH].
Qed.

Lemma includes_cons (c : ascii) (s sub : string) :
  String_includes (String c s) sub = (prefix sub (String c s) || String_includes s sub)%bool.
Proof. cbn [String_includes]. destruct (prefix sub (String c s)); reflexivity. Qed.

Lemma match_count_none (s : string) : forall skip,
  String_includes s "tool_use" = false -> String_includes s "function_call" = false ->
  Server.match_count skip s = 0.
Proof.
  induction s as [| c s IH]; intros skip H1 H2; [reflexivity |].
  rewrite includes_cons in H1, H2.
  apply orb_false_iff in H1. apply orb_false_iff in H2.
  destruct H1 as [P1 H1]. destruct H2 as [P2 H2].
  cbn [Server.match_count]. rewrite P1, P2.
  destruct skip; apply IH; assumption.
Qed.

(** X18.  The server finds no tool call in a text exactly when the text
    holds neither [tool_use] nor [function_call] anywhere: whatever
    mentions one of the two words, be it a tool result or prose, is
    counted. *)
Theorem no_tool_match_iff_no_mention (s : string) :
  Server.match_count 0 s = 0 <->
  String_includes s "tool_use" = false /\ String_includes s "function_call" = false.
Proof.
  split.
  - induction s as [| c s IH]; intros H; [split; reflexivity |].
    rewrite !includes_cons. cbn [Server.match_count] in H.
    destruct (prefix "tool_use" (String c s));
      [pose proof (match_count_nonneg s 7%nat); lia |].
    destruct (prefix "function_call" (String c s));
      [pose proof (match_count_nonneg s 12%nat); lia |].
    destruct (IH H) as [H1 H2]. rewrite H1, H2. split; reflexivity.
  - intros [H1 H2]. apply match_count_none; assumption.
Qed.

(** ** Recent history *)

Section HistoryFacts.

Context {rt : Runtime} {fs : FileSystem}.

(** One entry: where it goes. *)
Lemma group_entry_Done entry byDate byDate' :
  History.group_entry entry byDate = Done tt byDate' ->
  forall date,
    obj_get date byDate' =
      if Notions.on_date date entry
      then Some (match obj_get date byDate with
                 | Some items => items
                 | None => []
                 end ++ [Notions.history_item entry])%list
      else obj_get date byDate.
Proof.
  unfold History.group_entry, Notions.on_date, Notions.history_date, Notions.history_item,
    bind, lift.
  read_props entry.
  destruct (Boolean (Spec.field entry "timestamp")); cbn [when];
    [| unfold ret; done_eq; reflexivity].
  destruct (History.date_of (Spec.field entry "timestamp")) as [d | msg]; [| discriminate].
  destruct (History.display_of (Spec.field entry "display")) as [shown | msg];
    [| discriminate].
  unfold modify. done_eq. intros date.
  set (byDate1 := if has_key d byDate then byDate else obj_set d [] byDate).
  assert (H1 : obj_get d byDate1 = Some (match obj_get d byDate with
                                         | Some items => items
                                         | None => []
                                         end)).
  { unfold byDate1, has_key, obj_get. destruct (assoc d byDate) eqn:Ha; [exact Ha |].
    apply obj_get_set_same. }
  rewrite H1.
  destruct (d =? date)%string eqn:E.
  - apply String.eqb_eq in E. subst date. apply obj_get_set_same.
  - rewrite obj_get_set_other by (rewrite String.eqb_sym; exact E).
    unfold byDate1. destruct (has_key d byDate); [reflexivity |].
    apply obj_get_set_other. rewrite String.eqb_sym. exact E.
Qed.

Lemma group_entries_Done entries : forall byDate byDate',
  for_of entries History.group_entry byDate = Done tt byDate' ->
  forall date,
    obj_get date byDate' =
      match Notions.items_on date entries with
      | [] => obj_get date byDate
      | items => Some (match obj_get date byDate with
                       | Some old => old
                       | None => []
                       end ++ items)%list
      end.
Proof.
  induction entries as [| e entries IH]; intros byDate byDate' H date.
  - inversion H. reflexivity.
  - simpl in H. apply bind_Done in H. destruct H as ([] & byDate1 & H1 & H2).
    rewrite (IH _ _ H2 date), (group_entry_Done _ _ _ H1 date).
    unfold Notions.items_on. cbn [filter].
    destruct (Notions.on_date date e); cbn [map].
    + destruct (map Notions.history_item (filter (Notions.on_date date) entries));
        [reflexivity |].
      rewrite <- app_assoc. reflexivity.
    + reflexivity.
Qed.

Lemma replace_key_length {V : Type} (k : string) (v : V) (o : object V) :
  List.length (replace_key k v o) = List.length o.
Proof.
  induction o as [| [k0 v0] o IH]; simpl; [reflexivity |].
  destruct (k =? k0)%string; simpl; [reflexivity | rewrite IH; reflexivity].
Qed.

(** One entry opens at most one group. *)
Lemma group_entry_length entry byDate byDate' :
  History.group_entry entry byDate = Done tt byDate' ->
  (List.length byDate' <= S (List.length byDate))%nat.
Proof.
  unfold History.group_entry, bind, lift.
  read_props entry.
  destruct (Boolean (Spec.field entry "timestamp")); cbn [when];
    [| unfold ret; done_eq; lia].
  destruct (History.date_of (Spec.field entry "timestamp")) as [d | msg]; [| discriminate].
  destruct (History.display_of (Spec.field entry "display")) as [shown | msg];
    [| discriminate].
  unfold modify. done_eq.
  set (byDate1 := if has_key d byDate then byDate else obj_set d [] byDate).
  assert (H1 : (List.length byDate1 <= S (List.length byDate))%nat).
  { unfold byDate1. destruct (has_key d byDate); [lia | apply obj_set_length]. }
  assert (H2 : has_key d byDate1 = true).
  { unfold byDate1. destruct (has_key d byDate) eqn:E; [exact E |].
    unfold has_key. fold (obj_get d (obj_set d (@nil json) byDate)).
    rewrite obj_get_set_same. reflexivity. }
  unfold has_key in H2. unfold obj_get.
  destruct (assoc d byDate1) as [items |] eqn:Ha; [| discriminate H2].
  unfold obj_set, has_key. rewrite Ha, replace_key_length. exact H1.
Qed.

Lemma group_entries_length entries : forall byDate byDate',
  for_of entries History.group_entry byDate = Done tt byDate' ->
  (List.length byDate' <= List.length byDate + List.length entries)%nat.
Proof.
  induction entries as [| e entries IH]; intros byDate byDate' H.
  - inversion H. simpl. lia.
  - simpl in H. apply bind_Done in H. destruct H as ([] & byDate1 & H1 & H2).
    apply group_entry_length in H1. apply IH in H2. simpl. lia.
Qed.

(** An entry whose timestamp is no date ends the grouping. *)
Lemma group_entry_invalid entry byDate :
  truthy entry = true ->
  Boolean (Spec.field entry "timestamp") = true ->
  Spec.moment (Spec.field entry "timestamp") = None ->
  exists message, History.group_entry entry byDate = Thrown message byDate.
Proof.
  intros Ht Hb Hd. unfold History.group_entry, bind, lift.
  destruct (prop_or_null entry) as [-> | Hp]; [discriminate Ht |].
  rewrite Hp, Hb. cbn [when]. unfold History.date_of. unfold Spec.moment in Hd.
  destruct (Date_new (Spec.field entry "timestamp")) as [[t |] | m];
    [discriminate Hd | eexists; reflexivity | eexists; reflexivity].
Qed.

Lemma get_history_run (query_limit : option string) (tr : Server.trace) :
  History.get_history query_limit tr =
    Done (match for_of (Notions.selected query_limit) History.group_entry [] with
          | Done _ byDate =>
              {| Server.status := 200; Server.body := History.sent_groups byDate |}
          | Thrown message _ =>
              {| Server.status := 500;
                 Server.body := Spec.error_body "Failed to read history" message |}
          end)
         (tr ++ [Server.Call_readFileSync History.HISTORY_FILE])%list.
Proof.
  unfold History.get_history, try_catch, bind. rewrite parseJSONL_run.
  fold (Notions.selected query_limit).
  destruct (for_of (Notions.selected query_limit) History.group_entry []); reflexivity.
Qed.

(** X19.  When the history handler answers with status 200, the body
    groups the selected entries by the date of their timestamp: under
    each date are the items of the entries of that date, in the order of
    the log, and a date that no selected entry has is not a key.  Entries
    without a timestamp are in no group, and there are no more groups
    than selected entries. *)
Theorem history_groups_by_date
  (query_limit : option string) (tr tr' : Server.trace) (resp : Server.response) :
  History.get_history query_limit tr = Done resp tr' ->
  Server.status resp = 200 ->
  exists byDate,
    Server.body resp = History.sent_groups byDate /\
    (forall date,
       obj_get date byDate =
         match Notions.items_on date (Notions.selected query_limit) with
         | [] => None
         | items => Some items
         end) /\
    (List.length byDate <= List.length (Notions.selected query_limit))%nat.
Proof.
  rewrite get_history_run. intros H Hs. inversion H as [[Hr Ht]]. clear H.
  destruct (for_of (Notions.selected query_limit) History.group_entry [])
    as [[] byDate | msg byDate] eqn:Hloop.
  - exists byDate. subst resp. split; [reflexivity |]. split.
    + intros date. rewrite (group_entries_Done _ _ _ Hloop date).
      destruct (Notions.items_on date (Notions.selected query_limit)); reflexivity.
    + apply group_entries_length in Hloop. simpl in Hloop. exact Hloop.
  - subst resp. discriminate Hs.
Qed.

(** X20.  A selected entry of the history log whose timestamp is no valid
    date (it gives no time value) makes the history handler answer with
    status 500 and a structured error: the entries grouped before it are
    not sent. *)
Theorem history_invalid_date_is_500
  (query_limit : option string) (tr : Server.trace) (entry : json) :
  In entry (Notions.selected query_limit) ->
  Boolean (Spec.field entry "timestamp") = true ->
  Spec.moment (Spec.field entry "timestamp") = None ->
  exists message,
    History.get_history query_limit tr =
      Done {| Server.status := 500;
              Server.body := Spec.error_body "Failed to read history" message |}
           (tr ++ [Server.Call_readFileSync History.HISTORY_FILE])%list.
Proof.
  intros Hin Hb Hd.
  assert (Htruthy : truthy entry = true).
  { unfold Notions.selected, Array_slice in Hin.
    match type of Hin with In _ (skipn ?n ?l) =>
      assert (He' : In entry l)
        by (rewrite <- (firstn_skipn n l); apply in_or_app; right; exact Hin)
    end.
    apply filter_In in He'. apply He'. }
  rewrite get_history_run.
  destruct (for_of_throws History.group_entry entry) with
    (xs := Notions.selected query_limit) (s := @nil (string * list json))
    as (msg & s1 & Hthrow).
  - intros s. apply group_entry_invalid; assumption.
  - exact Hin.
  - rewrite Hthrow. exists msg. reflexivity.
Qed.

(** X21.  The limit of the history handler.  The limit is never 0: it is
    100 when the parameter is absent, is no number or is 0.  A positive
    limit selects the last entries of the log, at most that many.  A
    negative limit selects all entries but the first, as many of them as
    its size.  A log that cannot be read is answered like an empty log,
    with status 200 and no group. *)
Theorem history_limit_selects (query_limit : option string) (tr : Server.trace) :
  History.limit_of query_limit <> 0 /\
  History.limit_of None = 100 /\
  (forall text, parseInt text = None -> History.limit_of (Some text) = 100) /\
  (forall text, parseInt text = Some 0 -> History.limit_of (Some text) = 100) /\
  (0 < History.limit_of query_limit ->
   (Z.of_nat (List.length (Notions.selected query_limit)) <= History.limit_of query_limit) /\
   exists dropped,
     filter truthy (Spec.file_values History.HISTORY_FILE) =
       (dropped ++ Notions.selected query_limit)%list) /\
  (History.limit_of query_limit < 0 ->
   Notions.selected query_limit =
     skipn (Z.to_nat (- History.limit_of query_limit))
       (filter truthy (Spec.file_values History.HISTORY_FILE))) /\
  (forall message,
     readFileSync History.HISTORY_FILE = Throw message ->
     History.get_history query_limit tr =
       Done {| Server.status := 200; Server.body := JObj [] |}
            (tr ++ [Server.Call_readFileSync History.HISTORY_FILE])%list).
Proof.
  split.
  { unfold History.limit_of.
    destruct (match query_limit with Some s => parseInt s | None => None end) as [z |];
      [| discriminate].
    destruct (z =? 0) eqn:E; [discriminate | apply Z.eqb_neq in E; exact E]. }
  split; [reflexivity |].
  split; [intros text H; unfold History.limit_of; rewrite H; reflexivity |].
  split; [intros text H; unfold History.limit_of; rewrite H; reflexivity |].
  split.
  { intros Hpos. unfold Notions.selected.
    set (entries := filter truthy (Spec.file_values History.HISTORY_FILE)).
    rewrite Array_slice_last by lia.
    split.
    - rewrite length_skipn. lia.
    - exists (firstn (List.length entries - Z.to_nat (- - History.limit_of query_limit)) entries).
      symmetry. apply firstn_skipn. }
  split.
  { intros Hneg. unfold Notions.selected, Array_slice.
    destruct (- History.limit_of query_limit <? 0) eqn:E; [apply Z.ltb_lt in E; lia |].
    set (entries := filter truthy (Spec.file_values History.HISTORY_FILE)).
    destruct (Z.min_spec (- History.limit_of query_limit) (Z.of_nat (List.length entries)))
      as [[_ ->] | [Hle ->]]; [reflexivity |].
    rewrite Nat2Z.id, skipn_all. symmetry. apply skipn_all2. lia. }
  intros message Hno. rewrite get_history_run. unfold Notions.selected, Spec.file_values.
  rewrite Hno. unfold Array_slice. cbn [filter List.length]. rewrite skipn_nil. reflexivity.
Qed.

End HistoryFacts.

(** ** The projects listing *)

Section ListingFacts.

Context {rt : Runtime} {fs : FileSystem} {dirs : Directories}.

Lemma directories_filter (entries : list string) : forall kept,
  Listing.directories entries = Ok kept ->
  kept = filter Notions.is_directory entries.
Proof.
  induction entries as [| d entries IH]; intros kept H; simpl in H.
  - inversion H. reflexivity.
  - cbn [filter]. unfold Notions.is_directory at 1.
    destruct (statSync (path_join [Server.PROJECTS_DIR; d])) as [stat | msg] eqn:Hs;
      [| discriminate H].
    destruct (Listing.directories entries) as [kept0 |]; [| discriminate H].
    inversion H. rewrite (IH kept0 eq_refl). reflexivity.
Qed.

Lemma list_project_Done (dir : string) (tr tr' : Server.trace) (r : Listing.row) :
  Listing.list_project dir tr = Done r tr' ->
  Listing.fullPath r = dir /\ Notions.row_of_directory r.
Proof.
  unfold Listing.list_project, bind, lift, Notions.row_of_directory.
  destruct (readdirSync (path_join [Server.PROJECTS_DIR; dir])) as [files | msg] eqn:Hf;
    [| discriminate].
  intros H. inversion H. subst r. cbn [Listing.fullPath Listing.name Listing.sessionCount].
  split; [reflexivity |]. split; [reflexivity |].
  exists files. split; [exact Hf | reflexivity].
Qed.

Lemma map_M_Done {S A B : Type} (f : A -> M S B) (xs : list A) : forall s ys s',
  Listing.map_M f xs s = Done ys s' ->
  Forall2 (fun x y => exists s1 s2, f x s1 = Done y s2) xs ys.
Proof.
  induction xs as [| x xs IH]; intros s ys s' H; simpl in H.
  - inversion H. constructor.
  - unfold bind in H. destruct (f x s) as [y s1 | msg s1] eqn:Hx; [| discriminate H].
    destruct (Listing.map_M f xs s1) as [ys0 s2 | msg s2] eqn:Hxs; [| discriminate H].
    inversion H. subst. constructor; [exists s, s1; exact Hx | eapply IH; exact Hxs].
Qed.

(** X22.  The projects handler always answers.  When it lists, the rows
    are in non-increasing order of session count and stand one each for
    the entries of the projects directory that are directories; the
    session count of a row is the number of the directory's entries named
    [*.jsonl], readable or not, and its name is extracted from the
    directory name.  When it does not list, the answer has status 500 and
    a structured error; so it is when the projects directory cannot be
    read. *)
Theorem projects_listing_shape (tr : Server.trace) :
  exists answer tr',
    Listing.get_projects tr = Done answer tr' /\
    (forall message,
       readdirSync Server.PROJECTS_DIR = Throw message ->
       answer = Listing.Failed 500 (Spec.error_body "Failed to read projects" message)) /\
    match answer with
    | Listing.Listed projects =>
        Spec.non_increasing (map Listing.sessionCount projects) = true /\
        (exists entries,
           readdirSync Server.PROJECTS_DIR = Ok entries /\
           Permutation (map Listing.fullPath projects)
             (filter Notions.is_directory entries)) /\
        Forall Notions.row_of_directory projects
    | Listing.Failed code body =>
        code = 500 /\
        exists message, body = Spec.error_body "Failed to read projects" message
    end.
Proof.
  unfold Listing.get_projects, try_catch, bind, lift.
  destruct (readdirSync Server.PROJECTS_DIR) as [entries | msg] eqn:He.
  2:{ eexists; eexists; split; [reflexivity |]. split.
      - intros message Hm. inversion Hm. reflexivity.
      - split; [reflexivity | eexists; reflexivity]. }
  destruct (Listing.directories entries) as [kept | msg] eqn:Hk;
    [| eexists; eexists; split; [reflexivity |]; split; [discriminate |];
       split; [reflexivity | eexists; reflexivity]].
  destruct (Listing.map_M Listing.list_project kept tr) as [rows tr1 | msg tr1] eqn:Hm;
    [| eexists; eexists; split; [reflexivity |]; split; [discriminate |];
       split; [reflexivity | eexists; reflexivity]].
  eexists; eexists; split; [reflexivity |]. split; [discriminate |].
  apply directories_filter in Hk. subst kept.
  apply map_M_Done in Hm.
  assert (Hrows : map Listing.fullPath rows = filter Notions.is_directory entries /\
                  Forall Notions.row_of_directory rows).
  { induction Hm as [| d r ds rs (s1 & s2 & Hd) _ IH]; [split; constructor |].
    apply list_project_Done in Hd. destruct Hd as [Hp Hr]. destruct IH as [IH1 IH2].
    split; [simpl; rewrite Hp, IH1; reflexivity | constructor; assumption]. }
  destruct Hrows as [Hpaths Hshape].
  pose proof (Array_sort_sorted Listing.row Listing.sessionCount rows) as Hsorted.
  pose proof (Array_sort_perm Listing.row Listing.sessionCount rows) as Hperm.
  change (Spec.descending Listing.sessionCount) with Listing.by_sessionCount in Hsorted, Hperm.
  split; [apply sorted_non_increasing; exact Hsorted |].
  split.
  - exists entries. split; [reflexivity |]. rewrite <- Hpaths.
    apply Permutation_map. exact Hperm.
  - apply Forall_forall. intros r Hr. rewrite Forall_forall in Hshape. apply Hshape.
    apply (Permutation_in _ Hperm). exact Hr.
Qed.

End ListingFacts.

Section ListingTotals.

Context {rt : Runtime} {fs : FileSystem} {dirs : Directories}.

(** The entries of a file, counted by the server: all of them. *)
Lemma count_entries_final (sessionPath : string) (t : Server.totals) :
  Server.totalMessages
    (final (for_of (Notions.session_entries sessionPath) Server.count_entry t)) =
    Server.totalMessages t +
    fold_right (fun e acc => Spec.b2z (Spec.is_message e) + acc) 0
      (Notions.session_entries sessionPath) /\
  Server.totalToolCalls
    (final (for_of (Notions.session_entries sessionPath) Server.count_entry t)) =
    Server.totalToolCalls t +
    fold_right (fun e acc => Spec.pattern_matches e + acc) 0
      (Notions.session_entries sessionPath).
Proof.
  unfold Notions.session_entries.
  destruct (for_of_total truthy Server.count_entry
              (fun x t0 H => server_count_entry_truthy x t0 H) _ t
              (filter_all truthy (Spec.file_values sessionPath))) as [t' Ht].
  rewrite Ht. cbn [final]. split.
  - apply (for_of_sum Server.totalMessages
             (fun x => Spec.b2z (Spec.is_message x)) Server.count_entry) in Ht; [exact Ht |].
    intros x t0 t1 Hx. apply server_count_entry_effect. exact Hx.
  - apply (for_of_sum Server.totalToolCalls Spec.pattern_matches Server.count_entry) in Ht;
      [exact Ht |].
    intros x t0 t1 Hx. apply server_count_entry_tools. exact Hx.
Qed.

Lemma later_max (m : Z) (acc : option Z) :
  Listing.later m acc = Some (match acc with
                              | Some l => Z.max l m
                              | None => m
                              end).
Proof.
  unfold Listing.later. destruct acc as [l |]; [| reflexivity].
  destruct (l <? m) eqn:E; f_equal; [apply Z.ltb_lt in E | apply Z.ltb_ge in E]; lia.
Qed.

Lemma list_sessions_fold (projectPath : string) (sessions : list string) :
  forall a : Listing.tally,
    let a' := fold_left (Listing.list_session projectPath) sessions a in
    let paths :=
      filter (fun p => match statSync p with Ok _ => true | Throw _ => false end)
        (map (fun f => path_join [projectPath; f]) sessions) in
    Server.totalMessages (Listing.totals a') =
      Server.totalMessages (Listing.totals a) +
      Notions.sum_over (fun e => Spec.b2z (Spec.is_message e)) paths /\
    Server.totalToolCalls (Listing.totals a') =
      Server.totalToolCalls (Listing.totals a) + Notions.sum_over Spec.pattern_matches paths /\
    Listing.latest a' =
      fold_left (fun acc p =>
                   match statSync p with
                   | Ok stat => Some (match acc with
                                      | Some l => Z.max l (mtime stat)
                                      | None => mtime stat
                                      end)
                   | Throw _ => acc
                   end) paths (Listing.latest a).
Proof.
  induction sessions as [| f sessions IH]; intros a; cbn zeta.
  - simpl. unfold Notions.sum_over. simpl. repeat split; lia.
  - cbn [fold_left map filter].
    specialize (IH (Listing.list_session projectPath a f)). cbn zeta in IH.
    destruct IH as (IH1 & IH2 & IH3). rewrite IH1, IH2, IH3. clear IH1 IH2 IH3.
    unfold Listing.list_session.
    destruct (statSync (path_join [projectPath; f])) as [stat | msg] eqn:Hs.
    + rewrite parseJSONL_run. cbn [Listing.totals Listing.latest].
      fold (Notions.session_entries (path_join [projectPath; f])).
      destruct (count_entries_final (path_join [projectPath; f]) (Listing.totals a))
        as [E1 E2].
      rewrite E1, E2, later_max.
      unfold Notions.sum_over. cbn [fold_right fold_left]. rewrite Hs.
      repeat split; try reflexivity; lia.
    + repeat split; reflexivity.
Qed.

(** X23.  A row of the projects listing adds up the session files of its
    directory whose [stat] succeeds: its messages are the [user] and
    [assistant] entries of these files, its tool calls the pattern
    matches in their entries, and its last activity is the latest of their
    modification times ([null] when there is no such file).  A session
    file whose [stat] fails is in the session count only. *)
Theorem listing_row_totals (dir : string) (tr tr' : Server.trace) (r : Listing.row) :
  Listing.list_project dir tr = Done r tr' ->
  exists files,
    readdirSync (path_join [Server.PROJECTS_DIR; dir]) = Ok files /\
    Listing.sessionCount r = Spec.count (fun f => String_endsWith f ".jsonl") files /\
    Listing.totalMessages r =
      Notions.sum_over (fun e => Spec.b2z (Spec.is_message e))
        (Notions.readable_sessions (path_join [Server.PROJECTS_DIR; dir]) files) /\
    Listing.totalToolCalls r =
      Notions.sum_over Spec.pattern_matches
        (Notions.readable_sessions (path_join [Server.PROJECTS_DIR; dir]) files) /\
    Listing.lastActivity r =
      option_map toISOString
        (Notions.latest_mtime
           (Notions.readable_sessions (path_join [Server.PROJECTS_DIR; dir]) files)).
Proof.
  unfold Listing.list_project, bind, lift.
  destruct (readdirSync (path_join [Server.PROJECTS_DIR; dir])) as [files | msg] eqn:Hf;
    [| discriminate].
  intros H. inversion H as [[Hr Ht]]. clear H Ht. exists files.
  split; [reflexivity |]. split; [reflexivity |].
  cbn [Listing.totalMessages Listing.totalToolCalls Listing.lastActivity].
  pose proof (list_sessions_fold (path_join [Server.PROJECTS_DIR; dir])
                (filter (fun f => String_endsWith f ".jsonl") files)
                {| Listing.totals := Server.no_totals; Listing.latest := None;
                   Listing.calls := tr |}) as Hfold.
  cbn zeta in Hfold. destruct Hfold as (E1 & E2 & E3).
  unfold Notions.readable_sessions, Notions.latest_mtime.
  rewrite E1, E2, E3. repeat split; reflexivity.
Qed.

End ListingTotals.

(** ** The properties at the samples *)

(** The project of the specification's example: two session files, four
    messages, one tool call. *)
Lemma project_totals_witness :
  Gen.walk (rt := Demo.rt) (cfg := Demo.cfg) Sample.app_files Sample.opened
    = Done tt Demo.example_scanned /\
  exists p',
    assoc "C--Users-u-app" (Gen.projectMap Demo.example_scanned) = Some p' /\
    Gen.Project.sessions p' = 0 + 2 /\
    Gen.Project.messages p' = 0 + 4 /\
    Gen.Project.toolCalls p' = 0 + 1.
Proof.
  assert (H : Gen.walk (rt := Demo.rt) (cfg := Demo.cfg) Sample.app_files Sample.opened
              = Done tt Demo.example_scanned) by (vm_compute; reflexivity).
  split; [exact H |].
  destruct (project_totals (rt := Demo.rt) (cfg := Demo.cfg) Sample.app_files
              "C--Users-u-app" Sample.opened Demo.example_scanned _ H eq_refl)
    as (p' & A & B & C & D & _).
  exists p'. split; [exact A |]. split; [exact B |]. split; [exact C | exact D].
Defined.

(** A session file with a [null] line, between the entering of its
    project and another session file. *)
Lemma null_line_witness :
  In JNull Sample.null_session /\
  Gen.walk (rt := Demo.rt) (cfg := Demo.cfg) [Gen.EnterProject "C--Users-u-app"]
    Gen.initial_state = Done tt Sample.opened /\
  exists s2,
    Gen.scan (rt := Demo.rt) (cfg := Demo.cfg)
      ([Gen.EnterProject "C--Users-u-app"] ++ Sample.null_visit :: Sample.after_null)
      Gen.initial_state = Done tt s2 /\
    Gen.projectMap s2 = Gen.projectMap Sample.opened.
Proof.
  assert (Hin : In JNull Sample.null_session) by (right; left; reflexivity).
  assert (Hw : Gen.walk (rt := Demo.rt) (cfg := Demo.cfg) [Gen.EnterProject "C--Users-u-app"]
                 Gen.initial_state = Done tt Sample.opened) by reflexivity.
  split; [exact Hin |]. split; [exact Hw |].
  destruct (null_line_ends_scan (rt := Demo.rt) (cfg := Demo.cfg)
              [Gen.EnterProject "C--Users-u-app"] Sample.after_null Sample.null_session
              "a.jsonl" (Some "C--Users-u-app") Gen.initial_state Sample.opened Hin Hw)
    as (s2 & H1 & _ & _ & H4).
  exists s2. split; [exact H1 | exact H4].
Defined.

(** The session of [Demo], after a cache. *)
Lemma last_activity_witness :
  Gen.walk (rt := Demo.rt) (cfg := Demo.cfg) Demo.visits
    (Gen.load_cache (rt := Demo.rt) (Some Demo.cache) Gen.initial_state)
    = Done tt Demo.scanned /\
  Gen.lastActivity Demo.scanned = Some (JStr "2026-10-01T09:30:00.000Z") /\
  Notions.latest (rt := Demo.rt) (cfg := Demo.cfg)
    (Some (JStr "2026-10-01T09:30:00.000Z")) (Spec.records_of Demo.visits).
Proof.
  assert (H : Gen.walk (rt := Demo.rt) (cfg := Demo.cfg) Demo.visits
                (Gen.load_cache (rt := Demo.rt) (Some Demo.cache) Gen.initial_state)
              = Done tt Demo.scanned) by (vm_compute; reflexivity).
  split; [exact H |].
  assert (E : Gen.lastActivity Demo.scanned = Some (JStr "2026-10-01T09:30:00.000Z"))
    by (vm_compute; reflexivity).
  split; [exact E |].
  rewrite <- E.
  exact (last_activity_is_latest (rt := Demo.rt) (cfg := Demo.cfg)
           (Some Demo.cache) Demo.visits Demo.scanned H).
Defined.

(** The one tool of the example is carried over with its count. *)
Lemma top_counts_keeps_counts_witness :
  Gen.scan (rt := Demo.rt) (cfg := Demo.cfg) Demo.example_visits Gen.initial_state
    = Done tt Demo.example_scanned /\
  obj_get "Read" (Gen.toolUsage Demo.example_scanned) =
    obj_get "Read" (Gen.toolCounts Demo.example_scanned).
Proof.
  assert (H : Gen.scan (rt := Demo.rt) (cfg := Demo.cfg) Demo.example_visits
                Gen.initial_state = Done tt Demo.example_scanned)
    by (vm_compute; reflexivity).
  split; [exact H |].
  destruct (top_counts_keeps_counts (rt := Demo.rt) (cfg := Demo.cfg)
              Demo.example_visits Demo.example_scanned H) as (_ & _ & Hall & _).
  apply Hall. vm_compute. lia.
Defined.

(** The most used tool of the example. *)
Lemma top_tool_witness :
  Gen.scan (rt := Demo.rt) (cfg := Demo.cfg) Demo.example_visits Gen.initial_state
    = Done tt Demo.example_scanned /\
  Spec.no_index_key (Gen.toolCounts Demo.example_scanned) = true /\
  forallb (Spec.plain_tool (rt := Demo.rt))
    (flat_map Spec.tool_use_blocks (Spec.records_of Demo.example_visits)) = true /\
  match Gen.topTool Demo.example_scanned with
  | Some (name, calls) =>
      obj_get name (Gen.toolCounts Demo.example_scanned) = Some calls /\
      forall k v, obj_get k (Gen.toolCounts Demo.example_scanned) = Some v -> v <= calls
  | None => Gen.toolCounts Demo.example_scanned = []
  end.
Proof.
  assert (H : Gen.scan (rt := Demo.rt) (cfg := Demo.cfg) Demo.example_visits
                Gen.initial_state = Done tt Demo.example_scanned)
    by (vm_compute; reflexivity).
  assert (Hni : Spec.no_index_key (Gen.toolCounts Demo.example_scanned) = true)
    by (vm_compute; reflexivity).
  assert (Hplain : forallb (Spec.plain_tool (rt := Demo.rt))
                      (flat_map Spec.tool_use_blocks (Spec.records_of Demo.example_visits))
                    = true) by (vm_compute; reflexivity).
  split; [exact H |]. split; [exact Hni |]. split; [exact Hplain |].
  exact (top_tool_is_most_used (rt := Demo.rt) (cfg := Demo.cfg)
           Demo.example_visits Demo.example_scanned H Hni Hplain).
Defined.

(** The one record of the session of [Demo] falls on a Thursday. *)
Lemma most_active_day_witness :
  Gen.walk (rt := Demo.rt) (cfg := Demo.cfg) Demo.visits
    (Gen.load_cache (rt := Demo.rt) (Some Demo.cache) Gen.initial_state)
    = Done tt Demo.scanned /\
  Notions.counters 7 (Gen.weekdayActivity Demo.scanned) /\
  Insights.most_active_day Demo.scanned = Some "Thursday".
Proof.
  assert (H : Gen.walk (rt := Demo.rt) (cfg := Demo.cfg) Demo.visits
                (Gen.load_cache (rt := Demo.rt) (Some Demo.cache) Gen.initial_state)
              = Done tt Demo.scanned) by (vm_compute; reflexivity).
  split; [exact H |].
  destruct (most_active_day_is_first_largest (rt := Demo.rt) (cfg := Demo.cfg)
              (Some Demo.cache) Demo.visits Demo.scanned H) as (Hc & _ & _).
  split; [exact Hc |]. vm_compute. reflexivity.
Defined.

(** The peak hour of the session of [Demo] without a cache is 9; after a
    cache that lists the hour 30 it is -1. *)
Lemma peak_hour_witness :
  Gen.walk (rt := Demo.rt) (cfg := Demo.cfg) Demo.visits Gen.initial_state
    = Done tt Sample.plain_scanned /\
  Notions.counters 24 (Gen.hourlyActivity Sample.plain_scanned) /\
  Insights.maxHour Sample.plain_scanned = 9 /\
  Insights.maxHour
    (Gen.load_cache (rt := Demo.rt) (Some Sample.late_hour_cache) Gen.initial_state) = -1.
Proof.
  assert (H : Gen.walk (rt := Demo.rt) (cfg := Demo.cfg) Demo.visits Gen.initial_state
              = Done tt Sample.plain_scanned) by (vm_compute; reflexivity).
  split; [exact H |].
  destruct (peak_hour_of_buckets (rt := Demo.rt) (cfg := Demo.cfg)
              Demo.visits Sample.plain_scanned H) as (Hc & _ & Hhole).
  split; [exact Hc |]. split; [vm_compute; reflexivity |].
  apply Hhole. vm_compute.
  do 24 right. left. reflexivity.
Defined.

(** The last two of three prompts, grouped under their two dates. *)
Lemma history_groups_witness :
  History.get_history (rt := Sample.rt) (fs := Sample.with_history) (Some "2") []
    = Done {| Server.status := 200;
              Server.body :=
                JObj [("2026-10-03", JArr [History.sent_object
                                             [("display", Some (JStr ""));
                                              ("timestamp",
                                               Some (JStr "2026-10-03T14:05:00.000Z"))]]);
                      ("2026-10-01", JArr [History.sent_object
                                             [("display", Some (JStr ""));
                                              ("timestamp",
                                               Some (JStr "2026-10-01T09:30:00.000Z"))]])] |}
           [Server.Call_readFileSync "/home/u/.claude/history.jsonl"] /\
  exists byDate,
    History.sent_groups byDate =
      JObj [("2026-10-03", JArr [History.sent_object
                                   [("display", Some (JStr ""));
                                    ("timestamp", Some (JStr "2026-10-03T14:05:00.000Z"))]]);
            ("2026-10-01", JArr [History.sent_object
                                   [("display", Some (JStr ""));
                                    ("timestamp", Some (JStr "2026-10-01T09:30:00.000Z"))]])] /\
    obj_get "2026-10-01" byDate =
      Some [Notions.history_item (Sample.stamped "2026-10-01T09:30:00.000Z")].
Proof.
  assert (H : History.get_history (rt := Sample.rt) (fs := Sample.with_history) (Some "2") []
              = Done {| Server.status := 200;
                        Server.body :=
                          JObj [("2026-10-03",
                                 JArr [History.sent_object
                                         [("display", Some (JStr ""));
                                          ("timestamp",
                                           Some (JStr "2026-10-03T14:05:00.000Z"))]]);
                                ("2026-10-01",
                                 JArr [History.sent_object
                                         [("display", Some (JStr ""));
                                          ("timestamp",
                                           Some (JStr "2026-10-01T09:30:00.000Z"))]])] |}
                     [Server.Call_readFileSync "/home/u/.claude/history.jsonl"])
    by (vm_compute; reflexivity).
  split; [exact H |].
  destruct (history_groups_by_date (rt := Sample.rt) (fs := Sample.with_history)
              (Some "2") [] _ _ H eq_refl) as (byDate & Hbody & Hgroups & _).
  exists byDate. split; [symmetry; exact Hbody |].
  rewrite (Hgroups "2026-10-01"). vm_compute. reflexivity.
Defined.

(** A history log whose second prompt has the timestamp [soon]. *)
Lemma history_invalid_date_witness :
  In (Sample.stamped "soon")
    (Notions.selected (rt := Sample.rt) (fs := Sample.with_odd_history) None) /\
  exists message,
    History.get_history (rt := Sample.rt) (fs := Sample.with_odd_history) None []
      = Done {| Server.status := 500;
                Server.body := Spec.error_body "Failed to read history" message |}
             [Server.Call_readFileSync "/home/u/.claude/history.jsonl"].
Proof.
  assert (Hin : In (Sample.stamped "soon")
                  (Notions.selected (rt := Sample.rt) (fs := Sample.with_odd_history) None))
    by (vm_compute; right; left; reflexivity).
  split; [exact Hin |].
  exact (history_invalid_date_is_500 (rt := Sample.rt) (fs := Sample.with_odd_history)
           None [] (Sample.stamped "soon") Hin eq_refl eq_refl).
Defined.

(** A project directory with a session file of one user record, a
    session file whose [stat] fails, and a file of notes. *)
Lemma listing_row_witness :
  Listing.list_project (rt := Demo.rt) (fs := Sample.app_fs) (dirs := Sample.app_dirs) "app" []
    = Done Sample.app_row
        [Server.Call_readFileSync "/home/u/.claude/projects/app/a.jsonl"] /\
  Listing.sessionCount Sample.app_row = 2 /\
  Listing.totalMessages Sample.app_row = 1 /\
  exists files,
    Listing.lastActivity Sample.app_row =
      option_map Demo.to_iso
        (Notions.latest_mtime (dirs := Sample.app_dirs)
           (Notions.readable_sessions (rt := Demo.rt) (dirs := Sample.app_dirs)
              "/home/u/.claude/projects/app" files)).
Proof.
  assert (H : Listing.list_project (rt := Demo.rt) (fs := Sample.app_fs)
                (dirs := Sample.app_dirs) "app" []
              = Done Sample.app_row
                  [Server.Call_readFileSync "/home/u/.claude/projects/app/a.jsonl"])
    by (vm_compute; reflexivity).
  split; [exact H |].
  split; [vm_compute; reflexivity |]. split; [vm_compute; reflexivity |].
  destruct (listing_row_totals (rt := Demo.rt) (fs := Sample.app_fs)
              (dirs := Sample.app_dirs) "app" [] _ Sample.app_row H)
    as (files & _ & _ & _ & _ & Hlast).
  exists files. exact Hlast.
Defined.
(** ** The functions run on sample inputs *)

(** Directory names as the tool writes them, and the names shown. *)
Example project_names_examples :
  Names.extractProjectName "C--Users-dassa-Work-my-app" = "app" /\
  Names.extractProjectName "claude-dashboard" = "claude-dashboard" /\
  Names.extractProjectName "C--Users-dassa-Desktop-" = "Desktop-" /\
  Names.sanitizeProjectName "C--Users-dassa-Work-claude-dashboard" = "claude-dashboard" /\
  Names.sanitizeProjectName "C--Users-dassa-Work-my-app" = "app" /\
  Names.sanitizeProjectName "C--Users-dassa" = "Project".
Proof.
  split; [vm_compute; reflexivity |]. split; [vm_compute; reflexivity |].
  split; [vm_compute; reflexivity |]. split; [vm_compute; reflexivity |].
  split; vm_compute; reflexivity.
Qed.

(** The scan of a projects directory with one project: its readable
    session file holds one user record, and its other entry named
    [*.jsonl] cannot be read, which makes it a session without records. *)
Example scan_projects_example :
  option_map
    (fun p => (Gen.Row.name p, Gen.Row.sessions p, Gen.Row.messages p))
    (hd_error
       (Gen.projects
          (final (GenWalk.scan_projects (rt := Demo.rt) (fs := Sample.app_fs)
                    (dirs := Sample.app_dirs) (cfg := Demo.cfg) Gen.initial_state))))
    = Some ("app", 2, 1).
Proof. vm_compute. reflexivity. Qed.

(** ** Sets of branches *)

Lemma SFeqb_sym (f1 f2 : SpecFloat.spec_float) :
  SpecFloat.SFeqb f1 f2 = SpecFloat.SFeqb f2 f1.
Proof.
  unfold SpecFloat.SFeqb, SpecFloat.SFcompare.
  destruct f1 as [s1 | s1 | | s1 m1 e1], f2 as [s2 | s2 | | s2 m2 e2];
    try destruct s1; try destruct s2; try reflexivity;
    change (PosDef.Pos.compare_cont Eq m1 m2) with (Pos.compare m1 m2);
    change (PosDef.Pos.compare_cont Eq m2 m1) with (Pos.compare m2 m1);
    rewrite (Z.compare_antisym e1 e2), (Pos.compare_antisym m1 m2);
    destruct (e1 ?= e2)%Z, (m1 ?= m2)%positive; reflexivity.
Qed.

Lemma same_value_sym (a b : json) : Gen.same_value a b = Gen.same_value b a.
Proof.
  destruct a, b; simpl; try reflexivity.
  - destruct b, b0; reflexivity.
  - rewrite (andb_comm (PrimFloat.is_nan x)), !eqb_spec, (SFeqb_sym (Prim2SF x)).
    reflexivity.
  - apply String.eqb_sym.
Qed.

Lemma ForallOrdPairs_app_one {A : Type} (R : A -> A -> Prop) (l : list A) (x : A) :
  ForallOrdPairs R l -> Forall (fun a => R a x) l -> ForallOrdPairs R (l ++ [x]).
Proof.
  induction 1 as [| a l Ha Hl IH]; intros Hx; simpl.
  - constructor; constructor.
  - apply Forall_cons_iff in Hx. destruct Hx as [Hax Hx].
    constructor; [| apply IH; exact Hx].
    apply Forall_app. split; [exact Ha | constructor; [exact Hax | constructor]].
Qed.

Lemma ForallOrdPairs_firstn {A : Type} (R : A -> A -> Prop) (n : nat) (l : list A) :
  ForallOrdPairs R l -> ForallOrdPairs R (firstn n l).
Proof.
  intros H. revert n. induction H as [| a l Ha Hl IH]; intros n; destruct n; simpl;
    try constructor; [| apply IH].
  apply Forall_forall. intros x Hx. rewrite Forall_forall in Ha. apply Ha.
  rewrite <- (firstn_skipn n l). apply in_or_app. left. exact Hx.
Qed.

(** Adding to a set keeps its values distinct. *)
Lemma Set_add_distinct (b : json) (l : list json) :
  Notions.distinct l -> Notions.distinct (Gen.Set_add Gen.same_value b l).
Proof.
  unfold Notions.distinct, Gen.Set_add. intros H.
  destruct (existsb (Gen.same_value b) l) eqn:E; [exact H |].
  apply ForallOrdPairs_app_one; [exact H |].
  apply Forall_forall. intros a Ha.
  rewrite same_value_sym.
  destruct (Gen.same_value b a) eqn:Eb; [| reflexivity].
  assert (existsb (Gen.same_value b) l = true)
    by (apply existsb_exists; exists a; split; assumption).
  congruence.
Qed.

Section BranchSets.

Context {rt : Runtime} {fs : FileSystem} {dirs : Directories} {cfg : Gen.Config}.

Lemma do_visit_branches (v : Gen.visit) :
  preserves
    (fun s => Forall (fun e => Notions.distinct (Gen.Project.branches (snd e)))
                (Gen.projectMap s))
    (Gen.do_visit v).
Proof.
  destruct v as [dir | lines f project]; simpl.
  - apply preserves_modify. intros s H. unfold Gen.open_project.
    destruct (has_key dir (Gen.projectMap s)); [exact H |].
    simpl. apply Forall_app. split; [exact H |].
    constructor; [simpl; constructor | constructor].
  - intros s H. unfold Gen.processSession.
    pose proof (preserves_for_of
                  (fun c : Gen.frame => Gen.projectMap (fst c) = Gen.projectMap s)
                  lines Gen.processLine (processLine_projectMap (Gen.projectMap s))
                  (s, Gen.initial_locals) eq_refl) as Hpm.
    destruct (for_of lines Gen.processLine (s, Gen.initial_locals))
      as [[] [s1 l1] | msg [s1 l1]]; simpl in *; [| rewrite Hpm; exact H].
    unfold Gen.update_project. destruct project as [dir |]; [| rewrite Hpm; exact H].
    destruct (assoc dir (Gen.projectMap s1)) as [p |] eqn:Hp; [| rewrite Hpm; exact H].
    simpl. rewrite Hpm in *.
    apply (Forall_replace_key (fun p0 => Notions.distinct (Gen.Project.branches p0)));
      [exact H |].
    assert (Hd : Notions.distinct (Gen.Project.branches p))
      by (apply (Forall_obj_get (fun p0 => Notions.distinct (Gen.Project.branches p0))
                   dir p _ H Hp)).
    simpl. destruct (Gen.branch l1) as [b |]; [| exact Hd].
    destruct (truthy b); [apply Set_add_distinct |]; exact Hd.
Qed.

Lemma count_entry_branches (entry : json) :
  preserves (fun t => Notions.distinct (Server.branches t)) (Server.count_entry entry).
Proof.
  unfold Server.count_entry.
  preserve; apply preserves_modify; intros t H; simpl; try exact H.
  apply Set_add_distinct. exact H.
Qed.

Lemma list_sessions_branches (projectPath : string) (sessions : list string) :
  forall a, Notions.distinct (Server.branches (Listing.totals a)) ->
    Notions.distinct
      (Server.branches (Listing.totals (fold_left (Listing.list_session projectPath) sessions a))).
Proof.
  induction sessions as [| f sessions IH]; intros a H; [exact H |].
  cbn [fold_left]. apply IH. unfold Listing.list_session.
  destruct (statSync (path_join [projectPath; f])); [| exact H].
  destruct (Server.parseJSONL (path_join [projectPath; f]) (Listing.calls a))
    as [entries tr | msg tr]; [| exact H].
  cbn [Listing.totals].
  apply (preserves_for_of (fun t => Notions.distinct (Server.branches t)) entries
           Server.count_entry count_entry_branches). exact H.
Qed.

(** X24.  Branches are kept as sets.  After a scan that started with no
    project, no row of the projects list of the artifact holds a branch
    twice; nor does a row of the server's projects listing. *)
Theorem branches_are_listed_once
  (visits : list Gen.visit) (dir : string) (tr : Server.trace) :
  Forall (fun r => Notions.distinct (Gen.Row.branches r))
    (Gen.projects (final (Gen.scan visits Gen.initial_state))) /\
  match Listing.list_project dir tr with
  | Done r _ => Notions.distinct (Listing.branches r)
  | Thrown _ _ => True
  end.
Proof.
  split.
  - rewrite scan_final. cbn [final].
    assert (H : Forall (fun e => Notions.distinct (Gen.Project.branches (snd e)))
                  (Gen.projectMap (final (Gen.walk visits Gen.initial_state)))).
    { apply (preserves_for_of
               (fun s => Forall (fun e => Notions.distinct (Gen.Project.branches (snd e)))
                           (Gen.projectMap s)) visits Gen.do_visit do_visit_branches).
      constructor. }
    apply Forall_forall. intros r Hr. unfold Gen.projects, slice0 in Hr.
    assert (Hr' : In r (Array_sort Gen.by_sessions
                          (filter (fun p => 0 <? Gen.Row.sessions p)
                             (map Gen.project_row
                                (map snd (Gen.projectMap
                                            (final (Gen.walk visits Gen.initial_state))))))))
      by (rewrite <- (firstn_skipn 10 (Array_sort _ _)); apply in_or_app; left; exact Hr).
    apply (Permutation_in _ (Array_sort_perm Gen.Row.t Gen.Row.sessions _)) in Hr'.
    apply filter_In in Hr'. destruct Hr' as [Hr' _].
    apply in_map_iff in Hr'. destruct Hr' as (p & <- & Hp).
    apply in_map_iff in Hp. destruct Hp as (e & <- & He).
    rewrite Forall_forall in H. specialize (H e He).
    unfold Gen.project_row. cbn [Gen.Row.branches]. unfold slice0.
    apply ForallOrdPairs_firstn. exact H.
  - unfold Listing.list_project, bind, lift.
    destruct (readdirSync (path_join [Server.PROJECTS_DIR; dir])); [| exact I].
    cbn [Listing.branches]. apply list_sessions_branches. constructor.
Qed.

End BranchSets.

(** ** What the handlers answer to a failure (C8) *)

Section Failures.

Context {rt : Runtime} {fs : FileSystem} {dirs : Directories}
  {clock : Clock} {num : Numbers}.

Lemma get_stats_run (t : Server.trace) :
  Server.get_stats t =
    Done (match Notions.cache_value with
          | Ok stats => {| Server.status := 200; Server.body := stats |}
          | Throw details =>
              {| Server.status := 500;
                 Server.body := Spec.error_body "Failed to read stats" details |}
          end)
         (t ++ [Server.Call_readFileSync Server.STATS_CACHE])%list.
Proof.
  unfold Notions.cache_value, Server.get_stats, Server.fs_readFileSync, Server.log,
    try_catch, bind, modify, lift, ret.
  destruct (readFileSync Server.STATS_CACHE) as [content | details]; [| reflexivity].
  destruct (JSON_parse content); reflexivity.
Qed.

Lemma list_projects_Done (projects : list string) : forall tr,
  Notions.listable projects ->
  exists rows tr', Listing.map_M Listing.list_project projects tr = Done rows tr'.
Proof.
  induction projects as [| d projects IH]; intros tr Hl.
  - exists [], tr. reflexivity.
  - destruct (Hl d (or_introl eq_refl)) as [files Hf].
    cbn [Listing.map_M]. unfold bind at 1.
    unfold Listing.list_project at 1. unfold bind, lift. rewrite Hf.
    match goal with
    | |- context [Listing.map_M Listing.list_project projects ?tr1] =>
        destruct (IH tr1 (fun d' H => Hl d' (or_intror H))) as (rows & tr' & Hrows)
    end.
    rewrite Hrows. eexists. eexists. reflexivity.
Qed.

Lemma visit_projects_Done (projects : list string) : forall a,
  Notions.listable projects ->
  exists a', for_of projects Timeline.visit_project a = Done tt a'.
Proof.
  induction projects as [| d projects IH]; intros a Hl.
  - exists a. reflexivity.
  - destruct (Hl d (or_introl eq_refl)) as [files Hf].
    cbn [for_of]. unfold bind at 1.
    unfold Timeline.visit_project at 1. unfold bind, lift, modify. rewrite Hf.
    apply IH. intros d' H. apply Hl. right. exact H.
Qed.

Lemma combine_Done (stats : json) (recent : list Timeline.session) :
  stats <> JNull -> exists timeline, Timeline.combine stats recent = Ok timeline.
Proof.
  intros Hs. unfold Timeline.combine.
  destruct (prop_or_null stats) as [-> | Hp]; [contradiction Hs; reflexivity |].
  rewrite !Hp. eexists. reflexivity.
Qed.

Ltac answered :=
  repeat match goal with
         | |- context [match ?x with _ => _ end] =>
             lazymatch x with
             | context [match _ with _ => _ end] => fail
             | _ => destruct x
             end
         end;
  eexists; eexists; (split; [reflexivity |]);
  first [ left; eexists; reflexivity | right; eexists; reflexivity ].

(** C8, as the code has it.  Every handler answers an exception that
    leaves its [try] block with status 500 and a structured error, an
    object with an [error] and its [details]; what differs is which
    failures are such exceptions.  A cache that cannot be read or parsed
    is one for the stats, the timeline and the summary handler.  A
    projects directory that cannot be listed (or an entry of it without
    [stat]) is one for the projects, the timeline and the summary handler.
    These three handlers and the history handler answer in all cases,
    with what they were asked for or with such an error.  A session file
    or a history log that cannot be read is no failure for any handler:
    the session-detail handler never answers with a server fault, it sends
    status 200 with the entries that were parsed (none for a file that
    cannot be read) and status 404 with an error object when neither file
    exists; the history handler answers a log that cannot be read with
    status 200 and no group; and the projects and the timeline handler
    send their listing whenever the directories can be listed, whatever
    the session files. *)
Theorem handler_failure_responses
  (project sessionId : string) (query_limit : option string) (t : Server.trace) :
  (exists resp,
     Server.get_stats t =
       Done resp (t ++ [Server.Call_readFileSync Server.STATS_CACHE])%list /\
     match Notions.cache_value with
     | Ok stats => Server.status resp = 200 /\ Server.body resp = stats
     | Throw details =>
         Server.status resp = 500 /\
         Server.body resp = Spec.error_body "Failed to read stats" details
     end) /\
  (forall details,
     Notions.cache_value = Throw details ->
     Timeline.get_timeline t =
       Done (Timeline.Failed 500 (Spec.error_body "Failed to build timeline" details))
            (t ++ [Server.Call_readFileSync Server.STATS_CACHE])%list /\
     Summary.get_summary t =
       Done (Summary.Failed 500 (Spec.error_body "Failed to get summary" details))
            (t ++ [Server.Call_readFileSync Server.STATS_CACHE])%list) /\
  (forall details,
     Notions.project_directories = Throw details ->
     Listing.get_projects t =
       Done (Listing.Failed 500 (Spec.error_body "Failed to read projects" details)) t /\
     forall stats,
       Notions.cache_value = Ok stats ->
       Timeline.get_timeline t =
         Done (Timeline.Failed 500 (Spec.error_body "Failed to build timeline" details))
              (t ++ [Server.Call_readFileSync Server.STATS_CACHE])%list /\
       exists details',
         Summary.get_summary t =
           Done (Summary.Failed 500 (Spec.error_body "Failed to get summary" details'))
                (t ++ [Server.Call_readFileSync Server.STATS_CACHE])%list) /\
  (exists answer t',
     Listing.get_projects t = Done answer t' /\
     ((exists rows, answer = Listing.Listed rows) \/
      exists details,
        answer = Listing.Failed 500 (Spec.error_body "Failed to read projects" details))) /\
  (exists answer t',
     Timeline.get_timeline t = Done answer t' /\
     ((exists timeline, answer = Timeline.Sent timeline) \/
      exists details,
        answer = Timeline.Failed 500 (Spec.error_body "Failed to build timeline" details))) /\
  (exists answer t',
     Summary.get_summary t = Done answer t' /\
     ((exists summary, answer = Summary.Sent summary) \/
      exists details,
        answer = Summary.Failed 500 (Spec.error_body "Failed to get summary" details))) /\
  (exists resp,
     History.get_history query_limit t =
       Done resp (t ++ [Server.Call_readFileSync History.HISTORY_FILE])%list /\
     (Server.status resp = 200 \/
      exists details,
        Server.status resp = 500 /\
        Server.body resp = Spec.error_body "Failed to read history" details)) /\
  (exists resp t',
     Server.get_session project sessionId t = Done resp t' /\
     if existsSync (Spec.session_path project sessionId)
     then Server.status resp = 200 /\
          Server.body resp = Spec.entries_of (Spec.session_path project sessionId)
     else if existsSync (Spec.agent_path project sessionId)
     then Server.status resp = 200 /\
          Server.body resp = Spec.entries_of (Spec.agent_path project sessionId)
     else Server.status resp = 404 /\
          Server.body resp = JObj [("error", JStr "Session not found")]) /\
  (forall filePath,
     Spec.entries_of filePath =
       match readFileSync filePath with
       | Ok content => JArr (filter truthy (Spec.parsed_values content))
       | Throw _ => JArr []
       end) /\
  (forall message,
     readFileSync History.HISTORY_FILE = Throw message ->
     exists resp,
       History.get_history query_limit t =
         Done resp (t ++ [Server.Call_readFileSync History.HISTORY_FILE])%list /\
       Server.status resp = 200 /\ Server.body resp = JObj []) /\
  (forall projects,
     Notions.project_directories = Ok projects ->
     Notions.listable projects ->
     (exists rows t', Listing.get_projects t = Done (Listing.Listed rows) t') /\
     forall stats,
       Notions.cache_value = Ok stats -> stats <> JNull ->
       exists timeline t', Timeline.get_timeline t = Done (Timeline.Sent timeline) t').
Proof.
  split.
  { rewrite get_stats_run. eexists. split; [reflexivity |].
    destruct Notions.cache_value; split; reflexivity. }
  split.
  { intros details Hc. unfold Notions.cache_value in Hc.
    unfold Timeline.get_timeline, Summary.get_summary, Server.fs_readFileSync, Server.log,
      try_catch, bind, modify, lift, ret.
    destruct (readFileSync Server.STATS_CACHE) as [content | m].
    - rewrite Hc. split; reflexivity.
    - inversion Hc. split; reflexivity. }
  split.
  { intros details Hd. unfold Notions.project_directories in Hd. split.
    - unfold Listing.get_projects, try_catch, bind, lift, ret.
      destruct (readdirSync Server.PROJECTS_DIR) as [entries | m].
      + rewrite Hd. reflexivity.
      + inversion Hd. reflexivity.
    - intros stats Hc. unfold Notions.cache_value in Hc.
      unfold Timeline.get_timeline, Summary.get_summary, Server.fs_readFileSync, Server.log,
        try_catch, bind, modify, lift, ret.
      destruct (readFileSync Server.STATS_CACHE) as [content | m]; [| discriminate Hc].
      rewrite Hc. split.
      + destruct (readdirSync Server.PROJECTS_DIR) as [entries | m].
        * rewrite Hd. reflexivity.
        * inversion Hd. reflexivity.
      + destruct (prop (Some stats) "modelUsage") as [modelUsage | m];
          [| eexists; reflexivity].
        destruct (for_of (Summary.usages modelUsage) Summary.cost_entry [])
          as [[] modelCosts | m modelCosts]; [| eexists; reflexivity].
        destruct (readdirSync Server.PROJECTS_DIR) as [entries | m].
        * rewrite Hd. eexists. reflexivity.
        * eexists. reflexivity. }
  split.
  { unfold Listing.get_projects, try_catch, bind, lift, ret. answered. }
  split.
  { unfold Timeline.get_timeline, Server.fs_readFileSync, Server.log,
      try_catch, bind, modify, lift, ret. answered. }
  split.
  { unfold Summary.get_summary, Server.fs_readFileSync, Server.log,
      try_catch, bind, modify, lift, ret. answered. }
  split.
  { rewrite get_history_run. eexists. split; [reflexivity |].
    destruct (for_of (Notions.selected query_limit) History.group_entry []);
      [left; reflexivity | right; eexists; split; reflexivity]. }
  split.
  { rewrite get_session_run.
    destruct (existsSync (Spec.session_path project sessionId));
      [| destruct (existsSync (Spec.agent_path project sessionId))];
      eexists; eexists; (split; [reflexivity | split; reflexivity]). }
  split.
  { intros filePath. unfold Spec.entries_of, Spec.file_values.
    destruct (readFileSync filePath); reflexivity. }
  split.
  { intros message Hm. rewrite get_history_run. eexists. split; [reflexivity |].
    unfold Notions.selected, Spec.file_values. rewrite Hm.
    unfold Array_slice. cbn [filter List.length]. rewrite skipn_nil. split; reflexivity. }
  intros projects Hd Hl. unfold Notions.project_directories in Hd. split.
  - unfold Listing.get_projects, try_catch, bind, lift, ret.
    destruct (readdirSync Server.PROJECTS_DIR) as [entries | m]; [| discriminate Hd].
    rewrite Hd. destruct (list_projects_Done projects t Hl) as (rows & t' & Hrows).
    rewrite Hrows. eexists. eexists. reflexivity.
  - intros stats Hc Hs. unfold Notions.cache_value in Hc.
    unfold Timeline.get_timeline, Server.fs_readFileSync, Server.log,
      try_catch, bind, modify, lift, ret.
    destruct (readFileSync Server.STATS_CACHE) as [content | m]; [| discriminate Hc].
    rewrite Hc.
    destruct (readdirSync Server.PROJECTS_DIR) as [entries | m]; [| discriminate Hd].
    rewrite Hd.
    match goal with
    | |- context [for_of projects Timeline.visit_project ?a] =>
        destruct (visit_projects_Done projects a Hl) as [a' Ha]
    end.
    rewrite Ha.
    destruct (combine_Done stats (Timeline.recentActivity a') Hs) as [timeline Ht].
    rewrite Ht. eexists. eexists. reflexivity.
Qed.

End Failures.
